(** * nativ-mcp: a shallow embedding of [src/nativ_mcp/server.py]

    The server is a thin adapter: every tool builds one HTTP request
    for the Nativ REST API, sends it through [NativClient._request] and
    renders the decoded JSON answer as text.  The embedding keeps the
    three things the Python code relies on:

    - Python values are dynamically typed, so JSON answers are modelled
      by an untyped [value] and every primitive ([dict.get], [d[k]],
      [len], [x > 0], slicing, [format(x, ".0f")]) may raise;
    - exceptions travel through an error monad that also threads the
      process environment and the trace of HTTP requests sent so far;
    - the upstream service, and the few library routines whose output
      is not fixed by this repository, are variables of a section. *)

From Stdlib Require Import String Ascii DecimalString.
From Stdlib Require Import ZArith NArith Bool Lia List.
From Stdlib Require Import Floats.SpecFloat.
Import ListNotations.

Set Warnings "-register-all,-notation-for-abbreviation".

Local Open Scope Z_scope.

(** ** Python strings

    A Python [str] is a sequence of Unicode code points; [len] and
    slicing count code points, so a string is a list of code points. *)

Notation str := (list N).

Fixpoint L (s : string) : str :=
  match s with
  | EmptyString => []
  | String a r => N_of_ascii a :: L r
  end.

Definition nl : str := [10%N].          (* "\n" *)
Definition dq : str := [34%N].          (* the double quote *)
Definition arrow : str := [8594%N].     (* U+2192 RIGHTWARDS ARROW *)
Definition emdash : str := [8212%N].    (* U+2014 EM DASH *)

Fixpoint str_eqb (a b : str) : bool :=
  match a, b with
  | [], [] => true
  | x :: a', y :: b' => N.eqb x y && str_eqb a' b'
  | _, _ => false
  end.

(** ["sep".join(parts)] *)
Fixpoint join (sep : str) (parts : list str) : str :=
  match parts with
  | [] => []
  | [p] => p
  | p :: rest => p ++ sep ++ join sep rest
  end.

(** [s.rstrip("/")] *)
Fixpoint rstrip_slash (s : str) : str :=
  match s with
  | [] => []
  | c :: r =>
      match rstrip_slash r with
      | [] => if N.eqb c 47 then [] else [c]
      | r' => c :: r'
      end
  end.

(** [str(n)] for a Python [int]. *)
Definition dec (z : Z) : str := L (NilZero.string_of_int (Z.to_int z)).

(** [a.startswith(p)] *)
Fixpoint starts_with (p a : str) : bool :=
  match p, a with
  | [], _ => true
  | x :: p', y :: a' => N.eqb x y && starts_with p' a'
  | _ :: _, [] => false
  end.

(** ** Python values and exceptions *)

Inductive value :=
| VNone
| VBool (b : bool)
| VInt (z : Z)
| VFloat (f : spec_float)
| VStr (s : str)
| VList (l : list value)
| VDict (d : list (str * value)).

Definition dict := list (str * value).

Inductive exn :=
| RuntimeError (msg : str)
| HTTPStatusError (status : Z) (msg : str)   (* httpx: [raise_for_status] *)
| TransportError (msg : str)                 (* httpx: timeout, DNS, reset *)
| JSONDecodeError (msg : str)
| KeyError (key : str)
| KeyErrorSlice (stop : nat)       (* [KeyError(slice(None, stop, None))] *)
| TypeError (msg : str)
| AttributeError (msg : str)
| ValueError (msg : str)
| OverflowError (msg : str).

(** [str(e)]; a [KeyError] prints the [repr] of the missing key. *)
Definition exn_str (e : exn) : str :=
  match e with
  | RuntimeError m | HTTPStatusError _ m | TransportError m
  | JSONDecodeError m | TypeError m | AttributeError m
  | ValueError m | OverflowError m => m
  | KeyError k => L "'" ++ k ++ L "'"
  | KeyErrorSlice stop =>
      L "slice(None, " ++ dec (Z.of_nat stop) ++ L ", None)"
  end.

(** A computation that may raise. *)
Definition Res (A : Type) := (exn + A)%type.
Definition Ok {A} (a : A) : Res A := inr a.
Definition Err {A} (e : exn) : Res A := inl e.

Definition type_name (v : value) : str :=
  match v with
  | VNone => L "NoneType"
  | VBool _ => L "bool"
  | VInt _ => L "int"
  | VFloat _ => L "float"
  | VStr _ => L "str"
  | VList _ => L "list"
  | VDict _ => L "dict"
  end.

(** Truth value of an object, as [if x:], [x or y] and [not x] use it. *)
Definition truthy (v : value) : bool :=
  match v with
  | VNone => false
  | VBool b => b
  | VInt z => negb (Z.eqb z 0)
  | VFloat (S754_zero _) => false
  | VFloat _ => true
  | VStr s => match s with [] => false | _ => true end
  | VList l => match l with [] => false | _ => true end
  | VDict d => match d with [] => false | _ => true end
  end.

Definition py_or (a b : value) : value := if truthy a then a else b.

(** *** Dictionaries keep insertion order; keys are strings. *)

Fixpoint dict_get (d : dict) (k : str) : option value :=
  match d with
  | [] => None
  | (k', v) :: r => if str_eqb k' k then Some v else dict_get r k
  end.

(** [d[k] = v] *)
Fixpoint dict_set (d : dict) (k : str) (v : value) : dict :=
  match d with
  | [] => [(k, v)]
  | (k', v') :: r =>
      if str_eqb k' k then (k', v) :: r else (k', v') :: dict_set r k v
  end.

Definition no_attr (v : value) (a : string) : exn :=
  AttributeError (L "'" ++ type_name v ++ L "' object has no attribute '"
                    ++ L a ++ L "'").

(** [x.get(k, default)]: only a [dict] has the method. *)
Definition py_get (x : value) (k : str) (default : value) : Res value :=
  match x with
  | VDict d => Ok (match dict_get d k with Some v => v | None => default end)
  | _ => Err (no_attr x "get")
  end.

(** [x[k]] with a string key. *)
Definition py_getitem (x : value) (k : str) : Res value :=
  match x with
  | VDict d =>
      match dict_get d k with Some v => Ok v | None => Err (KeyError k) end
  | VStr _ => Err (TypeError (L "string indices must be integers, not 'str'"))
  | VList _ =>
      Err (TypeError (L "list indices must be integers or slices, not str"))
  | _ => Err (TypeError (L "'" ++ type_name x
                           ++ L "' object is not subscriptable"))
  end.

(** [x > 0] *)
Definition py_gt0 (x : value) : Res bool :=
  match x with
  | VBool b => Ok b
  | VInt z => Ok (0 <? z)
  | VFloat f => Ok (SFltb (S754_zero false) f)
  | _ => Err (TypeError (L "'>' not supported between instances of '"
                           ++ type_name x ++ L "' and 'int'"))
  end.

(** [len(x)] *)
Definition py_len (x : value) : Res Z :=
  match x with
  | VStr s => Ok (Z.of_nat (length s))
  | VList l => Ok (Z.of_nat (length l))
  | VDict d => Ok (Z.of_nat (length d))
  | _ => Err (TypeError (L "object of type '" ++ type_name x
                           ++ L "' has no len()"))
  end.

(** The items a [for] loop draws from [x]. *)
Definition py_iter (x : value) : Res (list value) :=
  match x with
  | VList l => Ok l
  | VStr s => Ok (map (fun c => VStr [c]) s)
  | VDict d => Ok (map (fun kv => VStr (fst kv)) d)
  | _ => Err (TypeError (L "'" ++ type_name x ++ L "' object is not iterable"))
  end.

(** [x[:n]]: strings and lists are sliced; nothing else has items.  A
    [dict] takes the slice for a key: up to Python 3.11 a slice is not
    hashable and the lookup is a [TypeError]; from Python 3.12 it is, and
    the lookup is a [KeyError] for the slice.  [hashable_slices] tells
    which interpreter runs the server. *)
Definition py_slice_to (hashable_slices : bool) (x : value) (n : nat)
    : Res value :=
  match x with
  | VStr s => Ok (VStr (firstn n s))
  | VList l => Ok (VList (firstn n l))
  | VDict _ =>
      if hashable_slices then Err (KeyErrorSlice n)
      else Err (TypeError (L "unhashable type: 'slice'"))
  | _ => Err (TypeError (L "'" ++ type_name x
                           ++ L "' object is not subscriptable"))
  end.

(** [x + "..."] with a string on the right. *)
Definition py_add_str (x : value) (s : str) : Res value :=
  match x with
  | VStr a => Ok (VStr (a ++ s))
  | VList _ =>
      Err (TypeError (L "can only concatenate list (not " ++ dq ++ L "str"
                        ++ dq ++ L ") to list"))
  | _ => Err (TypeError (L "unsupported operand type(s) for +: '"
                           ++ type_name x ++ L "' and 'str'"))
  end.

(** ["sep".join(items)] on a list that may hold a non-string. *)
Fixpoint py_join_from (i : Z) (items : list value) : Res (list str) :=
  match items with
  | [] => Ok []
  | VStr s :: rest =>
      match py_join_from (i + 1) rest with
      | inr l => Ok (s :: l)
      | inl e => Err e
      end
  | v :: _ =>
      Err (TypeError (L "sequence item " ++ dec i
                        ++ L ": expected str instance, "
                        ++ type_name v ++ L " found"))
  end.

Definition py_join (sep : str) (items : list value) : Res str :=
  match py_join_from 0 items with
  | inr l => Ok (join sep l)
  | inl e => Err e
  end.

(** *** [format(x, ".0f")]

    A float is printed as the exact decimal expansion of its value,
    rounded to an integer with ties to even; an [int] or [bool] is first
    converted to the nearest binary64 float, which overflows from
    [2^1024 - 2^970] on. *)

Definition round_half_even (m : Z) (e : Z) : Z :=
  if 0 <=? e then m * 2 ^ e
  else
    let d := 2 ^ (- e) in
    let q := m / d in
    let r := m mod d in
    if 2 * r <? d then q
    else if d <? 2 * r then q + 1
    else if Z.even q then q else q + 1.

Definition format_float_0f (f : spec_float) : str :=
  match f with
  | S754_nan => L "nan"
  | S754_infinity s => (if s then L "-" else []) ++ L "inf"
  | S754_zero s => (if s then L "-" else []) ++ L "0"
  | S754_finite s m e =>
      (if s then L "-" else []) ++ dec (round_half_even (Zpos m) e)
  end.

Definition float_of_int (z : Z) : Res spec_float :=
  match binary_normalize 53 1024 z 0 false with
  | S754_infinity _ => Err (OverflowError (L "int too large to convert to float"))
  | f => Ok f
  end.

Definition format_0f (x : value) : Res str :=
  match x with
  | VFloat f => Ok (format_float_0f f)
  | VInt z =>
      match float_of_int z with
      | inr f => Ok (format_float_0f f)
      | inl e => Err e
      end
  | VBool b => Ok (if b then L "1" else L "0")
  | VStr _ =>
      Err (ValueError (L "Unknown format code 'f' for object of type 'str'"))
  | _ => Err (TypeError (L "unsupported format string passed to "
                           ++ type_name x ++ L ".__format__"))
  end.


(** ** HTTP messages, the process state and the monad of handlers *)

Record Request := mkRequest {
  req_method : str;
  req_url : str;
  req_headers : list (str * str);
  req_json : option dict;        (* [json=]: the request body *)
  req_params : option dict       (* [params=]: the query string *)
}.

(** What the adapter reads of a response: the status code and the
    outcome of [resp.json()]. *)
Record Response := mkResponse {
  status_code : Z;
  resp_json : Res value
}.

(** The process environment ([os.environ]) and the requests sent so far. *)
Record World := mkWorld {
  environ : list (str * str);
  sent : list Request
}.

Definition M (A : Type) := World -> Res A * World.

Definition record_request (req : Request) (w : World) : World :=
  {| environ := environ w; sent := sent w ++ [req] |}.

Class Monad (m : Type -> Type) := {
  ret : forall {A}, A -> m A;
  bind : forall {A B}, m A -> (A -> m B) -> m B
}.

#[export] Instance Monad_Res : Monad Res := {
  ret A a := inr a;
  bind A B c k := match c with inl e => inl e | inr a => k a end
}.

#[export] Instance Monad_M : Monad M := {
  ret A a := fun w => (inr a, w);
  bind A B c k := fun w =>
    match c w with
    | (inl e, w') => (inl e, w')
    | (inr a, w') => k a w'
    end
}.

Notation "x <- c ;; k" := (bind c (fun x => k))
  (at level 61, c at next level, right associativity).

(** [raise e] *)
Definition raise {A} (e : exn) : M A := fun w => (inl e, w).

(** A pure computation run inside a handler. *)
Definition lift {A} (c : Res A) : M A := fun w => (c, w).

(** [try: c  except Exception as e: h e] *)
Definition try_except {A} (c : M A) (h : exn -> M A) : M A := fun w =>
  match c w with
  | (inl e, w') => h e w'
  | (inr a, w') => (inr a, w')
  end.

Fixpoint mapM {m} `{Monad m} {A B} (f : A -> m B) (l : list A) : m (list B) :=
  match l with
  | [] => ret []
  | a :: r => b <- f a ;; bs <- mapM f r ;; ret (b :: bs)
  end.

(** [enumerate(l)], counting from [i]. *)
Fixpoint enumerate_from {A} (i : Z) (l : list A) : list (Z * A) :=
  match l with
  | [] => []
  | a :: r => (i, a) :: enumerate_from (i + 1) r
  end.

Definition enumerate {A} (l : list A) : list (Z * A) := enumerate_from 0 l.

(** [os.environ.get(k)] *)
Fixpoint env_get (env : list (str * str)) (k : str) : option str :=
  match env with
  | [] => None
  | (k', v) :: r => if str_eqb k' k then Some v else env_get r k
  end.

Definition getenv (k : str) : M (option str) :=
  fun w => (inr (env_get (environ w) k), w).

(** [x or None] for a string argument, and the test [if x:] on the
    optional string it yields. *)
Definition or_none (s : str) : option str :=
  match s with [] => None | _ => Some s end.

Definition opt_truthy (o : option str) : bool :=
  match o with Some (_ :: _) => true | _ => false end.

Definition set_if_truthy (body : dict) (k : string) (o : option str) : dict :=
  match o with
  | Some (c :: s) => dict_set body (L k) (VStr (c :: s))
  | _ => body
  end.

(** ** Constants of the source *)

Definition DEFAULT_API_URL : str := L "https://api.usenativ.com".

Definition INSUFFICIENT_CREDITS : str :=
  L "Insufficient Nativ credits. Top up at https://dashboard.usenativ.com".

Definition MISSING_API_KEY : str :=
  L "NATIV_API_KEY environment variable is required. "
  ++ L "Create one at https://dashboard.usenativ.com " ++ arrow
  ++ L " Settings " ++ arrow ++ L " API Keys".

Record NativClient := mkClient {
  base_url : str;
  headers : list (str * str)
}.

(** [NativClient.__init__] *)
Definition NativClient_init (api_key : str) (url : option str) : NativClient :=
  {| base_url :=
       rstrip_slash (if opt_truthy url
                     then match url with Some u => u | None => [] end
                     else DEFAULT_API_URL);
     headers := [ (L "X-API-Key", api_key);
                  (L "Content-Type", L "application/json");
                  (L "User-Agent", L "nativ-mcp/0.1.0") ] |}.

(** [httpx]'s [Response.raise_for_status]: every status outside 200..299
    raises; the text of the message is the library's. *)
Definition is_success (status : Z) : bool :=
  (200 <=? status) && (status <=? 299).

(** ** Sample worlds, answers and library routines

    Concrete data on which the statements below are run. *)

Module Sample.

Definition repr (v : value) : str := L "<object>".

Definition status_message (req : Request) (resp : Response) : str :=
  L "HTTP status " ++ dec (status_code resp).

Definition json_dumps (v : value) : str := L "<json>".

(** The server runs on Python 3.12 or later. *)
Definition hashable_slices : bool := true.

(** A process started with the credential, and one started without. *)
Definition ready : World :=
  {| environ := [(L "NATIV_API_KEY", L "nativ_test_key")]; sent := [] |}.

Definition bare : World := {| environ := []; sent := [] |}.

(** An upstream that answers every request with status 200 and [v]. *)
Definition answers (v : value) : list Request -> Request -> Res Response :=
  fun _ _ => Ok {| status_code := 200; resp_json := Ok v |}.

(** An upstream that answers every request with [status] and no JSON. *)
Definition refuses (status : Z) : list Request -> Request -> Res Response :=
  fun _ _ =>
    Ok {| status_code := status;
          resp_json := Err (JSONDecodeError (L "Expecting value")) |}.

(** An upstream whose second request times out. *)
Definition second_times_out (v : value)
    : list Request -> Request -> Res Response :=
  fun history _ =>
    match history with
    | [_] => Err (TransportError (L "timed out"))
    | _ => Ok {| status_code := 200; resp_json := Ok v |}
    end.

Definition bonjour : value :=
  VDict [ (L "translated_text", VStr (L "Bonjour")) ].

(** 87.5, and a TM match that carries it. *)
Definition score_87_5 : spec_float := S754_finite false 175 (-1).

Definition tm_hello : value :=
  VDict [ (L "score", VFloat score_87_5);
          (L "match_type", VStr (L "fuzzy"));
          (L "source_text", VStr (L "Hello"));
          (L "target_text", VStr (L "Bonjour")) ].

Definition tm_zero : value :=
  VDict [ (L "score", VInt 0);
          (L "source_text", VStr (L "Hello"));
          (L "target_text", VStr (L "Bonjour")) ].

Definition translated_with (tm : value) : value :=
  VDict [ (L "translated_text", VStr (L "Bonjour")); (L "tm_match", tm) ].

(** A match without a score and a language without a name. *)
Definition tm_without_score : value :=
  VDict [ (L "source_text", VStr (L "Hello"));
          (L "target_text", VStr (L "Bonjour")) ].

Definition language_without_name : value :=
  VDict [ (L "language_code", VStr (L "fr")) ].

(** A match without a target text and a language without a code. *)
Definition tm_without_target : value :=
  VDict [ (L "score", VInt 100); (L "source_text", VStr (L "Hello")) ].

Definition language_without_code : value :=
  VDict [ (L "language", VStr (L "French")) ].

(** Statistics with two provenance buckets, one of them unknown. *)
Definition stats : value :=
  VDict [ (L "total", VInt 5); (L "enabled", VInt 4);
          (L "by_source",
           VDict [ (L "manual", VDict [ (L "total", VInt 3);
                                        (L "enabled", VInt 2) ]);
                   (L "imported", VDict [ (L "total", VInt 2) ]) ]) ].

Definition french : value :=
  VDict [ (L "language", VStr (L "French"));
          (L "language_code", VStr (L "fr")) ].

Definition matches (ms : list value) : value := VDict [ (L "matches", VList ms) ].

Definition languages (ls : list value) : value :=
  VDict [ (L "languages", VList ls) ].

Definition letters (n : nat) : str := repeat 97%N n.

Definition brand (prompt : str) : value :=
  VDict [ (L "exists", VBool true); (L "prompt", VStr prompt) ].

Definition guide (title content : str) : value :=
  VDict [ (L "title", VStr title); (L "content", VStr content);
          (L "is_enabled", VBool true) ].

Definition guides (gs : list value) : value := VDict [ (L "guides", VList gs) ].


(** An upstream that cannot be reached. *)
Definition unreachable : list Request -> Request -> Res Response :=
  fun _ _ => Err (TransportError (L "connection refused")).

(** A process whose base URL override ends with slashes. *)
Definition staging : World :=
  {| environ := [ (L "NATIV_API_KEY", L "nativ_test_key");
                  (L "NATIV_API_URL", L "https://staging.example//") ];
     sent := [] |}.

Definition full_translation : value :=
  VDict [ (L "translated_text", VStr (L "Bonjour"));
          (L "backtranslation", VStr (L "Hello"));
          (L "rationale", VStr (L "Common greeting")) ].

End Sample.

Section Server.

(** The upstream service answers a request, possibly depending on the
    requests it has already received; a transport fault is an exception. *)
Variable upstream : list Request -> Request -> Res Response.

(** Library routines whose text this repository does not fix:
    the message of [httpx]'s status error, [str()] of a float, list or
    dict, and [json.dumps(data, indent=2, ensure_ascii=False, default=str)]. *)
Variable status_message : Request -> Response -> str.
Variable repr : value -> str.
Variable json_dumps : value -> str.

(** The interpreter: whether slices are hashable (Python 3.12 and later). *)
Variable hashable_slices : bool.

(** [f"{x}"] *)
Definition py_str (x : value) : str :=
  match x with
  | VStr s => s
  | VNone => L "None"
  | VBool true => L "True"
  | VBool false => L "False"
  | VInt z => dec z
  | _ => repr x
  end.

(** [await client.request(...)]: one outbound call, recorded. *)
Definition http_request (req : Request) : M Response := fun w =>
  (upstream (sent w) req, record_request req w).

Definition raise_for_status (req : Request) (resp : Response) : M unit :=
  if is_success (status_code resp) then ret tt
  else raise (HTTPStatusError (status_code resp) (status_message req resp)).

(** *** The API client *)

Definition NativClient__request (self : NativClient) (method path : str)
    (json_body params : option dict) : M value :=
  let req := {| req_method := method;
                req_url := base_url self ++ path;
                req_headers := headers self;
                req_json := json_body;
                req_params := params |} in
  resp <- http_request req ;;
  if status_code resp =? 402 then raise (RuntimeError INSUFFICIENT_CREDITS)
  else
    _ <- raise_for_status req resp ;;
    lift (resp_json resp).

(** The body that [NativClient.translate] posts. *)
Definition translate_body (text language : str) (language_code : option str)
    (source_language source_language_code : str)
    (context glossary formality : option str) (max_characters : option Z)
    (include_tm_info backtranslate include_rationale : bool) : dict :=
  let body := [ (L "text", VStr text);
                (L "language", VStr language);
                (L "source_language", VStr source_language);
                (L "source_language_code", VStr source_language_code);
                (L "tool", VStr (L "api"));
                (L "include_tm_info", VBool include_tm_info);
                (L "backtranslate", VBool backtranslate);
                (L "include_rationale", VBool include_rationale) ] in
  let body := set_if_truthy body "language_code" language_code in
  let body := set_if_truthy body "context" context in
  let body := set_if_truthy body "glossary" glossary in
  let body := set_if_truthy body "formality" formality in
  match max_characters with
  | Some n => dict_set body (L "max_characters") (VInt n)
  | None => body
  end.

Definition NativClient_translate (self : NativClient) (text language : str)
    (language_code : option str) (source_language source_language_code : str)
    (context glossary formality : option str) (max_characters : option Z)
    (include_tm_info backtranslate include_rationale : bool) : M value :=
  NativClient__request self (L "POST") (L "/text/culturalize")
    (Some (translate_body text language language_code source_language
             source_language_code context glossary formality max_characters
             include_tm_info backtranslate include_rationale))
    None.

Definition NativClient_get_languages (self : NativClient) : M value :=
  NativClient__request self (L "GET") (L "/user/languages") None None.

Definition NativClient_search_tm (self : NativClient) (query source_lang : str)
    (target_lang : option str) (score_cutoff : spec_float) (limit : Z)
    : M value :=
  let params := [ (L "query", VStr query);
                  (L "source_lang", VStr source_lang);
                  (L "score_cutoff", VFloat score_cutoff);
                  (L "limit", VInt limit) ] in
  let params := set_if_truthy params "target_lang" target_lang in
  NativClient__request self (L "GET") (L "/master-tm/fuzzy-search")
    None (Some params).

Definition NativClient_list_tm_entries (self : NativClient)
    (source_lang target_lang search : option str) (limit offset : Z)
    : M value :=
  let params := [ (L "limit", VInt limit); (L "offset", VInt offset) ] in
  let params := set_if_truthy params "source_lang" source_lang in
  let params := set_if_truthy params "target_lang" target_lang in
  let params := set_if_truthy params "search" search in
  NativClient__request self (L "GET") (L "/master-tm/entries")
    None (Some params).

Definition NativClient_add_tm_entry (self : NativClient)
    (source_text target_text source_language_code target_language_code : str)
    (source_name : option str) : M value :=
  let body := [ (L "source_text", VStr source_text);
                (L "target_text", VStr target_text);
                (L "source_language_code", VStr source_language_code);
                (L "target_language_code", VStr target_language_code);
                (L "information_source", VStr (L "manual")) ] in
  let body := set_if_truthy body "source_name" source_name in
  NativClient__request self (L "POST") (L "/master-tm/entries")
    (Some body) None.

Definition NativClient_get_tm_stats (self : NativClient) : M value :=
  NativClient__request self (L "GET") (L "/master-tm/stats") None None.

Definition NativClient_list_style_guides (self : NativClient) : M value :=
  NativClient__request self (L "GET") (L "/style-guide") None None.

Definition NativClient_get_brand_prompt (self : NativClient) : M value :=
  NativClient__request self (L "GET") (L "/style-guide/prompt") None None.

Definition NativClient_get_combined_prompt (self : NativClient) : M value :=
  NativClient__request self (L "GET") (L "/style-guide/combined") None None.

(** *** Helpers *)

Definition _get_client : M NativClient :=
  api_key <- getenv (L "NATIV_API_KEY") ;;
  if opt_truthy api_key then
    url <- getenv (L "NATIV_API_URL") ;;
    ret (NativClient_init
           (match api_key with Some k => k | None => [] end) url)
  else raise (RuntimeError MISSING_API_KEY).

Definition _fmt_json (data : value) : str := json_dumps data.

(** *** Tools

    Each tool is the Python handler: obtain the client, call it, render
    the answer.  The rendering is a pure function of the decoded JSON. *)

(** The TM annotation of [translate]: the test [tm and tm.get("score", 0) > 0]
    and the lines appended under it. *)
Definition tm_annotation (tm : value) : Res (list str) :=
  if truthy tm then
    score <- py_get tm (L "score") (VInt 0) ;;
    positive <- py_gt0 score ;;
    if (positive : bool) then
      score <- py_getitem tm (L "score") ;;
      pct <- format_0f score ;;
      match_type <- py_get tm (L "match_type") (VStr (L "unknown")) ;;
      tm_source <- py_get tm (L "tm_source") (VStr (L "N/A")) ;;
      let line := nl ++ L "**TM Match:** " ++ pct ++ L "% ("
                    ++ py_str match_type ++ L ") " ++ emdash ++ L " source: "
                    ++ py_str tm_source in
      src <- py_get tm (L "source_text") VNone ;;
      if truthy src then
        src <- py_getitem tm (L "source_text") ;;
        tgt <- py_get tm (L "target_text") (VStr []) ;;
        ret [ line;
              L "  TM reference: " ++ dq ++ py_str src ++ dq ++ L " "
                ++ arrow ++ L " " ++ dq ++ py_str tgt ++ dq ]
      else ret [line]
    else ret []
  else ret [].

(** An optional section of [translate]: [if result.get(k): ... result[k]]. *)
Definition optional_section (result : value) (k : string) (title : string)
    : Res (list str) :=
  v <- py_get result (L k) VNone ;;
  if truthy v then
    v <- py_getitem result (L k) ;;
    ret [nl ++ L title ++ py_str v]
  else ret [].

Definition translate_parts (target_language : str) (result : value)
    : Res (list str) :=
  translated <- py_get result (L "translated_text") (VStr []) ;;
  let parts := [ L "**Translation (" ++ target_language ++ L "):** "
                   ++ py_str translated ] in
  tm <- py_get result (L "tm_match") VNone ;;
  tm_lines <- tm_annotation tm ;;
  let parts := parts ++ tm_lines in
  back <- optional_section result "backtranslation" "**Back-translation:** " ;;
  let parts := parts ++ back in
  rationale <- optional_section result "rationale" "**Rationale:** " ;;
  ret (parts ++ rationale).

Definition translate (text target_language target_language_code
    source_language source_language_code context glossary formality : str)
    (max_characters : Z) (backtranslate : bool) : M str :=
  client <- _get_client ;;
  result <- NativClient_translate client text target_language
              (or_none target_language_code)
              source_language source_language_code
              (or_none context) (or_none glossary) (or_none formality)
              (if 0 <? max_characters then Some max_characters else None)
              true backtranslate true ;;
  parts <- lift (translate_parts target_language result) ;;
  ret (join nl parts).

(** [translate] with every optional parameter at its declared default. *)
Definition translate_with_defaults (text target_language : str) : M str :=
  translate text target_language [] (L "English") (L "en") [] [] [] 0 false.

(** The body of the [try] in [translate_batch], after the call. *)
Definition batch_line (i : Z) (text : str) (result : value) : Res str :=
  translated <- py_get result (L "translated_text") (VStr []) ;;
  tm <- py_get result (L "tm_match") VNone ;;
  tm_note <-
    (if truthy tm then
       score <- py_get tm (L "score") (VInt 0) ;;
       positive <- py_gt0 score ;;
       if (positive : bool) then
         score <- py_getitem tm (L "score") ;;
         pct <- format_0f score ;;
         ret (L " (TM " ++ pct ++ L "%)")
       else ret []
     else ret []) ;;
  ret (dec (i + 1) ++ L ". " ++ dq ++ text ++ dq ++ L " " ++ arrow ++ L " "
         ++ dq ++ py_str translated ++ dq ++ tm_note).

Definition batch_error_line (i : Z) (text : str) (e : exn) : str :=
  dec (i + 1) ++ L ". " ++ dq ++ text ++ dq ++ L " " ++ arrow
    ++ L " ERROR: " ++ exn_str e.

(** One turn of the loop of [translate_batch]. *)
Definition batch_item (client : NativClient) (target_language
    target_language_code source_language source_language_code context
    formality : str) (it : Z * str) : M str :=
  let '(i, text) := it in
  try_except
    (result <- NativClient_translate client text target_language
                 (or_none target_language_code)
                 source_language source_language_code
                 (or_none context) None (or_none formality) None
                 true false false ;;
     lift (batch_line i text result))
    (fun e => ret (batch_error_line i text e)).

Definition translate_batch (texts : list str) (target_language
    target_language_code source_language source_language_code context
    formality : str) : M str :=
  client <- _get_client ;;
  results <- mapM (batch_item client target_language target_language_code
                     source_language source_language_code context formality)
                  (enumerate texts) ;;
  let header := L "**Batch translation to " ++ target_language ++ L "** ("
                  ++ dec (Z.of_nat (length texts)) ++ L " items):" ++ nl in
  ret (header ++ join nl results).

(** A bullet of [search_translation_memory]. *)
Definition tm_match_line (m : value) : Res str :=
  score <- py_getitem m (L "score") ;;
  pct <- format_0f score ;;
  match_type <- py_get m (L "match_type") (VStr []) ;;
  source_text <- py_getitem m (L "source_text") ;;
  target_text <- py_getitem m (L "target_text") ;;
  information_source <- py_get m (L "information_source") (VStr (L "N/A")) ;;
  ret (L "- **" ++ pct ++ L "%** [" ++ py_str match_type ++ L "] "
         ++ dq ++ py_str source_text ++ dq ++ L " " ++ arrow ++ L " "
         ++ dq ++ py_str target_text ++ dq ++ L " "
         ++ L "(source: " ++ py_str information_source ++ L ")").

Definition no_tm_matches (query : str) : str :=
  L "No translation memory matches found for " ++ dq ++ query ++ dq ++ L ".".

Definition search_render (query : str) (result : value) : Res str :=
  matches <- py_get result (L "matches") (VList []) ;;
  if negb (truthy matches) then ret (no_tm_matches query)
  else
    n <- py_len matches ;;
    let header := L "**TM Search Results** for " ++ dq ++ query ++ dq
                    ++ L " (" ++ dec n ++ L " matches):" ++ nl in
    items <- py_iter matches ;;
    lines <- mapM tm_match_line items ;;
    ret (join nl (header :: lines)).

Definition search_translation_memory (query source_language_code
    target_language_code : str) (min_score : spec_float) (limit : Z) : M str :=
  client <- _get_client ;;
  result <- NativClient_search_tm client query source_language_code
              (or_none target_language_code) min_score limit ;;
  lift (search_render query result).

(** The declared defaults: [source_language_code="en"],
    [target_language_code=""], [min_score=0.0], [limit=10]. *)
Definition search_translation_memory_with_defaults (query : str) : M str :=
  search_translation_memory query (L "en") [] (S754_zero false) 10.

Definition add_translation_memory_entry (source_text target_text
    source_language_code target_language_code name : str) : M str :=
  client <- _get_client ;;
  _ <- NativClient_add_tm_entry client source_text target_text
         source_language_code target_language_code (or_none name) ;;
  ret (L "Added TM entry: " ++ dq ++ source_text ++ dq ++ L " ("
         ++ source_language_code ++ L ") " ++ arrow ++ L " " ++ dq
         ++ target_text ++ dq ++ L " (" ++ target_language_code ++ L ")").

(** An entry of [get_languages]. *)
Definition language_entry (lang : value) : Res str :=
  formality <- py_get lang (L "formality") VNone ;;
  let formality := py_or formality (VStr (L "neutral")) in
  language <- py_getitem lang (L "language") ;;
  language_code <- py_getitem lang (L "language_code") ;;
  let parts := [ L "- **" ++ py_str language ++ L "** (`"
                   ++ py_str language_code ++ L "`) " ++ emdash
                   ++ L " formality: " ++ py_str formality ] in
  custom <- py_get lang (L "custom_style") VNone ;;
  if truthy custom then
    custom <- py_getitem lang (L "custom_style") ;;
    ret (join nl (parts ++ [L "  Custom style: " ++ py_str custom]))
  else ret (join nl parts).

Definition no_languages : str :=
  L "No languages configured. Set up languages at https://dashboard.usenativ.com".

Definition languages_render (result : value) : Res str :=
  languages <- py_get result (L "languages") (VList []) ;;
  if negb (truthy languages) then ret no_languages
  else
    n <- py_len languages ;;
    let header := L "**Configured Languages** (" ++ dec n ++ L "):" ++ nl in
    items <- py_iter languages ;;
    lines <- mapM language_entry items ;;
    ret (join nl (header :: lines)).

Definition get_languages : M str :=
  client <- _get_client ;;
  result <- NativClient_get_languages client ;;
  lift (languages_render result).

Definition source_labels : list (str * str) :=
  [ (L "brand_voice", L "Brand Voice");
    (L "phrase_tm", L "Phrase TM");
    (L "phrase_tb", L "Phrase Term Base");
    (L "user_glossary", L "User Glossary");
    (L "approved", L "Approved Translations");
    (L "manual", L "Manual Entries") ].

(** [by_source.items()] *)
Definition py_items (x : value) : Res (list (str * value)) :=
  match x with
  | VDict d => Ok d
  | _ => Err (no_attr x "items")
  end.

Definition source_line (item : str * value) : Res str :=
  let '(src, counts) := item in
  let label := match env_get source_labels src with
               | Some l => l
               | None => src
               end in
  total <- py_get counts (L "total") (VInt 0) ;;
  enabled <- py_get counts (L "enabled") (VInt 0) ;;
  ret (L "- " ++ label ++ L ": " ++ py_str total ++ L " entries ("
         ++ py_str enabled ++ L " enabled)").

Definition stats_render (stats : value) : Res str :=
  total <- py_get stats (L "total") (VInt 0) ;;
  enabled <- py_get stats (L "enabled") (VInt 0) ;;
  disabled <- py_get stats (L "disabled") (VInt 0) ;;
  let lines := [ L "**Translation Memory Statistics:**" ++ nl;
                 L "- Total entries: " ++ py_str total;
                 L "- Enabled: " ++ py_str enabled;
                 L "- Disabled: " ++ py_str disabled ] in
  by_source <- py_get stats (L "by_source") (VDict []) ;;
  if truthy by_source then
    items <- py_items by_source ;;
    rows <- mapM source_line items ;;
    ret (join nl (lines ++ [nl ++ L "**By Source:**"] ++ rows))
  else ret (join nl lines).

Definition get_translation_memory_stats : M str :=
  client <- _get_client ;;
  stats <- NativClient_get_tm_stats client ;;
  lift (stats_render stats).

(** The body shown for a guide: [content[:500] + "..."] past 500. *)
Definition guide_content (content : value) : Res value :=
  n <- py_len content ;;
  if 500 <? n then
    head <- py_slice_to hashable_slices content 500 ;;
    py_add_str head (L "...")
  else ret content.

(** The three items a guide appends to [lines]. *)
Definition guide_lines (g : value) : Res (list value) :=
  is_enabled <- py_get g (L "is_enabled") VNone ;;
  let status := if truthy is_enabled then L "enabled" else L "disabled" in
  title <- py_get g (L "title") (VStr (L "Untitled")) ;;
  content <- py_get g (L "content") (VStr []) ;;
  content <- guide_content content ;;
  ret [ VStr (L "### " ++ py_str title ++ L " (" ++ status ++ L ")");
        content;
        VStr [] ].

Definition no_style_guides : str :=
  L "No custom style guides configured. Create them at "
  ++ L "https://dashboard.usenativ.com " ++ arrow ++ L " Settings " ++ arrow
  ++ L " Style Guides".

Definition style_guides_render (result : value) : Res str :=
  guides <- py_get result (L "guides") (VList []) ;;
  if negb (truthy guides) then ret no_style_guides
  else
    n <- py_len guides ;;
    let header := L "**Style Guides** (" ++ dec n ++ L "):" ++ nl in
    items <- py_iter guides ;;
    blocks <- mapM guide_lines items ;;
    py_join nl (VStr header :: concat blocks).

Definition get_style_guides : M str :=
  client <- _get_client ;;
  result <- NativClient_list_style_guides client ;;
  lift (style_guides_render result).

Definition no_brand_voice : str :=
  L "No brand voice prompt configured. Set one up at "
  ++ L "https://dashboard.usenativ.com " ++ arrow ++ L " Settings " ++ arrow
  ++ L " Style Guides".

Definition brand_voice_header : str := L "**Brand Voice Prompt:**" ++ nl ++ nl.

Definition brand_voice_render (result : value) : Res str :=
  present <- py_get result (L "exists") VNone ;;
  if negb (truthy present) then ret no_brand_voice
  else
    prompt <- py_get result (L "prompt") (VStr []) ;;
    n <- py_len prompt ;;
    if 2000 <? n then
      head <- py_slice_to hashable_slices prompt 2000 ;;
      n <- py_len prompt ;;
      ret (brand_voice_header ++ py_str head ++ L "..." ++ nl ++ nl
             ++ L "(Truncated " ++ emdash ++ L " full prompt has " ++ dec n
             ++ L " characters)")
    else ret (brand_voice_header ++ py_str prompt).

Definition get_brand_voice : M str :=
  client <- _get_client ;;
  result <- NativClient_get_brand_prompt client ;;
  lift (brand_voice_render result).

(** *** Resources *)

Definition resource_languages : M str :=
  client <- _get_client ;;
  result <- NativClient_get_languages client ;;
  ret (_fmt_json result).

Definition resource_style_guides : M str :=
  client <- _get_client ;;
  result <- NativClient_list_style_guides client ;;
  ret (_fmt_json result).

Definition resource_brand_prompt : M str :=
  client <- _get_client ;;
  result <- NativClient_get_brand_prompt client ;;
  ret (_fmt_json result).

Definition resource_tm_stats : M str :=
  client <- _get_client ;;
  result <- NativClient_get_tm_stats client ;;
  ret (_fmt_json result).

(** *** Prompts: pure text, no client *)

Definition localize_content (content target_languages context : str) : str :=
  let parts :=
    [ L "You are helping localize content using Nativ's AI localization platform." ++ nl;
      L "## Instructions" ++ nl;
      L "1. First, call `get_languages` to see which languages are configured and their formality/style settings.";
      L "2. Call `get_brand_voice` to understand the brand's localization personality." ] in
  let parts :=
    parts ++
    [ match target_languages with
      | _ :: _ => L "3. Translate the content below into: **"
                    ++ target_languages ++ L "**"
      | [] => L "3. Translate the content below into **all configured languages**."
      end ] in
  let parts :=
    parts ++
    [ L "4. For each language, use the `translate` tool with the appropriate formality and context.";
      L "5. Present results in a clear table: Source | Language | Translation | TM Match %";
      [];
      L "## Content to Localize" ++ nl;
      content ] in
  let parts :=
    match context with
    | _ :: _ => parts ++ [ []; L "## Context" ++ nl; context ]
    | [] => parts
    end in
  join nl parts.

Definition review_translation (source_text translated_text target_language
    : str) : str :=
  join nl
    [ L "You are reviewing a translation for quality using Nativ." ++ nl;
      L "## Instructions" ++ nl;
      L "1. Call `get_brand_voice` to understand the brand's localization guidelines.";
      L "2. Call `get_style_guides` to check for any relevant style rules.";
      L "3. Call `search_translation_memory` with the source text to find existing TM matches for "
        ++ target_language ++ L ".";
      L "4. Compare the translation against TM matches and style guides.";
      L "5. Provide feedback on:";
      L "   - Accuracy: Does it preserve the original meaning?";
      L "   - Consistency: Does it match existing TM entries?";
      L "   - Brand voice: Does it follow style guide rules?";
      L "   - Tone: Is the formality level appropriate?";
      L "6. If the translation is good, suggest adding it to TM with `add_translation_memory_entry`.";
      [];
      L "## Source Text" ++ nl ++ source_text;
      [];
      L "## Translation (" ++ target_language ++ L ")" ++ nl ++ translated_text ].

Definition batch_localize_strings (strings target_languages format_hint : str)
    : str :=
  join nl
    [ L "You are batch-localizing i18n strings using Nativ." ++ nl;
      L "## Instructions" ++ nl;
      L "1. Call `get_languages` to see configured languages.";
      L "2. Parse the strings below (format hint: " ++ format_hint ++ L ").";
      L "3. Use `translate_batch` for each target language to translate all strings at once.";
      L "4. Output results in **" ++ format_hint
        ++ L "** format, preserving the original keys/structure.";
      L "5. If any TM matches are >= 90%, note them " ++ emdash
        ++ L " these are well-established translations.";
      [];
      L "## Target Languages" ++ nl
        ++ match target_languages with
           | _ :: _ => target_languages
           | [] => L "(all configured languages)"
           end;
      [];
      L "## Strings" ++ nl ++ L "```" ++ nl ++ strings ++ nl ++ L "```" ].

(** *** The catalog the dispatcher serves

    [main] only starts the dispatcher ([mcp.run(transport="stdio")]);
    a protocol request names one registered handler and its arguments. *)

Inductive handler :=
| Tool_translate (text target_language target_language_code source_language
    source_language_code context glossary formality : str)
    (max_characters : Z) (backtranslate : bool)
| Tool_translate_batch (texts : list str) (target_language
    target_language_code source_language source_language_code context
    formality : str)
| Tool_search_translation_memory (query source_language_code
    target_language_code : str) (min_score : spec_float) (limit : Z)
| Tool_add_translation_memory_entry (source_text target_text
    source_language_code target_language_code name : str)
| Tool_get_languages
| Tool_get_translation_memory_stats
| Tool_get_style_guides
| Tool_get_brand_voice
| Resource_languages
| Resource_style_guides
| Resource_brand_prompt
| Resource_tm_stats
| Prompt_localize_content (content target_languages context : str)
| Prompt_review_translation (source_text translated_text target_language : str)
| Prompt_batch_localize_strings (strings target_languages format_hint : str).

Definition is_prompt (h : handler) : bool :=
  match h with
  | Prompt_localize_content _ _ _
  | Prompt_review_translation _ _ _
  | Prompt_batch_localize_strings _ _ _ => true
  | _ => false
  end.

Definition serve (h : handler) : M str :=
  match h with
  | Tool_translate a b c d e f g h' i j => translate a b c d e f g h' i j
  | Tool_translate_batch a b c d e f g => translate_batch a b c d e f g
  | Tool_search_translation_memory a b c d e =>
      search_translation_memory a b c d e
  | Tool_add_translation_memory_entry a b c d e =>
      add_translation_memory_entry a b c d e
  | Tool_get_languages => get_languages
  | Tool_get_translation_memory_stats => get_translation_memory_stats
  | Tool_get_style_guides => get_style_guides
  | Tool_get_brand_voice => get_brand_voice
  | Resource_languages => resource_languages
  | Resource_style_guides => resource_style_guides
  | Resource_brand_prompt => resource_brand_prompt
  | Resource_tm_stats => resource_tm_stats
  | Prompt_localize_content a b c => ret (localize_content a b c)
  | Prompt_review_translation a b c => ret (review_translation a b c)
  | Prompt_batch_localize_strings a b c => ret (batch_localize_strings a b c)
  end.

(** The nine operations of the API client, with their arguments. *)
Inductive client_op :=
| Op_translate (text language : str) (language_code : option str)
    (source_language source_language_code : str)
    (context glossary formality : option str) (max_characters : option Z)
    (include_tm_info backtranslate include_rationale : bool)
| Op_get_languages
| Op_search_tm (query source_lang : str) (target_lang : option str)
    (score_cutoff : spec_float) (limit : Z)
| Op_list_tm_entries (source_lang target_lang search : option str)
    (limit offset : Z)
| Op_add_tm_entry (source_text target_text source_language_code
    target_language_code : str) (source_name : option str)
| Op_get_tm_stats
| Op_list_style_guides
| Op_get_brand_prompt
| Op_get_combined_prompt.

Definition call (self : NativClient) (op : client_op) : M value :=
  match op with
  | Op_translate a b c d e f g h i j k l =>
      NativClient_translate self a b c d e f g h i j k l
  | Op_get_languages => NativClient_get_languages self
  | Op_search_tm a b c d e => NativClient_search_tm self a b c d e
  | Op_list_tm_entries a b c d e => NativClient_list_tm_entries self a b c d e
  | Op_add_tm_entry a b c d e => NativClient_add_tm_entry self a b c d e
  | Op_get_tm_stats => NativClient_get_tm_stats self
  | Op_list_style_guides => NativClient_list_style_guides self
  | Op_get_brand_prompt => NativClient_get_brand_prompt self
  | Op_get_combined_prompt => NativClient_get_combined_prompt self
  end.

(** The request an operation sends. *)
Definition request_of (self : NativClient) (op : client_op) : Request :=
  let mk method path json_body params :=
    {| req_method := method; req_url := base_url self ++ path;
       req_headers := headers self;
       req_json := json_body; req_params := params |} in
  match op with
  | Op_translate a b c d e f g h i j k l =>
      mk (L "POST") (L "/text/culturalize")
         (Some (translate_body a b c d e f g h i j k l)) None
  | Op_get_languages => mk (L "GET") (L "/user/languages") None None
  | Op_search_tm query source_lang target_lang score_cutoff limit =>
      mk (L "GET") (L "/master-tm/fuzzy-search") None
         (Some (set_if_truthy
                  [ (L "query", VStr query);
                    (L "source_lang", VStr source_lang);
                    (L "score_cutoff", VFloat score_cutoff);
                    (L "limit", VInt limit) ] "target_lang" target_lang))
  | Op_list_tm_entries source_lang target_lang search limit offset =>
      mk (L "GET") (L "/master-tm/entries") None
         (Some (set_if_truthy
                  (set_if_truthy
                     (set_if_truthy
                        [ (L "limit", VInt limit); (L "offset", VInt offset) ]
                        "source_lang" source_lang)
                     "target_lang" target_lang)
                  "search" search))
  | Op_add_tm_entry a b c d source_name =>
      mk (L "POST") (L "/master-tm/entries")
         (Some (set_if_truthy
                  [ (L "source_text", VStr a);
                    (L "target_text", VStr b);
                    (L "source_language_code", VStr c);
                    (L "target_language_code", VStr d);
                    (L "information_source", VStr (L "manual")) ]
                  "source_name" source_name))
         None
  | Op_get_tm_stats => mk (L "GET") (L "/master-tm/stats") None None
  | Op_list_style_guides => mk (L "GET") (L "/style-guide") None None
  | Op_get_brand_prompt => mk (L "GET") (L "/style-guide/prompt") None None
  | Op_get_combined_prompt => mk (L "GET") (L "/style-guide/combined") None None
  end.

(** *** Vocabulary of the statements *)

(** The credential is set and not empty: [_get_client] accepts it. *)
Definition has_credential (w : World) : bool :=
  opt_truthy (env_get (environ w) (L "NATIV_API_KEY")).

(** The client [_get_client] builds in a world that has the credential. *)
Definition the_client (w : World) : NativClient :=
  NativClient_init
    (match env_get (environ w) (L "NATIV_API_KEY") with
     | Some k => k
     | None => []
     end)
    (env_get (environ w) (L "NATIV_API_URL")).

(** What [_request] makes of the upstream's answer to [req]
    (see [request_run]). *)
Definition decode (req : Request) (answer : Res Response) : Res value :=
  match answer with
  | inl e => Err e
  | inr resp =>
      if status_code resp =? 402 then Err (RuntimeError INSUFFICIENT_CREDITS)
      else if is_success (status_code resp) then resp_json resp
      else Err (HTTPStatusError (status_code resp) (status_message req resp))
  end.

(** What the client returns for [op] when called in world [w]. *)
Definition answer_of (self : NativClient) (op : client_op) (w : World)
    : Res value :=
  decode (request_of self op) (upstream (sent w) (request_of self op)).

(** The operation behind each call of the two translation tools. *)
Definition translate_op (text target_language target_language_code
    source_language source_language_code context glossary formality : str)
    (max_characters : Z) (backtranslate : bool) : client_op :=
  Op_translate text target_language (or_none target_language_code)
    source_language source_language_code
    (or_none context) (or_none glossary) (or_none formality)
    (if 0 <? max_characters then Some max_characters else None)
    true backtranslate true.

Definition batch_op (target_language target_language_code source_language
    source_language_code context formality text : str) : client_op :=
  Op_translate text target_language (or_none target_language_code)
    source_language source_language_code
    (or_none context) None (or_none formality) None
    true false false.

(** The line [translate_batch] shows for item [i], from the decoded
    answer to that item's request. *)
Definition batch_outcome (i : Z) (text : str) (answer : Res value) : str :=
  match (result <- answer ;; batch_line i text result) with
  | inr line => line
  | inl e => batch_error_line i text e
  end.

(** Read off the data, without running the renderer: the response
    carries a TM match whose score is a number greater than 0 ([True]
    counts as 1, as in Python). *)
Definition score_positive (score : value) : bool :=
  match score with
  | VBool b => b
  | VInt z => 0 <? z
  | VFloat f => SFltb (S754_zero false) f
  | _ => false
  end.

Definition positive_match (tm : value) : bool :=
  match tm with
  | VDict d =>
      match dict_get d (L "score") with
      | Some score => score_positive score
      | None => false
      end
  | _ => false
  end.

Definition has_positive_tm_match (result : value) : bool :=
  match result with
  | VDict d =>
      match dict_get d (L "tm_match") with
      | Some tm => positive_match tm
      | None => false
      end
  | _ => false
  end.

Definition is_tm_annotation (part : str) : bool :=
  starts_with (nl ++ L "**TM Match:** ") part.

(** [d.get(k, default)] as a total function on a dict. *)
Definition get_or (d : dict) (k : string) (default : value) : value :=
  match dict_get d (L k) with Some v => v | None => default end.

(** A TM search match that has its required fields and a score that
    [format(score, ".0f")] prints. *)
Definition well_formed_match (m : value) : Prop :=
  exists d score pct source_text target_text,
    m = VDict d
    /\ dict_get d (L "score") = Some score
    /\ format_0f score = Ok pct
    /\ dict_get d (L "source_text") = Some source_text
    /\ dict_get d (L "target_text") = Some target_text.

(** The body [get_style_guides] shows for a string content. *)
Definition shown_content (content : str) : str :=
  if 500 <? Z.of_nat (length content)
  then firstn 500 content ++ L "..."
  else content.

(** The request of one turn of [translate_batch]. *)
Definition batch_request (client : NativClient) (target_language
    target_language_code source_language source_language_code context
    formality text : str) : Request :=
  request_of client
    (batch_op target_language target_language_code source_language
       source_language_code context formality text).

(** *** Vocabulary of the further statements *)

(** The confirmation [add_translation_memory_entry] returns. *)
Definition tm_entry_added (source_text target_text source_language_code
    target_language_code : str) : str :=
  L "Added TM entry: " ++ dq ++ source_text ++ dq ++ L " ("
    ++ source_language_code ++ L ") " ++ arrow ++ L " " ++ dq
    ++ target_text ++ dq ++ L " (" ++ target_language_code ++ L ")".

(** For the handlers that make a single client call: the operation they
    call and what they do with its answer.  [translate_batch] calls once
    per text and the prompts never call. *)
Definition single_call (h : handler) : option (client_op * (value -> Res str)) :=
  match h with
  | Tool_translate text target_language target_language_code source_language
      source_language_code context glossary formality max_characters
      backtranslate =>
      Some (translate_op text target_language target_language_code
              source_language source_language_code context glossary
              formality max_characters backtranslate,
            fun result =>
              parts <- translate_parts target_language result ;;
              ret (join nl parts))
  | Tool_search_translation_memory query source_language_code
      target_language_code min_score limit =>
      Some (Op_search_tm query source_language_code
              (or_none target_language_code) min_score limit,
            search_render query)
  | Tool_add_translation_memory_entry source_text target_text
      source_language_code target_language_code name =>
      Some (Op_add_tm_entry source_text target_text source_language_code
              target_language_code (or_none name),
            fun _ => ret (tm_entry_added source_text target_text
                            source_language_code target_language_code))
  | Tool_get_languages => Some (Op_get_languages, languages_render)
  | Tool_get_translation_memory_stats => Some (Op_get_tm_stats, stats_render)
  | Tool_get_style_guides => Some (Op_list_style_guides, style_guides_render)
  | Tool_get_brand_voice => Some (Op_get_brand_prompt, brand_voice_render)
  | Resource_languages =>
      Some (Op_get_languages, fun result => ret (_fmt_json result))
  | Resource_style_guides =>
      Some (Op_list_style_guides, fun result => ret (_fmt_json result))
  | Resource_brand_prompt =>
      Some (Op_get_brand_prompt, fun result => ret (_fmt_json result))
  | Resource_tm_stats =>
      Some (Op_get_tm_stats, fun result => ret (_fmt_json result))
  | Tool_translate_batch _ _ _ _ _ _ _
  | Prompt_localize_content _ _ _
  | Prompt_review_translation _ _ _
  | Prompt_batch_localize_strings _ _ _ => None
  end.

(** The headers [NativClient.__init__] sets for the credential [key]. *)
Definition client_headers (key : str) : list (str * str) :=
  [ (L "X-API-Key", key);
    (L "Content-Type", L "application/json");
    (L "User-Agent", L "nativ-mcp/0.1.0") ].

(** The credential of a world, as [_get_client] reads it. *)
Definition credential (w : World) : str :=
  match env_get (environ w) (L "NATIV_API_KEY") with
  | Some key => key
  | None => []
  end.

(** The operations some handler calls: all but [list_tm_entries] and
    [get_combined_prompt]. *)
Definition reachable (op : client_op) : bool :=
  match op with
  | Op_list_tm_entries _ _ _ _ _ | Op_get_combined_prompt => false
  | _ => true
  end.

(** The headline of [translate]. *)
Definition headline (target_language : str) (translated : value) : str :=
  L "**Translation (" ++ target_language ++ L "):** " ++ py_str translated.

Definition is_back_translation (part : str) : bool :=
  starts_with (nl ++ L "**Back-translation:** ") part.

Definition is_rationale (part : str) : bool :=
  starts_with (nl ++ L "**Rationale:** ") part.


(** The TM reference line of [translate]. *)
Definition is_tm_reference (part : str) : bool :=
  starts_with (L "  TM reference: ") part.

(** What [translate] shows for the optional field [key] of a dict answer:
    its section when the field is present and not empty, nothing
    otherwise. *)
Definition section_of (d : dict) (key title : string) : list str :=
  if truthy (get_or d key VNone)
  then [nl ++ L title ++ py_str (get_or d key VNone)]
  else [].

(** The display name of a provenance key. *)
Definition source_label (src : str) : str :=
  match env_get source_labels src with
  | Some label => label
  | None => src
  end.

(** A configured language that has its two required fields. *)
Definition well_formed_language (entry : value) : Prop :=
  exists d language language_code,
    entry = VDict d
    /\ dict_get d (L "language") = Some language
    /\ dict_get d (L "language_code") = Some language_code.


(** *** Running the monad *)

Lemma str_eqb_refl (s : str) : str_eqb s s = true.
Proof.
  induction s as [|c s IH]; simpl; [reflexivity|].
  now rewrite N.eqb_refl, IH.
Qed.

Lemma str_eqb_eq (a b : str) : str_eqb a b = true <-> a = b.
Proof.
  split; [|intros ->; apply str_eqb_refl].
  revert b; induction a as [|x a IH]; intros [|y b]; simpl; try easy.
  intros H. apply andb_true_iff in H as [Hx Hr].
  apply N.eqb_eq in Hx. apply IH in Hr. now subst.
Qed.

Lemma get_client_ok (w : World) :
  has_credential w = true -> _get_client w = (Ok (the_client w), w).
Proof.
  unfold has_credential, _get_client, the_client, getenv. simpl.
  intros H. rewrite H. reflexivity.
Qed.

Lemma get_client_missing (w : World) :
  has_credential w = false ->
  _get_client w = (Err (RuntimeError MISSING_API_KEY), w).
Proof.
  unfold has_credential, _get_client, getenv. simpl.
  intros H. rewrite H. reflexivity.
Qed.

Lemma request_run (self : NativClient) (method path : str)
    (json_body params : option dict) (w : World) :
  let req := mkRequest method (base_url self ++ path) (headers self)
               json_body params in
  NativClient__request self method path json_body params w
  = (decode req (upstream (sent w) req), record_request req w).
Proof.
  unfold NativClient__request, http_request, decode, raise_for_status. simpl.
  destruct (upstream _ _) as [e|resp]; [reflexivity|].
  destruct (status_code resp =? 402); [reflexivity|].
  destruct (is_success (status_code resp)); reflexivity.
Qed.

Lemma call_run (self : NativClient) (op : client_op) (w : World) :
  call self op w
  = (answer_of self op w, record_request (request_of self op) w).
Proof.
  unfold answer_of. destruct op; simpl; apply request_run.
Qed.

(** Unfold the plumbing of the two monads, and nothing of the program. *)
Ltac run := cbn [bind ret Monad_M Monad_Res Ok Err lift raise fst snd].

(** A tool that fetches one answer and renders it. *)
Lemma fetch_render_run (op : client_op) (render : value -> Res str)
    (w : World) :
  has_credential w = true ->
  (client <- _get_client ;; result <- call client op ;; lift (render result)) w
  = (result <- answer_of (the_client w) op w ;; render result,
     record_request (request_of (the_client w) op) w).
Proof.
  intros H. run. rewrite (get_client_ok w H). run. rewrite call_run.
  destruct (answer_of _ _ _); reflexivity.
Qed.

Lemma fetch_missing {A} (k : NativClient -> M A) (w : World) :
  has_credential w = false ->
  (client <- _get_client ;; k client) w
  = (Err (RuntimeError MISSING_API_KEY), w).
Proof.
  intros H. run. rewrite (get_client_missing w H). reflexivity.
Qed.

Lemma translate_run (text target_language target_language_code
    source_language source_language_code context glossary formality : str)
    (max_characters : Z) (backtranslate : bool) (w : World) :
  has_credential w = true ->
  let op := translate_op text target_language target_language_code
              source_language source_language_code context glossary
              formality max_characters backtranslate in
  translate text target_language target_language_code source_language
    source_language_code context glossary formality max_characters
    backtranslate w
  = (result <- answer_of (the_client w) op w ;;
     parts <- translate_parts target_language result ;;
     ret (join nl parts),
     record_request (request_of (the_client w) op) w).
Proof.
  intros H op. unfold translate. run.
  rewrite (get_client_ok w H). run.
  change (NativClient_translate (the_client w) text target_language
            (or_none target_language_code) source_language
            source_language_code (or_none context) (or_none glossary)
            (or_none formality)
            (if 0 <? max_characters then Some max_characters else None)
            true backtranslate true)
    with (call (the_client w) op).
  rewrite call_run.
  destruct (answer_of _ _ _) as [e|result]; [reflexivity|].
  unfold lift. destruct (translate_parts _ _); reflexivity.
Qed.

(** *** The request body of [translate] *)

Ltac split_optionals :=
  repeat match goal with
         | o : option str |- _ => destruct o as [[|? ?]|]
         | o : option Z |- _ => destruct o
         end.

Lemma translate_body_unset (text language : str) (language_code : option str)
    (source_language source_language_code : str)
    (context glossary formality : option str) (max_characters : option Z)
    (include_tm_info backtranslate include_rationale : bool) :
  let body := translate_body text language language_code source_language
                source_language_code context glossary formality
                max_characters include_tm_info backtranslate
                include_rationale in
  (opt_truthy language_code = false ->
   dict_get body (L "language_code") = None)
  /\ (opt_truthy context = false -> dict_get body (L "context") = None)
  /\ (opt_truthy glossary = false -> dict_get body (L "glossary") = None)
  /\ (opt_truthy formality = false -> dict_get body (L "formality") = None)
  /\ (max_characters = None -> dict_get body (L "max_characters") = None).
Proof.
  split_optionals;
    (repeat split; intros H; try discriminate H; vm_compute; reflexivity).
Qed.

Lemma translate_body_flags (text language : str) (language_code : option str)
    (source_language source_language_code : str)
    (context glossary formality : option str) (max_characters : option Z)
    (include_tm_info backtranslate include_rationale : bool) :
  let body := translate_body text language language_code source_language
                source_language_code context glossary formality
                max_characters include_tm_info backtranslate
                include_rationale in
  dict_get body (L "include_tm_info") = Some (VBool include_tm_info)
  /\ dict_get body (L "backtranslate") = Some (VBool backtranslate)
  /\ dict_get body (L "include_rationale") = Some (VBool include_rationale).
Proof.
  split_optionals; (repeat split; vm_compute; reflexivity).
Qed.

(** C3. Whenever [translate] is called (with the credential set), it
    sends exactly one request, and in the body of that request every
    optional parameter left at its sentinel -- the empty string for
    [target_language_code], [context], [glossary] and [formality], zero
    for [max_characters] -- has no key at all: looking the key up finds
    nothing, neither a null nor an empty string. *)
Theorem translate_omits_unset_optionals
    (text target_language target_language_code source_language
     source_language_code context glossary formality : str)
    (max_characters : Z) (backtranslate : bool) (w : World) :
  has_credential w = true ->
  exists req body,
    sent (snd (translate text target_language target_language_code
                 source_language source_language_code context glossary
                 formality max_characters backtranslate w))
    = sent w ++ [req]
    /\ req_json req = Some body
    /\ (target_language_code = [] -> dict_get body (L "language_code") = None)
    /\ (context = [] -> dict_get body (L "context") = None)
    /\ (glossary = [] -> dict_get body (L "glossary") = None)
    /\ (formality = [] -> dict_get body (L "formality") = None)
    /\ (max_characters = 0 -> dict_get body (L "max_characters") = None).
Proof.
  intros H. rewrite (translate_run _ _ _ _ _ _ _ _ _ _ w H).
  eexists. eexists. split; [reflexivity|]. split; [reflexivity|].
  match goal with
  | |- context [dict_get (translate_body ?a ?b ?c ?d ?e ?f ?g ?h ?i ?j ?k ?l)] =>
      destruct (translate_body_unset a b c d e f g h i j k l)
        as (Hlc & Hctx & Hgl & Hfo & Hmax)
  end.
  repeat split; intros ->.
  - apply Hlc. reflexivity.
  - apply Hctx. reflexivity.
  - apply Hgl. reflexivity.
  - apply Hfo. reflexivity.
  - apply Hmax. reflexivity.
Qed.

(** C10. Whenever the single-item [translate] tool is called (with the
    credential set), the body of the one request it sends carries
    [include_tm_info = true] and [include_rationale = true] whatever the
    arguments are -- the tool has no parameter for either -- while
    [backtranslate] carries the caller's flag, which is [false] when the
    caller leaves every optional parameter at its default. *)
Theorem translate_always_requests_tm_info_and_rationale
    (text target_language target_language_code source_language
     source_language_code context glossary formality : str)
    (max_characters : Z) (backtranslate : bool) (w : World) :
  has_credential w = true ->
  (exists req body,
     sent (snd (translate text target_language target_language_code
                  source_language source_language_code context glossary
                  formality max_characters backtranslate w))
     = sent w ++ [req]
     /\ req_json req = Some body
     /\ dict_get body (L "include_tm_info") = Some (VBool true)
     /\ dict_get body (L "include_rationale") = Some (VBool true)
     /\ dict_get body (L "backtranslate") = Some (VBool backtranslate))
  /\ (exists req body,
        sent (snd (translate_with_defaults text target_language w))
        = sent w ++ [req]
        /\ req_json req = Some body
        /\ dict_get body (L "include_tm_info") = Some (VBool true)
        /\ dict_get body (L "include_rationale") = Some (VBool true)
        /\ dict_get body (L "backtranslate") = Some (VBool false)).
Proof.
  intros H. unfold translate_with_defaults.
  rewrite !(translate_run _ _ _ _ _ _ _ _ _ _ w H).
  split.
  - eexists. eexists. split; [reflexivity|]. split; [reflexivity|].
    match goal with
    | |- context [dict_get (translate_body ?a ?b ?c ?d ?e ?f ?g ?h ?i ?j ?k ?l)] =>
        destruct (translate_body_flags a b c d e f g h i j k l)
          as (Htm & Hbt & Hra)
    end.
    auto.
  - eexists. eexists. split; [reflexivity|]. split; [reflexivity|].
    repeat split; vm_compute; reflexivity.
Qed.

(** *** Status codes *)

(** C2. For each of the nine client operations: when the upstream answers
    the operation's request with status 402, the operation raises the one
    distinguished error -- [RuntimeError] whose message is the hint
    [Insufficient Nativ credits. Top up at https://dashboard.usenativ.com],
    the same for every operation -- and not the status error of
    [raise_for_status]; any other status outside 200..299 raises that
    generic status error, with the status. *)
Theorem payment_required_is_insufficient_credits
    (self : NativClient) (op : client_op) (w : World) (resp : Response) :
  upstream (sent w) (request_of self op) = Ok resp ->
  (status_code resp = 402 ->
   fst (call self op w)
   = Err (RuntimeError
            (L "Insufficient Nativ credits. Top up at https://dashboard.usenativ.com"))
   /\ forall status msg,
        fst (call self op w) <> Err (HTTPStatusError status msg))
  /\ (status_code resp <> 402 -> is_success (status_code resp) = false ->
      fst (call self op w)
      = Err (HTTPStatusError (status_code resp)
               (status_message (request_of self op) resp))).
Proof.
  intros Hup. rewrite call_run. cbn [fst]. unfold answer_of, decode.
  rewrite Hup. cbn [Ok]. split.
  - intros ->. cbn [Z.eqb Pos.eqb]. split; [reflexivity|].
    unfold Err. congruence.
  - intros Hne Hfail. apply Z.eqb_neq in Hne. rewrite Hne, Hfail.
    reflexivity.
Qed.

(** *** The batch loop *)

Lemma starts_with_app (p r : str) : starts_with p (p ++ r) = true.
Proof.
  induction p as [|c p IH]; simpl; [reflexivity|].
  now rewrite N.eqb_refl, IH.
Qed.

Section Batch.

Variables (client : NativClient).
Variables (target_language target_language_code source_language
           source_language_code context formality : str).

Notation op := (batch_op target_language target_language_code source_language
                  source_language_code context formality).
Notation req := (batch_request client target_language target_language_code
                   source_language source_language_code context formality).
Notation item := (batch_item client target_language target_language_code
                    source_language source_language_code context formality).

(** One turn never raises: it sends its request and yields a line. *)
Lemma batch_item_run (i : Z) (text : str) (w : World) :
  item (i, text) w
  = (Ok (batch_outcome i text (answer_of client (op text) w)),
     record_request (req text) w).
Proof.
  unfold item, batch_item, try_except, batch_outcome. run.
  change (NativClient_translate client text target_language
            (or_none target_language_code) source_language
            source_language_code (or_none context) None (or_none formality)
            None true false false)
    with (call client (op text)).
  rewrite call_run.
  destruct (answer_of _ _ _) as [e|result]; [reflexivity|].
  destruct (batch_line i text result); reflexivity.
Qed.

(** The loop, from index [i] in world [w]: every text yields its line,
    computed from the upstream's answer after the requests of the texts
    before it. *)
Lemma batch_loop_run (texts : list str) :
  forall (i : Z) (w : World),
  exists results,
    mapM item (enumerate_from i texts) w
    = (Ok results,
       {| environ := environ w; sent := sent w ++ map req texts |})
    /\ length results = length texts
    /\ forall j text,
         nth_error texts j = Some text ->
         nth_error results j
         = Some (batch_outcome (i + Z.of_nat j) text
                   (decode (req text)
                      (upstream (sent w ++ map req (firstn j texts))
                         (req text)))).
Proof.
  induction texts as [|t rest IH]; intros i w.
  - exists []. cbn. rewrite app_nil_r. destruct w. repeat split.
    intros [|j] text; discriminate.
  - destruct (IH (i + 1) (record_request (req t) w))
      as (results & Hrun & Hlen & Hnth).
    exists (batch_outcome i t (answer_of client (op t) w) :: results).
    repeat split.
    + cbn [enumerate_from mapM]. run. rewrite batch_item_run. run.
      rewrite Hrun. run. cbn. now rewrite <- app_assoc.
    + cbn. now rewrite Hlen.
    + intros [|j] text Hj; cbn in Hj.
      * injection Hj as <-. cbn. rewrite app_nil_r, Z.add_0_r. reflexivity.
      * cbn [nth_error]. rewrite (Hnth j text Hj).
        replace (i + 1 + Z.of_nat j) with (i + Z.of_nat (S j)) by lia.
        cbn [record_request sent firstn map]. rewrite <- app_assoc.
        reflexivity.
Qed.

End Batch.

Lemma batch_line_prefix (i : Z) (text : str) (result : value) (line : str) :
  batch_line i text result = Ok line ->
  exists rest,
    line = (dec (i + 1) ++ L ". " ++ dq ++ text ++ dq ++ L " " ++ arrow
              ++ L " ") ++ rest.
Proof.
  unfold batch_line. run.
  destruct (py_get result _ _) as [e|translated]; [discriminate|].
  destruct (py_get result _ _) as [e|tm]; [discriminate|].
  match goal with
  | |- match ?c with _ => _ end = _ -> _ => destruct c as [e|note]
  end; [discriminate|].
  intros H. injection H as <-. eexists.
  rewrite <- !app_assoc. reflexivity.
Qed.

Lemma batch_line_plain (i : Z) (text : str) (d : dict) (translated : str) :
  dict_get d (L "translated_text") = Some (VStr translated) ->
  dict_get d (L "tm_match") = None ->
  batch_line i text (VDict d)
  = Ok (dec (i + 1) ++ L ". " ++ dq ++ text ++ dq ++ L " " ++ arrow ++ L " "
          ++ dq ++ translated ++ dq).
Proof.
  intros Ht Htm. unfold batch_line, py_get. rewrite Ht, Htm. run.
  cbn [truthy py_str]. reflexivity.
Qed.

Lemma batch_error_line_prefix (i : Z) (text : str) (e : exn) :
  exists rest,
    batch_error_line i text e
    = (dec (i + 1) ++ L ". " ++ dq ++ text ++ dq ++ L " " ++ arrow ++ L " ")
        ++ rest.
Proof.
  unfold batch_error_line. exists (L "ERROR: " ++ exn_str e).
  rewrite <- !app_assoc. reflexivity.
Qed.

(** C1. [translate_batch] on [N] texts (with the credential set) returns
    its header followed by exactly [N] lines joined by newlines.  Line [j]
    (from 0) starts with the 1-based index [j+1] and the quoted input, and
    is decided by the upstream's answer to that item's own request, sent
    after the requests of the items before it: an exception -- from the
    transport, from the status, or from rendering the answer -- is caught
    and shown as [{j+1}. "{text}" -> ERROR: {message}]; otherwise the line
    is the success line of that answer; whatever happens to other items. *)
Theorem translate_batch_isolates_failures
    (texts : list str) (target_language target_language_code source_language
     source_language_code context formality : str) (w : World) :
  has_credential w = true ->
  let req text :=
    request_of (the_client w)
      (batch_op target_language target_language_code source_language
         source_language_code context formality text) in
  let answer j text :=
    decode (req text)
      (upstream (sent w ++ map req (firstn j texts)) (req text)) in
  exists results,
    fst (translate_batch texts target_language target_language_code
           source_language source_language_code context formality w)
    = Ok ((L "**Batch translation to " ++ target_language ++ L "** ("
             ++ dec (Z.of_nat (length texts)) ++ L " items):" ++ nl)
            ++ join nl results)
    /\ length results = length texts
    /\ forall j text,
         nth_error texts j = Some text ->
         exists line,
           nth_error results j = Some line
           /\ starts_with (dec (Z.of_nat j + 1) ++ L ". " ++ dq ++ text ++ dq
                             ++ L " " ++ arrow ++ L " ") line = true
           /\ (forall e,
                 answer j text = Err e ->
                 line = dec (Z.of_nat j + 1) ++ L ". " ++ dq ++ text ++ dq
                          ++ L " " ++ arrow ++ L " ERROR: " ++ exn_str e)
           /\ (forall result e,
                 answer j text = Ok result ->
                 batch_line (Z.of_nat j) text result = Err e ->
                 line = batch_error_line (Z.of_nat j) text e)
           /\ (forall result success,
                 answer j text = Ok result ->
                 batch_line (Z.of_nat j) text result = Ok success ->
                 line = success)
           /\ (forall d translated,
                 answer j text = Ok (VDict d) ->
                 dict_get d (L "translated_text") = Some (VStr translated) ->
                 dict_get d (L "tm_match") = None ->
                 line = dec (Z.of_nat j + 1) ++ L ". " ++ dq ++ text ++ dq
                          ++ L " " ++ arrow ++ L " " ++ dq ++ translated
                          ++ dq).
Proof.
  intros H req answer.
  destruct (batch_loop_run (the_client w) target_language
              target_language_code source_language source_language_code
              context formality texts 0 w) as (results & Hrun & Hlen & Hnth).
  exists results. split; [|split; [exact Hlen|]].
  - unfold translate_batch, enumerate. run.
    rewrite (get_client_ok w H). run. rewrite Hrun. reflexivity.
  - intros j text Hj. specialize (Hnth j text Hj).
    rewrite Z.add_0_l in Hnth.
    change (nth_error results j
            = Some (batch_outcome (Z.of_nat j) text (answer j text))) in Hnth.
    eexists. split; [exact Hnth|].
    unfold batch_outcome. run.
    destruct (answer j text) as [e|result] eqn:Ha.
    + split.
      { destruct (batch_error_line_prefix (Z.of_nat j) text e) as (r & ->).
        apply starts_with_app. }
      repeat split; try discriminate.
      intros e' He'. injection He' as <-. reflexivity.
    + destruct (batch_line (Z.of_nat j) text result) as [e|line] eqn:Hl.
      * split.
        { destruct (batch_error_line_prefix (Z.of_nat j) text e) as (r & ->).
          apply starts_with_app. }
        repeat split; try discriminate.
        -- intros r' e' Hr' He'. injection Hr' as <-.
           rewrite Hl in He'. injection He' as <-. reflexivity.
        -- intros r' s' Hr' Hs'. injection Hr' as <-.
           rewrite Hl in Hs'. discriminate.
        -- intros d t Hd Ht Htm. injection Hd as ->.
           rewrite (batch_line_plain _ _ _ _ Ht Htm) in Hl. discriminate.
      * split.
        { destruct (batch_line_prefix _ _ _ _ Hl) as (r & ->).
          apply starts_with_app. }
        repeat split; try discriminate.
        -- intros r' e' Hr' He'. injection Hr' as <-.
           rewrite Hl in He'. discriminate.
        -- intros r' s' Hr' Hs'. injection Hr' as <-.
           rewrite Hl in Hs'. injection Hs' as <-. reflexivity.
        -- intros d t Hd Ht Htm. injection Hd as ->.
           rewrite (batch_line_plain _ _ _ _ Ht Htm) in Hl.
           injection Hl as <-. reflexivity.
Qed.

(** *** Which lookups can fail

    [x.get(k, default)] never raises a [KeyError]; [x[k]] does when [x] is
    a dict without [k].  The lemmas below track a [KeyError] through the
    binds of a renderer back to the subscript that raised it. *)

Lemma bind_key_error {A B} (c : Res A) (f : A -> Res B) (k : str) :
  (x <- c ;; f x) = Err (KeyError k) ->
  c = Err (KeyError k) \/ exists a, c = Ok a /\ f a = Err (KeyError k).
Proof.
  destruct c as [e|a]; run; intros H.
  - left. unfold Err in *. congruence.
  - right. eauto.
Qed.

Lemma mapM_key_error {A B} (f : A -> Res B) (l : list A) (k : str) :
  mapM f l = Err (KeyError k) ->
  exists a, In a l /\ f a = Err (KeyError k).
Proof.
  induction l as [|a l IH]; cbn [mapM]; run; [discriminate|].
  destruct (f a) as [e|b] eqn:Hfa.
  - intros H. exists a. split; [now left|]. rewrite Hfa.
    unfold Err in *. congruence.
  - destruct (mapM f l) as [e|bs]; [|discriminate].
    intros H. destruct IH as (a' & Hin & Ha').
    { unfold Err in *. congruence. }
    exists a'. split; [now right|exact Ha'].
Qed.

Lemma py_get_no_key_error (x : value) (k : str) (default : value) (k' : str) :
  py_get x k default <> Err (KeyError k').
Proof. destruct x; discriminate. Qed.

Lemma py_getitem_key_error (x : value) (k k' : str) :
  py_getitem x k = Err (KeyError k') -> k' = k.
Proof.
  destruct x; try discriminate. cbn.
  destruct (dict_get d k); [discriminate|]. intros H. now injection H.
Qed.

(** A value that [get] found and that passed a truth test or a [> 0]
    test was not the default, so the subscript finds it too. *)
Lemma py_getitem_after_get (x : value) (k : str) (default v : value) :
  py_get x k default = Ok v -> v <> default -> py_getitem x k = Ok v.
Proof.
  destruct x; try discriminate. cbn.
  destruct (dict_get d k); intros H; injection H as <-; congruence.
Qed.

Lemma format_0f_no_key_error (x : value) (k : str) :
  format_0f x <> Err (KeyError k).
Proof.
  destruct x; try discriminate. cbn. unfold float_of_int.
  destruct (binary_normalize 53 1024 z 0 false); discriminate.
Qed.

Lemma py_gt0_no_key_error (x : value) (k : str) :
  py_gt0 x <> Err (KeyError k).
Proof. destruct x; discriminate. Qed.

Lemma py_len_no_key_error (x : value) (k : str) :
  py_len x <> Err (KeyError k).
Proof. destruct x; discriminate. Qed.

Lemma py_iter_no_key_error (x : value) (k : str) :
  py_iter x <> Err (KeyError k).
Proof. destruct x; discriminate. Qed.

Lemma py_items_no_key_error (x : value) (k : str) :
  py_items x <> Err (KeyError k).
Proof. destruct x; discriminate. Qed.

Lemma py_slice_to_no_key_error (x : value) (n : nat) (k : str) :
  py_slice_to hashable_slices x n <> Err (KeyError k).
Proof.
  destruct x; try discriminate. cbn.
  destruct hashable_slices; discriminate.
Qed.

Lemma py_add_str_no_key_error (x : value) (s k : str) :
  py_add_str x s <> Err (KeyError k).
Proof. destruct x; discriminate. Qed.

Lemma py_join_from_no_key_error (items : list value) :
  forall (i : Z) (k : str), py_join_from i items <> Err (KeyError k).
Proof.
  induction items as [|v items IH]; intros i k; cbn; [discriminate|].
  destruct v; try discriminate.
  specialize (IH (i + 1) k).
  destruct (py_join_from (i + 1) items); [|discriminate].
  unfold Err in *. congruence.
Qed.

Lemma py_join_no_key_error (sep : str) (items : list value) (k : str) :
  py_join sep items <> Err (KeyError k).
Proof.
  unfold py_join. pose proof (py_join_from_no_key_error items 0 k) as H.
  destruct (py_join_from 0 items); [|discriminate].
  unfold Err in *. congruence.
Qed.

(** Peel one bind off a hypothesis that a renderer raised [KeyError]:
    either the first computation raised it, which the primitives that
    never do rule out, or it returned [a] and the rest raised. *)
Ltac no_key_error H :=
  first [ now apply py_get_no_key_error in H
        | now apply format_0f_no_key_error in H
        | now apply py_gt0_no_key_error in H
        | now apply py_len_no_key_error in H
        | now apply py_iter_no_key_error in H
        | now apply py_items_no_key_error in H
        | now apply py_slice_to_no_key_error in H
        | now apply py_add_str_no_key_error in H
        | now apply py_join_no_key_error in H
        | discriminate H ].

Tactic Notation "peel" hyp(H) "as" ident(a) ident(Ha) :=
  apply bind_key_error in H;
  destruct H as [H|(a & Ha & H)]; [try no_key_error H|].

Lemma truthy_not_none (v : value) : truthy v = true -> v <> VNone.
Proof. intros H ->. discriminate. Qed.

Lemma positive_not_zero (v : value) : py_gt0 v = Ok true -> v <> VInt 0.
Proof. intros H ->. discriminate. Qed.

Lemma tm_annotation_no_key_error (tm : value) (k : str) :
  tm_annotation tm <> Err (KeyError k).
Proof.
  intros H. unfold tm_annotation in H.
  destruct (truthy tm); [|discriminate].
  peel H as score Hscore. peel H as positive Hpos.
  destruct positive; [|discriminate].
  peel H as score' Hscore'.
  { rewrite (py_getitem_after_get _ _ _ _ Hscore (positive_not_zero _ Hpos))
      in H. discriminate. }
  peel H as pct Hpct. peel H as match_type Hmt. peel H as tm_source Hsrc.
  peel H as src Hsrcget.
  destruct (truthy src) eqn:Htruthy; [|discriminate].
  peel H as src' Hsrc'.
  { rewrite (py_getitem_after_get _ _ _ _ Hsrcget
               (truthy_not_none _ Htruthy)) in H. discriminate. }
  peel H as tgt Htgt. discriminate.
Qed.

Lemma optional_section_no_key_error (result : value) (key title : string)
    (k : str) :
  optional_section result key title <> Err (KeyError k).
Proof.
  intros H. unfold optional_section in H.
  peel H as v Hv. destruct (truthy v) eqn:Htruthy; [|discriminate].
  peel H as v' Hv'; [|discriminate].
  rewrite (py_getitem_after_get _ _ _ _ Hv (truthy_not_none _ Htruthy)) in H.
  discriminate.
Qed.

Lemma translate_parts_no_key_error (target_language : str) (result : value)
    (k : str) :
  translate_parts target_language result <> Err (KeyError k).
Proof.
  intros H. unfold translate_parts in H.
  peel H as translated Ht. peel H as tm Htm.
  peel H as tm_lines Hlines.
  { now apply tm_annotation_no_key_error in H. }
  peel H as back Hback.
  { now apply optional_section_no_key_error in H. }
  peel H as rationale Hr; [|discriminate].
  now apply optional_section_no_key_error in H.
Qed.

Lemma batch_line_no_key_error (i : Z) (text : str) (result : value)
    (k : str) :
  batch_line i text result <> Err (KeyError k).
Proof.
  intros H. unfold batch_line in H.
  peel H as translated Ht. peel H as tm Htm.
  peel H as note Hnote; [|discriminate].
  destruct (truthy tm); [|discriminate].
  peel H as score Hscore. peel H as positive Hpos.
  destruct positive; [|discriminate].
  peel H as score' Hscore'.
  { rewrite (py_getitem_after_get _ _ _ _ Hscore (positive_not_zero _ Hpos))
      in H. discriminate. }
  peel H as pct Hpct. discriminate.
Qed.

Lemma stats_render_no_key_error (stats : value) (k : str) :
  stats_render stats <> Err (KeyError k).
Proof.
  intros H. unfold stats_render in H.
  peel H as total Ht. peel H as enabled He. peel H as disabled Hd.
  peel H as by_source Hb.
  destruct (truthy by_source); [|discriminate].
  peel H as items Hitems. peel H as rows Hrows; [|discriminate].
  apply mapM_key_error in H. destruct H as ([src counts] & _ & H).
  unfold source_line in H.
  peel H as t Ht'. peel H as e He'. discriminate.
Qed.

Lemma guide_lines_no_key_error (g : value) (k : str) :
  guide_lines g <> Err (KeyError k).
Proof.
  intros H. unfold guide_lines in H.
  peel H as is_enabled Hen. peel H as title Ht. peel H as content Hc.
  peel H as shown Hs; [|discriminate].
  unfold guide_content in H. peel H as n Hn.
  destruct (500 <? n); [|discriminate].
  peel H as head Hh. no_key_error H.
Qed.

Lemma style_guides_render_no_key_error (result : value) (k : str) :
  style_guides_render result <> Err (KeyError k).
Proof.
  intros H. unfold style_guides_render in H.
  peel H as guides Hg. destruct (negb (truthy guides)); [discriminate|].
  peel H as n Hn. peel H as items Hi. peel H as blocks Hb.
  - apply mapM_key_error in H. destruct H as (g & _ & H).
    now apply guide_lines_no_key_error in H.
  - no_key_error H.
Qed.

Lemma brand_voice_render_no_key_error (result : value) (k : str) :
  brand_voice_render result <> Err (KeyError k).
Proof.
  intros H. unfold brand_voice_render in H.
  peel H as present Hp. destruct (negb (truthy present)); [discriminate|].
  peel H as prompt Hpr. peel H as n Hn.
  destruct (2000 <? n); [|discriminate].
  peel H as head Hh. peel H as n' Hn'. discriminate.
Qed.

Lemma tm_match_line_key_error (m : value) (k : str) :
  tm_match_line m = Err (KeyError k) ->
  k = L "score" \/ k = L "source_text" \/ k = L "target_text".
Proof.
  intros H. unfold tm_match_line in H.
  peel H as score Hs.
  { left. now apply py_getitem_key_error in H. }
  peel H as pct Hp. peel H as match_type Hm.
  peel H as source_text Hsrc.
  { right; left. now apply py_getitem_key_error in H. }
  peel H as target_text Htgt.
  { right; right. now apply py_getitem_key_error in H. }
  peel H as info Hi. discriminate.
Qed.

Lemma search_render_key_error (query : str) (result : value) (k : str) :
  search_render query result = Err (KeyError k) ->
  k = L "score" \/ k = L "source_text" \/ k = L "target_text".
Proof.
  intros H. unfold search_render in H.
  peel H as matches Hm. destruct (negb (truthy matches)); [discriminate|].
  peel H as n Hn. peel H as items Hi. peel H as lines Hl; [|discriminate].
  apply mapM_key_error in H. destruct H as (m & _ & H).
  now apply tm_match_line_key_error in H.
Qed.

Lemma language_entry_key_error (lang : value) (k : str) :
  language_entry lang = Err (KeyError k) ->
  k = L "language" \/ k = L "language_code".
Proof.
  intros H. unfold language_entry in H.
  peel H as formality Hf.
  peel H as language Hl.
  { left. now apply py_getitem_key_error in H. }
  peel H as code Hc.
  { right. now apply py_getitem_key_error in H. }
  peel H as custom Hcu.
  destruct (truthy custom) eqn:Htruthy; [|discriminate].
  peel H as custom' Hcu'; [|discriminate].
  rewrite (py_getitem_after_get _ _ _ _ Hcu (truthy_not_none _ Htruthy)) in H.
  discriminate.
Qed.

Lemma languages_render_key_error (result : value) (k : str) :
  languages_render result = Err (KeyError k) ->
  k = L "language" \/ k = L "language_code".
Proof.
  intros H. unfold languages_render in H.
  peel H as languages Hl. destruct (negb (truthy languages)); [discriminate|].
  peel H as n Hn. peel H as items Hi. peel H as lines Hli; [|discriminate].
  apply mapM_key_error in H. destruct H as (m & _ & H).
  now apply language_entry_key_error in H.
Qed.

Lemma tm_match_line_defaults (d : dict) (score source_text target_text : value)
    (pct : str) :
  dict_get d (L "score") = Some score ->
  format_0f score = Ok pct ->
  dict_get d (L "source_text") = Some source_text ->
  dict_get d (L "target_text") = Some target_text ->
  tm_match_line (VDict d)
  = Ok (L "- **" ++ pct ++ L "%** ["
          ++ py_str (get_or d "match_type" (VStr [])) ++ L "] "
          ++ dq ++ py_str source_text ++ dq ++ L " " ++ arrow ++ L " "
          ++ dq ++ py_str target_text ++ dq ++ L " "
          ++ L "(source: "
          ++ py_str (get_or d "information_source" (VStr (L "N/A")))
          ++ L ")").
Proof.
  intros Hs Hp Hsrc Htgt. unfold tm_match_line, py_getitem, py_get, get_or.
  rewrite Hs. run. rewrite Hp. run. rewrite Hsrc, Htgt. reflexivity.
Qed.

Lemma language_entry_defaults (d : dict) (language language_code : value) :
  dict_get d (L "language") = Some language ->
  dict_get d (L "language_code") = Some language_code ->
  language_entry (VDict d)
  = Ok (join nl
          ([ L "- **" ++ py_str language ++ L "** (`"
               ++ py_str language_code ++ L "`) " ++ emdash
               ++ L " formality: "
               ++ py_str (py_or (get_or d "formality" VNone)
                            (VStr (L "neutral"))) ]
           ++ (if truthy (get_or d "custom_style" VNone)
               then [ L "  Custom style: "
                        ++ py_str (get_or d "custom_style" VNone) ]
               else []))).
Proof.
  intros Hl Hc. unfold language_entry, py_getitem, py_get, get_or.
  run. rewrite Hl, Hc.
  destruct (dict_get d (L "custom_style")) as [custom|]; run.
  - destruct (truthy custom); reflexivity.
  - reflexivity.
Qed.

(** The first item that fails decides the outcome of a loop. *)
Lemma mapM_first_error {A B} (f : A -> Res B) (good rest : list A) (bad : A)
    (e : exn) :
  Forall (fun a => exists b, f a = Ok b) good ->
  f bad = Err e ->
  mapM f (good ++ bad :: rest) = Err e.
Proof.
  intros Hgood Hbad.
  induction Hgood as [|a good (b & Hb) _ IH]; cbn [app mapM]; run.
  - rewrite Hbad. reflexivity.
  - rewrite Hb. run. rewrite IH. reflexivity.
Qed.

Lemma well_formed_match_renders (m : value) :
  well_formed_match m -> exists line, tm_match_line m = Ok line.
Proof.
  intros (d & score & pct & src & tgt & -> & Hs & Hp & Hsrc & Htgt).
  eexists. apply (tm_match_line_defaults _ _ _ _ _ Hs Hp Hsrc Htgt).
Qed.

Lemma well_formed_language_renders (entry : value) :
  well_formed_language entry -> exists line, language_entry entry = Ok line.
Proof.
  intros (d & l & c & -> & Hl & Hc).
  eexists. apply (language_entry_defaults _ _ _ Hl Hc).
Qed.

(** A match that lacks a required field raises the lookup error of the
    first one it lacks, in the order the line reads them. *)
Lemma tm_match_line_missing (d : dict) :
  (dict_get d (L "score") = None ->
   tm_match_line (VDict d) = Err (KeyError (L "score")))
  /\ (forall score pct,
        dict_get d (L "score") = Some score ->
        format_0f score = Ok pct ->
        dict_get d (L "source_text") = None ->
        tm_match_line (VDict d) = Err (KeyError (L "source_text")))
  /\ (forall score pct source_text,
        dict_get d (L "score") = Some score ->
        format_0f score = Ok pct ->
        dict_get d (L "source_text") = Some source_text ->
        dict_get d (L "target_text") = None ->
        tm_match_line (VDict d) = Err (KeyError (L "target_text"))).
Proof.
  unfold tm_match_line, py_getitem, py_get. split; [|split].
  - intros ->. reflexivity.
  - intros score pct -> Hp Hsrc. run. rewrite Hp. run. rewrite Hsrc.
    reflexivity.
  - intros score pct src -> Hp -> Htgt. run. rewrite Hp. run. rewrite Htgt.
    reflexivity.
Qed.

Lemma language_entry_missing (d : dict) :
  (dict_get d (L "language") = None ->
   language_entry (VDict d) = Err (KeyError (L "language")))
  /\ (forall language,
        dict_get d (L "language") = Some language ->
        dict_get d (L "language_code") = None ->
        language_entry (VDict d) = Err (KeyError (L "language_code"))).
Proof.
  unfold language_entry, py_getitem, py_get. split.
  - intros ->. reflexivity.
  - intros language -> Hc. run. rewrite Hc. reflexivity.
Qed.

Lemma guide_content_dict (c : dict) :
  (500 < length c)%nat ->
  guide_content (VDict c)
  = Err (if hashable_slices then KeyErrorSlice 500
         else TypeError (L "unhashable type: 'slice'")).
Proof.
  intros Hlen. unfold guide_content. cbn [py_len]. run.
  assert (Hlt : (500 <? Z.of_nat (length c)) = true)
    by (apply Z.ltb_lt; lia).
  rewrite Hlt. cbn [py_slice_to]. destruct hashable_slices; reflexivity.
Qed.

Lemma brand_voice_render_dict (d c : dict) (present : value) :
  dict_get d (L "exists") = Some present ->
  truthy present = true ->
  dict_get d (L "prompt") = Some (VDict c) ->
  (2000 < length c)%nat ->
  brand_voice_render (VDict d)
  = Err (if hashable_slices then KeyErrorSlice 2000
         else TypeError (L "unhashable type: 'slice'")).
Proof.
  intros He Ht Hp Hlen. unfold brand_voice_render. cbn [py_get]. run.
  rewrite He, Ht. cbn [negb]. rewrite Hp. cbn [py_len]. run.
  assert (Hlt : (2000 <? Z.of_nat (length c)) = true)
    by (apply Z.ltb_lt; lia).
  rewrite Hlt. cbn [py_slice_to]. destruct hashable_slices; reflexivity.
Qed.

(** C5 (amended). The renderers read optional fields with a default and
    required ones with a subscript.  So: (1) [translate], [translate_batch],
    [get_translation_memory_stats], [get_style_guides] and [get_brand_voice]
    never raise a lookup error for a field, whatever the answer lacks;
    (2) the only lookup errors of [search_translation_memory] are for
    [score], [source_text] and [target_text] of a match, and those of
    [get_languages] for [language] and [language_code] of an entry;
    (3) a match that has these three fields, with a score that
    [format(score, ".0f")] prints, and an entry that has these two, are
    rendered as the exact line in which each absent optional field takes
    its default; (4) a match or an entry that lacks a required field
    raises the [KeyError] of the first field it lacks, and so does the
    whole rendering when the items before it are well formed; (5) the one
    lookup error left to [get_style_guides] and [get_brand_voice] is not
    for a field: cutting a content or a prompt that is a dict, of more
    than 500 or 2000 entries, raises the [KeyError] of the slice where
    slices are hashable (Python 3.12 and later) and a [TypeError]
    elsewhere. *)
Theorem renderers_default_on_optional_fields (result : value) (k : str) :
  (forall target_language,
     translate_parts target_language result <> Err (KeyError k))
  /\ (forall i text, batch_line i text result <> Err (KeyError k))
  /\ stats_render result <> Err (KeyError k)
  /\ style_guides_render result <> Err (KeyError k)
  /\ brand_voice_render result <> Err (KeyError k)
  /\ (forall query,
        search_render query result = Err (KeyError k) ->
        k = L "score" \/ k = L "source_text" \/ k = L "target_text")
  /\ (languages_render result = Err (KeyError k) ->
      k = L "language" \/ k = L "language_code")
  /\ (forall d score source_text target_text pct,
        result = VDict d ->
        dict_get d (L "score") = Some score ->
        format_0f score = Ok pct ->
        dict_get d (L "source_text") = Some source_text ->
        dict_get d (L "target_text") = Some target_text ->
        tm_match_line result
        = Ok (L "- **" ++ pct ++ L "%** ["
                ++ py_str (get_or d "match_type" (VStr [])) ++ L "] "
                ++ dq ++ py_str source_text ++ dq ++ L " " ++ arrow ++ L " "
                ++ dq ++ py_str target_text ++ dq ++ L " "
                ++ L "(source: "
                ++ py_str (get_or d "information_source" (VStr (L "N/A")))
                ++ L ")"))
  /\ (forall d language language_code,
        result = VDict d ->
        dict_get d (L "language") = Some language ->
        dict_get d (L "language_code") = Some language_code ->
        language_entry result
        = Ok (join nl
                ([ L "- **" ++ py_str language ++ L "** (`"
                     ++ py_str language_code ++ L "`) " ++ emdash
                     ++ L " formality: "
                     ++ py_str (py_or (get_or d "formality" VNone)
                                  (VStr (L "neutral"))) ]
                 ++ (if truthy (get_or d "custom_style" VNone)
                     then [ L "  Custom style: "
                              ++ py_str (get_or d "custom_style" VNone) ]
                     else []))))
  /\ (forall d,
        result = VDict d ->
        (dict_get d (L "score") = None ->
         tm_match_line result = Err (KeyError (L "score")))
        /\ (forall score pct,
              dict_get d (L "score") = Some score ->
              format_0f score = Ok pct ->
              dict_get d (L "source_text") = None ->
              tm_match_line result = Err (KeyError (L "source_text")))
        /\ (forall score pct source_text,
              dict_get d (L "score") = Some score ->
              format_0f score = Ok pct ->
              dict_get d (L "source_text") = Some source_text ->
              dict_get d (L "target_text") = None ->
              tm_match_line result = Err (KeyError (L "target_text")))
        /\ (dict_get d (L "language") = None ->
            language_entry result = Err (KeyError (L "language")))
        /\ (forall language,
              dict_get d (L "language") = Some language ->
              dict_get d (L "language_code") = None ->
              language_entry result = Err (KeyError (L "language_code"))))
  /\ (forall query good bad rest e,
        py_get result (L "matches") (VList [])
        = Ok (VList (good ++ bad :: rest)) ->
        Forall well_formed_match good ->
        tm_match_line bad = Err e ->
        search_render query result = Err e)
  /\ (forall good bad rest e,
        py_get result (L "languages") (VList [])
        = Ok (VList (good ++ bad :: rest)) ->
        Forall well_formed_language good ->
        language_entry bad = Err e ->
        languages_render result = Err e)
  /\ (forall c,
        (500 < length c)%nat ->
        guide_content (VDict c)
        = Err (if hashable_slices then KeyErrorSlice 500
               else TypeError (L "unhashable type: 'slice'")))
  /\ (forall d c present,
        result = VDict d ->
        dict_get d (L "exists") = Some present ->
        truthy present = true ->
        dict_get d (L "prompt") = Some (VDict c) ->
        (2000 < length c)%nat ->
        brand_voice_render result
        = Err (if hashable_slices then KeyErrorSlice 2000
               else TypeError (L "unhashable type: 'slice'"))).
Proof.
  repeat match goal with |- _ /\ _ => split end;
    [..|apply guide_content_dict
       |intros d c present ->; apply brand_voice_render_dict].
  - intros t. apply translate_parts_no_key_error.
  - intros i text. apply batch_line_no_key_error.
  - apply stats_render_no_key_error.
  - apply style_guides_render_no_key_error.
  - apply brand_voice_render_no_key_error.
  - intros q. apply search_render_key_error.
  - apply languages_render_key_error.
  - intros d score src tgt pct ->. apply tm_match_line_defaults.
  - intros d l c ->. apply language_entry_defaults.
  - intros d ->.
    destruct (tm_match_line_missing d) as (Hscore & Hsource & Htarget).
    destruct (language_entry_missing d) as (Hlanguage & Hcode).
    repeat split; assumption.
  - intros query good bad rest e Hm Hgood Hbad.
    unfold search_render. rewrite Hm. run.
    assert (Ht : truthy (VList (good ++ bad :: rest)) = true)
      by (destruct good; reflexivity).
    rewrite Ht. cbn [negb py_len py_iter]. run.
    rewrite (mapM_first_error tm_match_line good rest bad e);
      [reflexivity| |exact Hbad].
    apply (Forall_impl _ well_formed_match_renders Hgood).
  - intros good bad rest e Hm Hgood Hbad.
    unfold languages_render. rewrite Hm. run.
    assert (Ht : truthy (VList (good ++ bad :: rest)) = true)
      by (destruct good; reflexivity).
    rewrite Ht. cbn [negb py_len py_iter]. run.
    rewrite (mapM_first_error language_entry good rest bad e);
      [reflexivity| |exact Hbad].
    apply (Forall_impl _ well_formed_language_renders Hgood).
Qed.

(** *** Lists are rendered item by item, in order *)

Lemma bind_ok {A B} (c : Res A) (f : A -> Res B) (b : B) :
  (x <- c ;; f x) = Ok b -> exists a, c = Ok a /\ f a = Ok b.
Proof.
  destruct c as [e|a]; run; intros H; [discriminate|eauto].
Qed.

Tactic Notation "step" hyp(H) "as" ident(a) ident(Ha) :=
  apply bind_ok in H; destruct H as (a & Ha & H).

Lemma mapM_ok {A B} (f : A -> Res B) (l : list A) :
  Forall (fun a => exists b, f a = Ok b) l ->
  exists bs,
    mapM f l = Ok bs
    /\ length bs = length l
    /\ forall j a,
         nth_error l j = Some a ->
         exists b, nth_error bs j = Some b /\ f a = Ok b.
Proof.
  induction 1 as [|a l (b & Hb) _ (bs & Hrun & Hlen & Hnth)].
  - exists []. repeat split. intros [|j] a; discriminate.
  - exists (b :: bs). cbn [mapM]. run. rewrite Hb. run. rewrite Hrun.
    repeat split.
    + cbn. now rewrite Hlen.
    + intros [|j] a' Hj; cbn in Hj |- *.
      * injection Hj as <-. eauto.
      * apply Hnth, Hj.
Qed.

Lemma tm_match_line_bullet (m : value) (line : str) :
  tm_match_line m = Ok line -> starts_with (L "- **") line = true.
Proof.
  intros H. unfold tm_match_line in H.
  step H as score Hs. step H as pct Hp. step H as match_type Hm.
  step H as source_text Hsrc. step H as target_text Htgt.
  step H as info Hi. injection H as <-. reflexivity.
Qed.

Lemma search_run (query source_language_code target_language_code : str)
    (min_score : spec_float) (limit : Z) (w : World) :
  has_credential w = true ->
  let op := Op_search_tm query source_language_code
              (or_none target_language_code) min_score limit in
  search_translation_memory query source_language_code target_language_code
    min_score limit w
  = (result <- answer_of (the_client w) op w ;; search_render query result,
     record_request (request_of (the_client w) op) w).
Proof.
  intros H op. apply (fetch_render_run op (search_render query) w H).
Qed.

(** C6. [search_translation_memory] (with the credential set, and an
    answer from the upstream): when the answer has no [matches], or an
    empty list, the output is exactly the sentinel
    [No translation memory matches found for "{query}".]; when it has a
    non-empty list of matches that each render, the output is the header
    followed by one bullet per match, the j-th bullet being the rendering
    of the j-th match: upstream order, no sorting.  (The matches are as
    the data model has them: a score, a source text and a target text.) *)
Theorem search_sentinel_or_ranked_bullets
    (query source_language_code target_language_code : str)
    (min_score : spec_float) (limit : Z) (w : World) (result : value) :
  has_credential w = true ->
  answer_of (the_client w)
    (Op_search_tm query source_language_code (or_none target_language_code)
       min_score limit) w = Ok result ->
  let output :=
    fst (search_translation_memory query source_language_code
           target_language_code min_score limit w) in
  (py_get result (L "matches") (VList []) = Ok (VList []) ->
   output = Ok (L "No translation memory matches found for " ++ dq ++ query
                  ++ dq ++ L "."))
  /\ (forall matches,
        py_get result (L "matches") (VList []) = Ok (VList matches) ->
        matches <> [] ->
        Forall well_formed_match matches ->
        exists bullets,
          output
          = Ok (join nl
                  ((L "**TM Search Results** for " ++ dq ++ query ++ dq
                      ++ L " (" ++ dec (Z.of_nat (length matches))
                      ++ L " matches):" ++ nl) :: bullets))
          /\ length bullets = length matches
          /\ forall j m,
               nth_error matches j = Some m ->
               exists bullet,
                 nth_error bullets j = Some bullet
                 /\ tm_match_line m = Ok bullet
                 /\ starts_with (L "- **") bullet = true).
Proof.
  intros H Hanswer output. subst output.
  rewrite (search_run _ _ _ _ _ w H). cbn [fst]. rewrite Hanswer. run.
  unfold search_render. split.
  - intros ->. reflexivity.
  - intros matches -> Hne Hall.
    assert (Hall' : Forall (fun m => exists line, tm_match_line m = Ok line)
                      matches).
    { apply (Forall_impl _ (P := well_formed_match)); [|exact Hall].
      intros m (d & score & pct & src & tgt & -> & Hs & Hp & Hsrc & Htgt).
      eexists. apply (tm_match_line_defaults _ _ _ _ _ Hs Hp Hsrc Htgt). }
    destruct (mapM_ok _ _ Hall') as (bullets & Hrun & Hlen & Hnth).
    exists bullets. run.
    destruct matches as [|m ms]; [congruence|].
    cbn [truthy negb py_len py_iter]. run. rewrite Hrun. run.
    split; [reflexivity|]. split; [exact Hlen|].
    intros j m' Hj. destruct (Hnth j m' Hj) as (b & Hb & Hm').
    exists b. repeat split; try assumption.
    apply (tm_match_line_bullet _ _ Hm').
Qed.

(** *** Truncation *)

Lemma brand_voice_run (w : World) :
  has_credential w = true ->
  get_brand_voice w
  = (result <- answer_of (the_client w) Op_get_brand_prompt w ;;
     brand_voice_render result,
     record_request (request_of (the_client w) Op_get_brand_prompt) w).
Proof.
  intros H. apply (fetch_render_run Op_get_brand_prompt brand_voice_render w H).
Qed.

(** What is shown for a prompt that exists and is a string. *)
Lemma brand_voice_render_string (result present : value) (prompt : str) :
  py_get result (L "exists") VNone = Ok present ->
  truthy present = true ->
  py_get result (L "prompt") (VStr []) = Ok (VStr prompt) ->
  brand_voice_render result
  = Ok (if 2000 <? Z.of_nat (length prompt)
        then brand_voice_header ++ firstn 2000 prompt ++ L "..." ++ nl ++ nl
               ++ L "(Truncated " ++ emdash ++ L " full prompt has "
               ++ dec (Z.of_nat (length prompt)) ++ L " characters)"
        else brand_voice_header ++ prompt).
Proof.
  intros Hp Ht Hpr. unfold brand_voice_render.
  rewrite Hp. run. rewrite Ht. cbn [negb]. rewrite Hpr. run.
  cbn [py_len]. run.
  destruct (2000 <? Z.of_nat (length prompt)); reflexivity.
Qed.

(** C7. [get_brand_voice] (with the credential set), on an answer whose
    brand prompt exists and is the string [prompt]: from 2001 characters
    on, the output is the header, exactly the first 2000 characters of
    the prompt, an ellipsis, and the suffix giving the full length of the
    prompt; up to 2000 characters, it is the header and the whole prompt;
    and any other run that is answered with the same prompt returns the
    very same output. *)
Theorem get_brand_voice_truncates_at_2000
    (w : World) (result present : value) (prompt : str) :
  has_credential w = true ->
  answer_of (the_client w) Op_get_brand_prompt w = Ok result ->
  py_get result (L "exists") VNone = Ok present ->
  truthy present = true ->
  py_get result (L "prompt") (VStr []) = Ok (VStr prompt) ->
  ((2001 <= length prompt)%nat ->
   fst (get_brand_voice w)
   = Ok (L "**Brand Voice Prompt:**" ++ nl ++ nl
           ++ firstn 2000 prompt ++ L "..." ++ nl ++ nl
           ++ L "(Truncated " ++ emdash ++ L " full prompt has "
           ++ dec (Z.of_nat (length prompt)) ++ L " characters)")
   /\ length (firstn 2000 prompt) = 2000%nat)
  /\ ((length prompt <= 2000)%nat ->
      fst (get_brand_voice w)
      = Ok (L "**Brand Voice Prompt:**" ++ nl ++ nl ++ prompt))
  /\ (forall (w' : World) (result' present' : value),
        has_credential w' = true ->
        answer_of (the_client w') Op_get_brand_prompt w' = Ok result' ->
        py_get result' (L "exists") VNone = Ok present' ->
        truthy present' = true ->
        py_get result' (L "prompt") (VStr []) = Ok (VStr prompt) ->
        fst (get_brand_voice w') = fst (get_brand_voice w)).
Proof.
  intros H Ha Hp Ht Hpr.
  assert (Hout : fst (get_brand_voice w)
                 = brand_voice_render result).
  { rewrite (brand_voice_run w H). cbn [fst]. rewrite Ha. reflexivity. }
  rewrite Hout, (brand_voice_render_string _ _ _ Hp Ht Hpr).
  repeat split.
  - destruct (2000 <? Z.of_nat (length prompt)) eqn:E.
    + unfold brand_voice_header. rewrite <- !app_assoc. reflexivity.
    + apply Z.ltb_ge in E. lia.
  - apply firstn_length_le. lia.
  - intros Hle. destruct (2000 <? Z.of_nat (length prompt)) eqn:E.
    + apply Z.ltb_lt in E. lia.
    + unfold brand_voice_header. rewrite <- !app_assoc. reflexivity.
  - intros w' result' present' H' Ha' Hp' Ht' Hpr'.
    rewrite (brand_voice_run w' H'). cbn [fst]. rewrite Ha'. run.
    apply (brand_voice_render_string _ _ _ Hp' Ht' Hpr').
Qed.

Lemma py_join_from_strings (l : list str) :
  forall i, py_join_from i (map VStr l) = Ok l.
Proof.
  induction l as [|s l IH]; intros i; cbn; [reflexivity|].
  now rewrite IH.
Qed.

Lemma py_join_strings (sep : str) (l : list str) :
  py_join sep (map VStr l) = Ok (join sep l).
Proof. unfold py_join. now rewrite py_join_from_strings. Qed.

Lemma guide_lines_string (g : value) (content : str) :
  py_get g (L "content") (VStr []) = Ok (VStr content) ->
  exists heading,
    guide_lines g = Ok (map VStr [heading; shown_content content; []]).
Proof.
  intros Hc. unfold guide_lines.
  destruct g; try discriminate Hc.
  run. rewrite Hc. cbn [py_get]. run.
  unfold guide_content, shown_content. cbn [py_len]. run.
  destruct (500 <? Z.of_nat (length content)); eexists; reflexivity.
Qed.

Lemma guide_blocks (guides : list value) :
  Forall (fun g => exists content,
            py_get g (L "content") (VStr []) = Ok (VStr content)) guides ->
  exists blocks,
    mapM guide_lines guides = Ok (map (map VStr) blocks)
    /\ length blocks = length guides
    /\ forall j g content,
         nth_error guides j = Some g ->
         py_get g (L "content") (VStr []) = Ok (VStr content) ->
         exists heading,
           nth_error blocks j = Some [heading; shown_content content; []].
Proof.
  induction 1 as [|g guides (content & Hc) _ (blocks & Hrun & Hlen & Hnth)].
  - exists []. repeat split. intros [|j] g c; discriminate.
  - destruct (guide_lines_string g content Hc) as (heading & Hg).
    exists ([heading; shown_content content; []] :: blocks).
    cbn [mapM]. run. rewrite Hg. run. rewrite Hrun. repeat split.
    + cbn. now rewrite Hlen.
    + intros [|j] g' c' Hj Hc'; cbn in Hj |- *.
      * injection Hj as <-. rewrite Hc in Hc'. injection Hc' as <-. eauto.
      * apply (Hnth j g' c' Hj Hc').
Qed.

Lemma style_guides_run (w : World) :
  has_credential w = true ->
  get_style_guides w
  = (result <- answer_of (the_client w) Op_list_style_guides w ;;
     style_guides_render result,
     record_request (request_of (the_client w) Op_list_style_guides) w).
Proof.
  intros H.
  apply (fetch_render_run Op_list_style_guides style_guides_render w H).
Qed.

(** C8. [get_style_guides] (with the credential set), on an answer with a
    non-empty list of guides whose contents are strings: the output is the
    header followed, guide by guide, by a heading, the content shown and
    an empty line.  A content of 501 characters or more is shown as
    exactly its first 500 characters followed by the three characters
    [...]; a content of at most 500 characters is shown as it is. *)
Theorem get_style_guides_truncates_at_500
    (w : World) (result : value) (guides : list value) :
  has_credential w = true ->
  answer_of (the_client w) Op_list_style_guides w = Ok result ->
  py_get result (L "guides") (VList []) = Ok (VList guides) ->
  guides <> [] ->
  Forall (fun g => exists content,
            py_get g (L "content") (VStr []) = Ok (VStr content)) guides ->
  exists blocks,
    fst (get_style_guides w)
    = Ok (join nl ((L "**Style Guides** ("
                      ++ dec (Z.of_nat (length guides)) ++ L "):" ++ nl)
                     :: concat blocks))
    /\ length blocks = length guides
    /\ forall j g content,
         nth_error guides j = Some g ->
         py_get g (L "content") (VStr []) = Ok (VStr content) ->
         exists heading shown,
           nth_error blocks j = Some [heading; shown; []]
           /\ ((501 <= length content)%nat ->
               shown = firstn 500 content ++ L "..."
               /\ length (firstn 500 content) = 500%nat
               /\ length (L "...") = 3%nat)
           /\ ((length content <= 500)%nat -> shown = content).
Proof.
  intros H Ha Hg Hne Hall.
  destruct (guide_blocks guides Hall) as (blocks & Hrun & Hlen & Hnth).
  exists blocks. split; [|split; [exact Hlen|]].
  - rewrite (style_guides_run w H). cbn [fst]. rewrite Ha. run.
    unfold style_guides_render. rewrite Hg. run.
    destruct guides as [|g gs]; [congruence|].
    cbn [truthy negb py_len py_iter]. run. rewrite Hrun. run.
    rewrite <- concat_map.
    change (VStr ?h :: map VStr ?l) with (map VStr (h :: l)).
    apply py_join_strings.
  - intros j g content Hj Hc.
    destruct (Hnth j g content Hj Hc) as (heading & Hb).
    exists heading, (shown_content content). split; [exact Hb|].
    unfold shown_content. split.
    + intros Hlong. destruct (500 <? Z.of_nat (length content)) eqn:E.
      * repeat split. apply firstn_length_le. lia.
      * apply Z.ltb_ge in E. lia.
    + intros Hshort. destruct (500 <? Z.of_nat (length content)) eqn:E.
      * apply Z.ltb_lt in E. lia.
      * reflexivity.
Qed.

(** *** The TM annotation of [translate] *)

Lemma py_gt0_score_positive (score : value) (b : bool) :
  py_gt0 score = Ok b -> score_positive score = b.
Proof.
  destruct score; try discriminate; cbn; intros H; now injection H.
Qed.

Lemma Ok_inj {A} (a b : A) : Ok a = Ok b -> a = b.
Proof. intros H. now injection H. Qed.

Lemma py_get_dict (d : dict) (k : str) (default v : value) :
  py_get (VDict d) k default = Ok v ->
  v = match dict_get d k with Some x => x | None => default end.
Proof. cbn. intros H. now injection H. Qed.

(** Under the test of the source, the annotation is there exactly for a
    match with a positive score. *)
Lemma tm_annotation_iff (tm : value) (lines : list str) :
  tm_annotation tm = Ok lines ->
  existsb is_tm_annotation lines = positive_match tm.
Proof.
  unfold tm_annotation. destruct (truthy tm) eqn:Htruthy.
  - intros H. step H as score Hs. step H as positive Hp.
    apply py_gt0_score_positive in Hp.
    destruct tm; try discriminate Hs.
    apply py_get_dict in Hs. cbn [positive_match].
    destruct positive.
    + assert (Hpos : match dict_get d (L "score") with
                     | Some score => score_positive score
                     | None => false
                     end = true).
      { destruct (dict_get d (L "score")); subst; [assumption|discriminate]. }
      rewrite Hpos.
      step H as score' Hs'. step H as pct Hpct. step H as mt Hmt.
      step H as src Hsrc. step H as st Hst.
      destruct (truthy st).
      * step H as st' Hst'. step H as tgt Htgt. apply Ok_inj in H. subst lines.
        cbn [existsb]. unfold is_tm_annotation at 1.
        rewrite (app_assoc nl (L "**TM Match:** ")), starts_with_app.
        reflexivity.
      * apply Ok_inj in H. subst lines.
        cbn [existsb]. unfold is_tm_annotation at 1.
        rewrite (app_assoc nl (L "**TM Match:** ")), starts_with_app.
        reflexivity.
    + apply Ok_inj in H. subst lines. cbn [existsb].
      destruct (dict_get d (L "score")); subst; [now rewrite Hp|reflexivity].
  - intros H. apply Ok_inj in H. subst lines. cbn [existsb].
    destruct tm as [| | | | | |d]; try reflexivity.
    destruct d; [reflexivity|discriminate].
Qed.

Lemma optional_section_lines (result : value) (key title : string)
    (lines : list str) :
  optional_section result key title = Ok lines ->
  lines = [] \/ exists v, lines = [nl ++ L title ++ py_str v].
Proof.
  unfold optional_section. intros H. step H as v Hv.
  destruct (truthy v).
  - step H as v' Hv'. apply Ok_inj in H. right. eauto.
  - apply Ok_inj in H. left. symmetry. exact H.
Qed.

Lemma optional_section_dict (d : dict) (key title : string) :
  exists lines, optional_section (VDict d) key title = Ok lines.
Proof.
  unfold optional_section. cbn [py_get]. run.
  destruct (dict_get d (L key)) as [v|] eqn:Hd.
  - destruct (truthy v); [|eauto].
    cbn [py_getitem]. rewrite Hd. run. eauto.
  - cbn [truthy]. eauto.
Qed.

(** The parts [translate] joins: the headline, the TM annotation when the
    match is positive, then the optional sections. *)
Lemma translate_parts_annotation (target_language : str) (result : value)
    (parts : list str) :
  translate_parts target_language result = Ok parts ->
  existsb is_tm_annotation parts = has_positive_tm_match result.
Proof.
  unfold translate_parts. intros H.
  step H as translated Ht. step H as tm Htm. step H as tm_lines Hlines.
  step H as back Hback. step H as rationale Hr.
  apply Ok_inj in H. subst parts.
  rewrite !existsb_app.
  assert (Hb : existsb is_tm_annotation back = false).
  { destruct (optional_section_lines _ _ _ _ Hback) as [->|(v & ->)];
      reflexivity. }
  assert (Hra : existsb is_tm_annotation rationale = false).
  { destruct (optional_section_lines _ _ _ _ Hr) as [->|(v & ->)];
      reflexivity. }
  rewrite (tm_annotation_iff _ _ Hlines), Hb, Hra, !orb_false_r.
  change (positive_match tm = has_positive_tm_match result).
  destruct result; try discriminate Ht.
  apply py_get_dict in Htm. subst tm. cbn [has_positive_tm_match].
  destruct (dict_get d (L "tm_match")); reflexivity.
Qed.

(** A dict answer whose TM match is a dict with a score that compares to
    0, and prints when it is positive, is always rendered. *)
Lemma translate_parts_dict (target_language : str) (d tm : dict)
    (score : value) (positive : bool) :
  dict_get d (L "tm_match") = Some (VDict tm) ->
  dict_get tm (L "score") = Some score ->
  py_gt0 score = Ok positive ->
  (positive = true -> exists pct, format_0f score = Ok pct) ->
  exists parts, translate_parts target_language (VDict d) = Ok parts.
Proof.
  intros Htm Hs Hp Hfmt. unfold translate_parts. cbn [py_get]. run.
  rewrite Htm.
  assert (Hann : exists lines, tm_annotation (VDict tm) = Ok lines).
  { unfold tm_annotation. destruct (truthy (VDict tm)); [|eexists; reflexivity].
    cbn [py_get py_getitem]. rewrite Hs. run. rewrite Hp. run.
    destruct positive; [|eexists; reflexivity].
    destruct (Hfmt eq_refl) as (pct & ->). run.
    destruct (dict_get tm (L "source_text")) as [src|]; run.
    - destruct (truthy src); eexists; reflexivity.
    - cbn [truthy]. eexists; reflexivity. }
  destruct Hann as (lines & ->). run.
  destruct (optional_section_dict d "backtranslation"
              "**Back-translation:** ") as (back & ->).
  destruct (optional_section_dict d "rationale" "**Rationale:** ")
    as (rationale & ->).
  run. eauto.
Qed.

Lemma translate_parts_no_match (target_language : str) (d : dict) :
  dict_get d (L "tm_match") = None ->
  exists parts, translate_parts target_language (VDict d) = Ok parts.
Proof.
  intros Htm. unfold translate_parts. cbn [py_get]. run.
  rewrite Htm. unfold tm_annotation. cbn [truthy]. run.
  destruct (optional_section_dict d "backtranslation"
              "**Back-translation:** ") as (back & ->).
  destruct (optional_section_dict d "rationale" "**Rationale:** ")
    as (rationale & ->).
  run. eauto.
Qed.

(** The lines of the annotation, exactly, for a match that is a dict. *)
Lemma tm_annotation_exact (tm : dict) (positive : bool) (pct : str) :
  tm <> [] ->
  py_gt0 (get_or tm "score" (VInt 0)) = Ok positive ->
  (positive = true -> format_0f (get_or tm "score" (VInt 0)) = Ok pct) ->
  tm_annotation (VDict tm)
  = Ok (if positive
        then [ nl ++ L "**TM Match:** " ++ pct ++ L "% ("
                 ++ py_str (get_or tm "match_type" (VStr (L "unknown")))
                 ++ L ") " ++ emdash ++ L " source: "
                 ++ py_str (get_or tm "tm_source" (VStr (L "N/A"))) ]
             ++ (if truthy (get_or tm "source_text" VNone)
                 then [ L "  TM reference: " ++ dq
                          ++ py_str (get_or tm "source_text" VNone) ++ dq
                          ++ L " " ++ arrow ++ L " " ++ dq
                          ++ py_str (get_or tm "target_text" (VStr []))
                          ++ dq ]
                 else [])
        else []).
Proof.
  intros Hne Hp Hfmt. unfold tm_annotation.
  assert (Ht : truthy (VDict tm) = true)
    by (destruct tm; [congruence|reflexivity]).
  rewrite Ht. unfold get_or in *. cbn [py_get]. run. rewrite Hp. run.
  destruct positive; [|reflexivity].
  assert (Hget : py_getitem (VDict tm) (L "score")
                 = Ok (match dict_get tm (L "score") with
                       | Some v => v
                       | None => VInt 0
                       end)).
  { apply (py_getitem_after_get _ _ (VInt 0)); [reflexivity|].
    apply (positive_not_zero _ Hp). }
  rewrite Hget. run. rewrite (Hfmt eq_refl). run.
  destruct (dict_get tm (L "source_text")) as [src|] eqn:Hsrc.
  - destruct (truthy src) eqn:Hts; [|reflexivity].
    cbn [py_getitem]. rewrite Hsrc. reflexivity.
  - reflexivity.
Qed.

Lemma tm_annotation_none (tm : value) :
  truthy tm = false -> tm_annotation tm = Ok [].
Proof. intros H. unfold tm_annotation. now rewrite H. Qed.

(** Without a positive match the annotation is empty. *)
Lemma tm_annotation_not_positive (tm : value) (lines : list str) :
  tm_annotation tm = Ok lines -> positive_match tm = false -> lines = [].
Proof.
  unfold tm_annotation. destruct (truthy tm) eqn:Htruthy.
  - intros H Hneg. step H as score Hs. step H as positive Hp.
    apply py_gt0_score_positive in Hp.
    destruct tm; try discriminate Hs.
    apply py_get_dict in Hs. cbn [positive_match] in Hneg.
    destruct positive.
    + destruct (dict_get d (L "score")); subst;
        [congruence|discriminate Hp].
    + apply Ok_inj in H. now subst.
  - intros H _. apply Ok_inj in H. now subst.
Qed.

Lemma optional_section_exact (d : dict) (key title : string) :
  optional_section (VDict d) key title = Ok (section_of d key title).
Proof.
  unfold optional_section, section_of, get_or. cbn [py_get]. run.
  destruct (dict_get d (L key)) as [v|] eqn:Hd.
  - destruct (truthy v); [|reflexivity].
    cbn [py_getitem]. rewrite Hd. reflexivity.
  - reflexivity.
Qed.

(** The parts of a dict answer: the headline, the annotation lines, the
    two optional sections. *)
Lemma translate_parts_exact (target_language : str) (d : dict)
    (tm_lines : list str) :
  tm_annotation (get_or d "tm_match" VNone) = Ok tm_lines ->
  translate_parts target_language (VDict d)
  = Ok ([ L "**Translation (" ++ target_language ++ L "):** "
            ++ py_str (get_or d "translated_text" (VStr [])) ]
        ++ tm_lines
        ++ section_of d "backtranslation" "**Back-translation:** "
        ++ section_of d "rationale" "**Rationale:** ").
Proof.
  intros Hl. unfold translate_parts, get_or in *. cbn [py_get]. run.
  rewrite Hl. run. rewrite !optional_section_exact. run.
  now rewrite <- !app_assoc.
Qed.

Lemma section_of_no_tm_line (d : dict) (key title : string) :
  is_tm_reference (nl ++ L title) = false ->
  existsb is_tm_reference (section_of d key title) = false.
Proof.
  intros _. unfold section_of. destruct (truthy _); reflexivity.
Qed.

(** C9. In the output of [translate] (with the credential set, on a decoded
    answer): (1) whenever an output is returned it is the join of the
    parts of the answer, among which the TM annotation line, the one that
    starts with [\n**TM Match:** ], occurs if and only if the answer has
    a [tm_match] with a score greater than 0, and without such a match
    the parts are exactly the headline and the optional sections: no TM
    line of any kind; (2) a dict answer whose match is a dict is rendered
    as exactly the headline, then -- only when the score is greater than
    0 -- the annotation line and the TM reference of a match that has a
    source text, then the optional sections; a score of 0 or less, or no
    score, leaves nothing of the match; (3) a dict answer without a match
    (absent, null or empty) is exactly the headline and the optional
    sections. *)
Theorem translate_tm_annotation_iff_positive_score
    (text target_language target_language_code source_language
     source_language_code context glossary formality : str)
    (max_characters : Z) (backtranslate : bool) (w : World)
    (result : value) :
  has_credential w = true ->
  answer_of (the_client w)
    (translate_op text target_language target_language_code source_language
       source_language_code context glossary formality max_characters
       backtranslate) w = Ok result ->
  let output :=
    fst (translate text target_language target_language_code source_language
           source_language_code context glossary formality max_characters
           backtranslate w) in
  (forall out,
     output = Ok out ->
     exists parts,
       translate_parts target_language result = Ok parts
       /\ out = join nl parts
       /\ (existsb is_tm_annotation parts = true
           <-> has_positive_tm_match result = true)
       /\ (has_positive_tm_match result = false ->
           existsb is_tm_reference parts = false
           /\ exists d,
                result = VDict d
                /\ parts
                   = [ L "**Translation (" ++ target_language ++ L "):** "
                         ++ py_str (get_or d "translated_text" (VStr [])) ]
                     ++ section_of d "backtranslation"
                          "**Back-translation:** "
                     ++ section_of d "rationale" "**Rationale:** "))
  /\ (forall d tm positive pct,
        result = VDict d ->
        dict_get d (L "tm_match") = Some (VDict tm) ->
        tm <> [] ->
        py_gt0 (get_or tm "score" (VInt 0)) = Ok positive ->
        (positive = true ->
         format_0f (get_or tm "score" (VInt 0)) = Ok pct) ->
        let parts :=
          [ L "**Translation (" ++ target_language ++ L "):** "
              ++ py_str (get_or d "translated_text" (VStr [])) ]
          ++ (if positive
              then [ nl ++ L "**TM Match:** " ++ pct ++ L "% ("
                       ++ py_str (get_or tm "match_type"
                                    (VStr (L "unknown")))
                       ++ L ") " ++ emdash ++ L " source: "
                       ++ py_str (get_or tm "tm_source" (VStr (L "N/A"))) ]
                   ++ (if truthy (get_or tm "source_text" VNone)
                       then [ L "  TM reference: " ++ dq
                                ++ py_str (get_or tm "source_text" VNone)
                                ++ dq ++ L " " ++ arrow ++ L " " ++ dq
                                ++ py_str (get_or tm "target_text" (VStr []))
                                ++ dq ]
                       else [])
              else [])
          ++ section_of d "backtranslation" "**Back-translation:** "
          ++ section_of d "rationale" "**Rationale:** " in
        translate_parts target_language result = Ok parts
        /\ output = Ok (join nl parts)
        /\ existsb is_tm_annotation parts = positive)
  /\ (forall d,
        result = VDict d ->
        truthy (get_or d "tm_match" VNone) = false ->
        let parts :=
          [ L "**Translation (" ++ target_language ++ L "):** "
              ++ py_str (get_or d "translated_text" (VStr [])) ]
          ++ section_of d "backtranslation" "**Back-translation:** "
          ++ section_of d "rationale" "**Rationale:** " in
        translate_parts target_language result = Ok parts
        /\ output = Ok (join nl parts)
        /\ existsb is_tm_annotation parts = false).
Proof.
  intros H Ha output. subst output.
  rewrite (translate_run _ _ _ _ _ _ _ _ _ _ w H). cbn [fst].
  rewrite Ha. run. split; [|split].
  - intros out Hout.
    destruct (translate_parts target_language result) as [e|parts] eqn:Hp;
      [discriminate|].
    apply Ok_inj in Hout. exists parts.
    split; [reflexivity|]. split; [congruence|]. split.
    + rewrite (translate_parts_annotation _ _ _ Hp).
      split; intros Hpos; exact Hpos.
    + intros Hneg.
      assert (Hp' := Hp). unfold translate_parts in Hp'.
      step Hp' as translated Ht. step Hp' as tm Htm.
      step Hp' as tm_lines Hl.
      destruct result as [| | | | | |d]; try discriminate Ht.
      apply py_get_dict in Htm.
      assert (Hnone : tm_lines = []).
      { apply (tm_annotation_not_positive _ _ Hl).
        cbn [has_positive_tm_match] in Hneg. subst tm.
        destruct (dict_get d (L "tm_match")); [exact Hneg|reflexivity]. }
      subst tm_lines.
      assert (Hex : translate_parts target_language (VDict d)
                    = Ok ([ L "**Translation (" ++ target_language
                              ++ L "):** "
                              ++ py_str (get_or d "translated_text"
                                           (VStr [])) ]
                          ++ []
                          ++ section_of d "backtranslation"
                               "**Back-translation:** "
                          ++ section_of d "rationale" "**Rationale:** ")).
      { apply translate_parts_exact. unfold get_or. rewrite <- Htm.
        exact Hl. }
      rewrite Hp in Hex. apply Ok_inj in Hex. subst parts. split.
      * rewrite !existsb_app.
        rewrite !section_of_no_tm_line by reflexivity. reflexivity.
      * exists d. split; reflexivity.
  - intros d tm positive pct -> Htm Hne Hp Hfmt.
    assert (Hl := tm_annotation_exact tm positive pct Hne Hp Hfmt).
    assert (Hm : get_or d "tm_match" VNone = VDict tm)
      by (unfold get_or; now rewrite Htm).
    rewrite <- Hm in Hl.
    assert (Hparts := translate_parts_exact target_language d _ Hl).
    rewrite Hparts. split; [reflexivity|]. split; [reflexivity|].
    rewrite (translate_parts_annotation _ _ _ Hparts).
    cbn [has_positive_tm_match]. rewrite Htm. cbn [positive_match].
    apply py_gt0_score_positive in Hp. unfold get_or in Hp.
    destruct (dict_get tm (L "score")); exact Hp.
  - intros d -> Hf.
    assert (Hparts :
              translate_parts target_language (VDict d)
              = Ok ([ L "**Translation (" ++ target_language ++ L "):** "
                        ++ py_str (get_or d "translated_text" (VStr [])) ]
                    ++ section_of d "backtranslation" "**Back-translation:** "
                    ++ section_of d "rationale" "**Rationale:** "))
      by exact (translate_parts_exact target_language d []
                  (tm_annotation_none _ Hf)).
    rewrite Hparts.
    split; [reflexivity|]. split; [reflexivity|].
    rewrite (translate_parts_annotation _ _ _ Hparts).
    cbn [has_positive_tm_match]. unfold get_or in Hf.
    destruct (dict_get d (L "tm_match")) as [tm|]; [|reflexivity].
    destruct tm as [| | | | | |tmd]; try reflexivity.
    destruct tmd; [reflexivity|discriminate Hf].
Qed.

(** *** The credential *)

(** C4 (amended). The credential is looked up by each tool and resource
    handler when it is called: in a world where [NATIV_API_KEY] is unset
    or empty, every tool and every resource raises the configuration error
    before it sends any request, and leaves the process as it found it;
    the prompts, which build no client, are served whatever the
    environment; and where the credential is set, the client a handler
    gets is built from the environment of that very call. *)
Theorem missing_credential_raised_per_call (h : handler) (w : World) :
  (has_credential w = false ->
   is_prompt h = false ->
   serve h w = (Err (RuntimeError MISSING_API_KEY), w))
  /\ (is_prompt h = true -> exists text, serve h w = (Ok text, w))
  /\ (has_credential w = true ->
      _get_client w
      = (Ok (NativClient_init
               (match env_get (environ w) (L "NATIV_API_KEY") with
                | Some key => key
                | None => []
                end)
               (env_get (environ w) (L "NATIV_API_URL"))), w)).
Proof.
  split; [|split].
  - intros H Hp.
    destruct h; try discriminate Hp; cbn [serve];
      apply (fetch_missing _ w H).
  - intros Hp. destruct h; try discriminate Hp; cbn [serve]; run; eauto.
  - apply get_client_ok.
Qed.

(** *** Single-call handlers *)

Lemma serve_single_call (h : handler) (op : client_op)
    (render : value -> Res str) (w : World) :
  single_call h = Some (op, render) ->
  has_credential w = true ->
  serve h w
  = (result <- answer_of (the_client w) op w ;; render result,
     record_request (request_of (the_client w) op) w).
Proof.
  intros Hs H.
  destruct h; cbn [single_call] in Hs; try discriminate Hs;
    injection Hs as <- <-; cbn [serve].
  - apply (translate_run _ _ _ _ _ _ _ _ _ _ w H).
  - apply (search_run _ _ _ _ _ w H).
  - unfold add_translation_memory_entry. run.
    rewrite (get_client_ok w H). run.
    change (NativClient_add_tm_entry (the_client w) source_text target_text
              source_language_code target_language_code (or_none name))
      with (call (the_client w)
              (Op_add_tm_entry source_text target_text source_language_code
                 target_language_code (or_none name))).
    rewrite call_run. destruct (answer_of _ _ _); reflexivity.
  - apply (fetch_render_run Op_get_languages languages_render w H).
  - apply (fetch_render_run Op_get_tm_stats stats_render w H).
  - apply (fetch_render_run Op_list_style_guides style_guides_render w H).
  - apply (fetch_render_run Op_get_brand_prompt brand_voice_render w H).
  - exact (fetch_render_run Op_get_languages
             (fun result => Ok (_fmt_json result)) w H).
  - exact (fetch_render_run Op_list_style_guides
             (fun result => Ok (_fmt_json result)) w H).
  - exact (fetch_render_run Op_get_brand_prompt
             (fun result => Ok (_fmt_json result)) w H).
  - exact (fetch_render_run Op_get_tm_stats
             (fun result => Ok (_fmt_json result)) w H).
Qed.

(** X1. With the credential set, every tool and resource except
    [translate_batch] makes exactly one upstream request, the one of its
    client operation, keeps the environment, and returns what its renderer
    makes of the decoded answer: nothing is cached and nothing retried. *)
Theorem single_call_handlers_send_one_request (h : handler) (op : client_op)
    (render : value -> Res str) (w : World) :
  single_call h = Some (op, render) ->
  has_credential w = true ->
  sent (snd (serve h w)) = sent w ++ [request_of (the_client w) op]
  /\ environ (snd (serve h w)) = environ w
  /\ fst (serve h w)
     = (result <- answer_of (the_client w) op w ;; render result)
  /\ sent (snd (serve h (snd (serve h w))))
     = sent w ++ [request_of (the_client w) op; request_of (the_client w) op].
Proof.
  intros Hs H. rewrite (serve_single_call h op render w Hs H).
  cbn [fst snd record_request sent environ]. repeat split.
  assert (H' : has_credential (record_request (request_of (the_client w) op) w)
               = true) by exact H.
  rewrite (serve_single_call h op render _ Hs H').
  cbn [snd record_request sent environ]. now rewrite <- app_assoc.
Qed.

(** X2. With the credential set, a failure of the upstream call -- a
    transport fault, a 402, another status outside 200..299, an answer
    that is not JSON -- leaves every single-call tool and resource as the
    very exception the client raised: none of them catches it. *)
Theorem single_call_handlers_propagate_errors (h : handler) (op : client_op)
    (render : value -> Res str) (w : World) (e : exn) :
  single_call h = Some (op, render) ->
  has_credential w = true ->
  answer_of (the_client w) op w = Err e ->
  fst (serve h w) = Err e.
Proof.
  intros Hs H He. rewrite (serve_single_call h op render w Hs H).
  cbn [fst]. rewrite He. reflexivity.
Qed.

(** X3. Every client operation sends exactly one request whatever the
    outcome, so a failed call is not retried; a transport fault is raised
    as it is, and an answer with a status in 200..299 returns the outcome
    of decoding its JSON, a decoding error included. *)
Theorem client_call_outcomes (self : NativClient) (op : client_op) (w : World) :
  snd (call self op w) = record_request (request_of self op) w
  /\ (forall e,
        upstream (sent w) (request_of self op) = Err e ->
        fst (call self op w) = Err e)
  /\ (forall resp,
        upstream (sent w) (request_of self op) = Ok resp ->
        is_success (status_code resp) = true ->
        fst (call self op w) = resp_json resp).
Proof.
  rewrite call_run. cbn [fst snd]. unfold answer_of, decode.
  split; [reflexivity|]. split.
  - intros e ->. reflexivity.
  - intros resp -> Hs. cbn [Ok].
    destruct (status_code resp =? 402) eqn:E.
    + apply Z.eqb_eq in E. rewrite E in Hs. discriminate Hs.
    + now rewrite Hs.
Qed.


(** *** The requests a handler sends *)

Lemma translate_body_required (text language : str) (language_code : option str)
    (source_language source_language_code : str)
    (context glossary formality : option str) (max_characters : option Z)
    (include_tm_info backtranslate include_rationale : bool) :
  let body := translate_body text language language_code source_language
                source_language_code context glossary formality
                max_characters include_tm_info backtranslate
                include_rationale in
  dict_get body (L "text") = Some (VStr text)
  /\ dict_get body (L "language") = Some (VStr language)
  /\ dict_get body (L "source_language") = Some (VStr source_language)
  /\ dict_get body (L "source_language_code")
     = Some (VStr source_language_code)
  /\ dict_get body (L "tool") = Some (VStr (L "api")).
Proof.
  split_optionals; (repeat split; vm_compute; reflexivity).
Qed.

Lemma request_of_envelope (self : NativClient) (op : client_op) :
  req_headers (request_of self op) = headers self
  /\ starts_with (base_url self) (req_url (request_of self op)) = true.
Proof.
  destruct op; cbn [request_of req_headers req_url];
    (split; [reflexivity|apply starts_with_app]).
Qed.

(** X4. With the credential set, [translate_batch] never raises, keeps the
    environment, and sends exactly one request per text, in the order of
    the texts (none for an empty list).  Each is a POST whose body carries
    the text, asks for TM information, asks for neither back-translation
    nor rationale, and has no glossary and no character limit. *)
Theorem translate_batch_sends_one_request_per_text
    (texts : list str) (target_language target_language_code source_language
     source_language_code context formality : str) (w : World) :
  has_credential w = true ->
  let run := translate_batch texts target_language target_language_code
               source_language source_language_code context formality w in
  let req := batch_request (the_client w) target_language
               target_language_code source_language source_language_code
               context formality in
  (exists output, fst run = Ok output)
  /\ sent (snd run) = sent w ++ map req texts
  /\ environ (snd run) = environ w
  /\ (texts = [] ->
      snd run = w
      /\ fst run = Ok (L "**Batch translation to " ++ target_language
                         ++ L "** (0 items):" ++ nl))
  /\ forall text,
       req_method (req text) = L "POST"
       /\ req_params (req text) = None
       /\ exists body,
            req_json (req text) = Some body
            /\ dict_get body (L "text") = Some (VStr text)
            /\ dict_get body (L "include_tm_info") = Some (VBool true)
            /\ dict_get body (L "backtranslate") = Some (VBool false)
            /\ dict_get body (L "include_rationale") = Some (VBool false)
            /\ dict_get body (L "glossary") = None
            /\ dict_get body (L "max_characters") = None.
Proof.
  intros H run req. subst run req.
  destruct (batch_loop_run (the_client w) target_language
              target_language_code source_language source_language_code
              context formality texts 0 w) as (results & Hrun & _ & _).
  assert (Heq : translate_batch texts target_language target_language_code
                  source_language source_language_code context formality w
                = (Ok ((L "**Batch translation to " ++ target_language
                          ++ L "** (" ++ dec (Z.of_nat (length texts))
                          ++ L " items):" ++ nl) ++ join nl results),
                   {| environ := environ w;
                      sent := sent w
                              ++ map (batch_request (the_client w)
                                        target_language target_language_code
                                        source_language source_language_code
                                        context formality) texts |})).
  { unfold translate_batch, enumerate. run.
    rewrite (get_client_ok w H). run. rewrite Hrun. reflexivity. }
  rewrite Heq. cbn [fst snd sent environ].
  split; [eauto|]. split; [reflexivity|]. split; [reflexivity|]. split.
  - intros ->. cbn [map]. rewrite app_nil_r. destruct w as [env tr].
    split; [reflexivity|].
    cbn [enumerate_from mapM] in Hrun. run.
    injection Hrun as <-. cbn [join length Z.of_nat].
    rewrite app_nil_r. reflexivity.
  - intros text. split; [reflexivity|]. split; [reflexivity|].
    eexists. split; [reflexivity|].
    match goal with
    | |- context [dict_get (translate_body ?a ?b ?c ?d ?e ?f ?g ?h ?i ?j ?k ?l)] =>
        destruct (translate_body_flags a b c d e f g h i j k l)
          as (Htm & Hbt & Hra);
        destruct (translate_body_unset a b c d e f g h i j k l)
          as (_ & _ & Hgl & _ & Hmax);
        destruct (translate_body_required a b c d e f g h i j k l)
          as (Htext & _)
    end.
    repeat split; auto.
Qed.

(** X5. Whatever handler is served, in whatever world: the environment is
    left as it was and the trace only grows; nothing is sent when the
    credential is missing or the handler is a prompt; and every request
    sent is the request of a client operation, other than
    [list_tm_entries] and [get_combined_prompt], built by the client of
    that call: it goes to the configured base URL and carries the
    credential read at that call, the JSON content type and the user
    agent. *)
Theorem every_request_carries_the_credential (h : handler) (w : World) :
  exists new,
    sent (snd (serve h w)) = sent w ++ new
    /\ environ (snd (serve h w)) = environ w
    /\ (has_credential w = false -> new = [])
    /\ (is_prompt h = true -> new = [])
    /\ Forall (fun r =>
                 (exists op,
                    r = request_of (the_client w) op /\ reachable op = true)
                 /\ req_headers r = client_headers (credential w)
                 /\ starts_with (base_url (the_client w)) (req_url r) = true)
         new.
Proof.
  destruct (has_credential w) eqn:H.
  - destruct (single_call h) as [[op render]|] eqn:Hs.
    + exists [request_of (the_client w) op].
      rewrite (serve_single_call h op render w Hs H).
      cbn [snd record_request sent environ].
      repeat split; try discriminate.
      * intros Hp. destruct h; discriminate.
      * repeat constructor.
        -- exists op. split; [reflexivity|].
           destruct h; cbn [single_call] in Hs; try discriminate Hs;
             injection Hs as <- _; reflexivity.
        -- apply request_of_envelope.
        -- apply request_of_envelope.
    + destruct h; try discriminate Hs.
      * destruct (batch_loop_run (the_client w) target_language
                    target_language_code source_language source_language_code
                    context formality texts 0 w) as (results & Hrun & _ & _).
        exists (map (batch_request (the_client w) target_language
                       target_language_code source_language
                       source_language_code context formality) texts).
        cbn [serve]. unfold translate_batch, enumerate. run.
        rewrite (get_client_ok w H). run. rewrite Hrun.
        cbn [snd sent environ]. repeat split; try discriminate.
        apply Forall_forall. intros r Hr. apply in_map_iff in Hr.
        destruct Hr as (text & <- & _). unfold batch_request. repeat split.
        -- eexists. split; reflexivity.
        -- apply request_of_envelope.
      * exists []. cbn. rewrite app_nil_r. repeat split. constructor.
      * exists []. cbn. rewrite app_nil_r. repeat split. constructor.
      * exists []. cbn. rewrite app_nil_r. repeat split. constructor.
  - exists []. rewrite app_nil_r.
    assert (Hw : snd (serve h w) = w).
    { destruct h; cbn [serve]; try reflexivity;
        match goal with
        | |- snd ?c = w =>
            replace c with (@Err str (RuntimeError MISSING_API_KEY), w)
              by (symmetry; apply (fetch_missing _ w H))
        end; reflexivity. }
    rewrite Hw. repeat split. constructor.
Qed.

(** *** The base URL *)

Lemma rstrip_slash_spec (s : str) :
  (exists n, s = rstrip_slash s ++ repeat 47%N n)
  /\ forall t, rstrip_slash s <> t ++ [47%N].
Proof.
  induction s as [|c r [(n & Hn) Hend]]; cbn [rstrip_slash].
  - split; [exists 0%nat; reflexivity|]. intros [|x t]; discriminate.
  - destruct (rstrip_slash r) as [|x r'] eqn:E.
    + destruct (N.eqb c 47) eqn:Ec.
      * apply N.eqb_eq in Ec. subst c. split.
        -- exists (S n). cbn. now rewrite Hn at 1.
        -- intros [|x t]; discriminate.
      * apply N.eqb_neq in Ec. split.
        -- exists n. cbn. now rewrite Hn at 1.
        -- intros [|x [|y t]] Heq; try discriminate Heq.
           injection Heq as ->. congruence.
    + split.
      * exists n. cbn. now rewrite Hn at 1.
      * intros [|y t] Heq; [discriminate Heq|].
        injection Heq as _ Heq. apply (Hend t). exact Heq.
Qed.

(** X6. The base URL of a client is the override when one is given and
    not empty, and the default otherwise, with every trailing slash
    removed and nothing else changed: it never ends with a slash, so
    joining it with a path yields a single slash between them. *)
Theorem base_url_has_no_trailing_slash (api_key : str) (url : option str) :
  let configured := match url with
                    | Some (c :: u) => c :: u
                    | _ => DEFAULT_API_URL
                    end in
  let base := base_url (NativClient_init api_key url) in
  (exists n, configured = base ++ repeat 47%N n)
  /\ (forall t, base <> t ++ [47%N])
  /\ (url = None \/ url = Some [] -> base = DEFAULT_API_URL).
Proof.
  cbn zeta. unfold NativClient_init. cbn [base_url].
  assert (Hc : (if opt_truthy url
                then match url with Some u => u | None => [] end
                else DEFAULT_API_URL)
               = match url with
                 | Some (c :: u) => c :: u
                 | _ => DEFAULT_API_URL
                 end).
  { destruct url as [[|c u]|]; reflexivity. }
  rewrite Hc. split; [|split].
  - apply rstrip_slash_spec.
  - apply rstrip_slash_spec.
  - intros [->| ->]; vm_compute; reflexivity.
Qed.


(** *** What the tools forward *)

Lemma translate_body_set (text language : str) (language_code : option str)
    (source_language source_language_code : str)
    (context glossary formality : option str) (max_characters : option Z)
    (include_tm_info backtranslate include_rationale : bool) :
  let body := translate_body text language language_code source_language
                source_language_code context glossary formality
                max_characters include_tm_info backtranslate
                include_rationale in
  (forall v, language_code = Some v -> v <> [] ->
             dict_get body (L "language_code") = Some (VStr v))
  /\ (forall v, context = Some v -> v <> [] ->
                dict_get body (L "context") = Some (VStr v))
  /\ (forall v, glossary = Some v -> v <> [] ->
                dict_get body (L "glossary") = Some (VStr v))
  /\ (forall v, formality = Some v -> v <> [] ->
                dict_get body (L "formality") = Some (VStr v))
  /\ (forall n, max_characters = Some n ->
                dict_get body (L "max_characters") = Some (VInt n)).
Proof.
  split_optionals;
    (repeat split; intros v Hv; try discriminate Hv;
     injection Hv as <-; try congruence; try intros _;
     vm_compute; reflexivity).
Qed.

Lemma or_none_some (s : str) : s <> [] -> or_none s = Some s.
Proof. destruct s; [congruence|reflexivity]. Qed.

(** X7. In the one request [translate] sends (with the credential set) --
    a POST with a JSON body and no query string -- the text, the language
    names and codes and the tool tag are always present, every optional
    string that is not empty is forwarded as it is, and the character
    limit is forwarded exactly when it is greater than 0: zero and
    negative limits are dropped. *)
Theorem translate_forwards_what_is_set
    (text target_language target_language_code source_language
     source_language_code context glossary formality : str)
    (max_characters : Z) (backtranslate : bool) (w : World) :
  has_credential w = true ->
  exists req body,
    sent (snd (translate text target_language target_language_code
                 source_language source_language_code context glossary
                 formality max_characters backtranslate w))
    = sent w ++ [req]
    /\ req_method req = L "POST"
    /\ req_params req = None
    /\ req_json req = Some body
    /\ dict_get body (L "text") = Some (VStr text)
    /\ dict_get body (L "language") = Some (VStr target_language)
    /\ dict_get body (L "source_language") = Some (VStr source_language)
    /\ dict_get body (L "source_language_code")
       = Some (VStr source_language_code)
    /\ dict_get body (L "tool") = Some (VStr (L "api"))
    /\ (target_language_code <> [] ->
        dict_get body (L "language_code") = Some (VStr target_language_code))
    /\ (context <> [] -> dict_get body (L "context") = Some (VStr context))
    /\ (glossary <> [] -> dict_get body (L "glossary") = Some (VStr glossary))
    /\ (formality <> [] ->
        dict_get body (L "formality") = Some (VStr formality))
    /\ (0 < max_characters ->
        dict_get body (L "max_characters") = Some (VInt max_characters))
    /\ (max_characters <= 0 -> dict_get body (L "max_characters") = None).
Proof.
  intros H. rewrite (translate_run _ _ _ _ _ _ _ _ _ _ w H).
  eexists. eexists. split; [reflexivity|].
  split; [reflexivity|]. split; [reflexivity|]. split; [reflexivity|].
  match goal with
  | |- context [dict_get (translate_body ?a ?b ?c ?d ?e ?f ?g ?h ?i ?j ?k ?l)] =>
      destruct (translate_body_required a b c d e f g h i j k l)
        as (Htext & Hlang & Hsl & Hslc & Htool);
      destruct (translate_body_set a b c d e f g h i j k l)
        as (Hlc & Hctx & Hgl & Hfo & Hmax);
      destruct (translate_body_unset a b c d e f g h i j k l)
        as (_ & _ & _ & _ & Hnone)
  end.
  repeat split; try assumption.
  - intros Hne. apply (Hlc _ (or_none_some _ Hne) Hne).
  - intros Hne. apply (Hctx _ (or_none_some _ Hne) Hne).
  - intros Hne. apply (Hgl _ (or_none_some _ Hne) Hne).
  - intros Hne. apply (Hfo _ (or_none_some _ Hne) Hne).
  - intros Hpos. apply Hmax. apply Z.ltb_lt in Hpos. now rewrite Hpos.
  - intros Hle. apply Hnone. apply Z.ltb_ge in Hle. now rewrite Hle.
Qed.

(** X8. In the one request [search_translation_memory] sends (with the
    credential set) -- a GET with a query string and no body -- the query,
    the source language code, the score cut-off and the limit are always
    forwarded as given, and the target language code is a parameter
    exactly when it is not empty. *)
Theorem search_forwards_its_parameters
    (query source_language_code target_language_code : str)
    (min_score : spec_float) (limit : Z) (w : World) :
  has_credential w = true ->
  exists req params,
    sent (snd (search_translation_memory query source_language_code
                 target_language_code min_score limit w))
    = sent w ++ [req]
    /\ req_method req = L "GET"
    /\ req_json req = None
    /\ req_params req = Some params
    /\ dict_get params (L "query") = Some (VStr query)
    /\ dict_get params (L "source_lang") = Some (VStr source_language_code)
    /\ dict_get params (L "score_cutoff") = Some (VFloat min_score)
    /\ dict_get params (L "limit") = Some (VInt limit)
    /\ (target_language_code <> [] ->
        dict_get params (L "target_lang") = Some (VStr target_language_code))
    /\ (target_language_code = [] ->
        dict_get params (L "target_lang") = None).
Proof.
  intros H. rewrite (search_run _ _ _ _ _ w H).
  eexists. eexists. split; [reflexivity|].
  split; [reflexivity|]. split; [reflexivity|]. split; [reflexivity|].
  destruct target_language_code as [|c t];
    (repeat split; try congruence; intros _; vm_compute; reflexivity).
Qed.

Lemma add_entry_run (source_text target_text source_language_code
    target_language_code name : str) (w : World) :
  has_credential w = true ->
  let op := Op_add_tm_entry source_text target_text source_language_code
              target_language_code (or_none name) in
  add_translation_memory_entry source_text target_text source_language_code
    target_language_code name w
  = (_ <- answer_of (the_client w) op w ;;
     ret (tm_entry_added source_text target_text source_language_code
            target_language_code),
     record_request (request_of (the_client w) op) w).
Proof.
  intros H op. unfold add_translation_memory_entry. run.
  rewrite (get_client_ok w H). run.
  change (NativClient_add_tm_entry (the_client w) source_text target_text
            source_language_code target_language_code (or_none name))
    with (call (the_client w) op).
  rewrite call_run. destruct (answer_of _ _ _); reflexivity.
Qed.

(** X9. [add_translation_memory_entry] (with the credential set) posts the
    four values as given, always tagged [information_source = manual],
    with a [source_name] exactly when the name is not empty.  When the
    call succeeds the confirmation echoes the arguments whatever the
    answer holds; when it fails nothing is confirmed. *)
Theorem add_entry_is_manual_and_confirms_only_success
    (source_text target_text source_language_code target_language_code
     name : str) (w : World) :
  has_credential w = true ->
  let run := add_translation_memory_entry source_text target_text
               source_language_code target_language_code name w in
  let op := Op_add_tm_entry source_text target_text source_language_code
              target_language_code (or_none name) in
  (exists req body,
     sent (snd run) = sent w ++ [req]
     /\ req_method req = L "POST"
     /\ req_json req = Some body
     /\ dict_get body (L "source_text") = Some (VStr source_text)
     /\ dict_get body (L "target_text") = Some (VStr target_text)
     /\ dict_get body (L "source_language_code")
        = Some (VStr source_language_code)
     /\ dict_get body (L "target_language_code")
        = Some (VStr target_language_code)
     /\ dict_get body (L "information_source") = Some (VStr (L "manual"))
     /\ (name <> [] -> dict_get body (L "source_name") = Some (VStr name))
     /\ (name = [] -> dict_get body (L "source_name") = None))
  /\ (forall answer,
        answer_of (the_client w) op w = Ok answer ->
        fst run
        = Ok (L "Added TM entry: " ++ dq ++ source_text ++ dq ++ L " ("
                ++ source_language_code ++ L ") " ++ arrow ++ L " " ++ dq
                ++ target_text ++ dq ++ L " (" ++ target_language_code
                ++ L ")"))
  /\ (forall e, answer_of (the_client w) op w = Err e -> fst run = Err e).
Proof.
  intros H run op. subst run op.
  rewrite (add_entry_run _ _ _ _ _ w H). cbn [fst snd].
  split; [|split].
  - eexists. eexists. split; [reflexivity|].
    split; [reflexivity|]. split; [reflexivity|].
    destruct name as [|c n];
      (repeat split; try congruence; intros _; vm_compute; reflexivity).
  - intros answer ->. reflexivity.
  - intros e ->. reflexivity.
Qed.


(** *** Sentinels, labels and defaults *)

Lemma languages_run (w : World) :
  has_credential w = true ->
  get_languages w
  = (result <- answer_of (the_client w) Op_get_languages w ;;
     languages_render result,
     record_request (request_of (the_client w) Op_get_languages) w).
Proof.
  intros H. apply (fetch_render_run Op_get_languages languages_render w H).
Qed.

(** X10. With the credential set, an answer whose collection is absent,
    empty or null is reported by its sentinel sentence and nothing else:
    [languages] for [get_languages], [guides] for [get_style_guides]; and
    [get_brand_voice] reports that no prompt is configured whenever
    [exists] is absent or false, whatever [prompt] holds. *)
Theorem empty_answers_give_sentinels (w : World) (result field : value) :
  has_credential w = true ->
  truthy field = false ->
  (answer_of (the_client w) Op_get_languages w = Ok result ->
   py_get result (L "languages") (VList []) = Ok field ->
   fst (get_languages w)
   = Ok (L "No languages configured. Set up languages at https://dashboard.usenativ.com"))
  /\ (answer_of (the_client w) Op_list_style_guides w = Ok result ->
      py_get result (L "guides") (VList []) = Ok field ->
      fst (get_style_guides w)
      = Ok (L "No custom style guides configured. Create them at https://dashboard.usenativ.com "
              ++ arrow ++ L " Settings " ++ arrow ++ L " Style Guides"))
  /\ (answer_of (the_client w) Op_get_brand_prompt w = Ok result ->
      py_get result (L "exists") VNone = Ok field ->
      fst (get_brand_voice w)
      = Ok (L "No brand voice prompt configured. Set one up at https://dashboard.usenativ.com "
              ++ arrow ++ L " Settings " ++ arrow ++ L " Style Guides")).
Proof.
  intros H Hf. split; [|split]; intros Ha Hg.
  - rewrite (languages_run w H).
    cbn [fst]. rewrite Ha. run. unfold languages_render.
    rewrite Hg. run. rewrite Hf. reflexivity.
  - rewrite (style_guides_run w H). cbn [fst]. rewrite Ha. run.
    unfold style_guides_render. rewrite Hg. run. rewrite Hf. reflexivity.
  - rewrite (brand_voice_run w H). cbn [fst]. rewrite Ha. run.
    unfold brand_voice_render. rewrite Hg. run. rewrite Hf. reflexivity.
Qed.

Lemma env_get_absent (l : list (str * str)) (k : str) :
  ~ In k (map fst l) -> env_get l k = None.
Proof.
  induction l as [|[k' v] l IH]; cbn; [reflexivity|].
  intros Hn. destruct (str_eqb k' k) eqn:E.
  - apply str_eqb_eq in E. tauto.
  - apply IH. tauto.
Qed.

Lemma source_line_label (src label : str) (counts : dict) :
  env_get source_labels src = Some label \/
  (env_get source_labels src = None /\ label = src) ->
  source_line (src, VDict counts)
  = Ok (L "- " ++ label ++ L ": " ++ py_str (get_or counts "total" (VInt 0))
          ++ L " entries (" ++ py_str (get_or counts "enabled" (VInt 0))
          ++ L " enabled)").
Proof.
  intros [Hl|[Hl ->]]; unfold source_line, get_or; rewrite Hl; reflexivity.
Qed.

Lemma stats_run (w : World) :
  has_credential w = true ->
  get_translation_memory_stats w
  = (stats <- answer_of (the_client w) Op_get_tm_stats w ;;
     stats_render stats,
     record_request (request_of (the_client w) Op_get_tm_stats) w).
Proof.
  intros H. apply (fetch_render_run Op_get_tm_stats stats_render w H).
Qed.

Lemma source_label_known (src : str) :
  (src = L "brand_voice" -> source_label src = L "Brand Voice")
  /\ (src = L "phrase_tm" -> source_label src = L "Phrase TM")
  /\ (src = L "phrase_tb" -> source_label src = L "Phrase Term Base")
  /\ (src = L "user_glossary" -> source_label src = L "User Glossary")
  /\ (src = L "approved" -> source_label src = L "Approved Translations")
  /\ (src = L "manual" -> source_label src = L "Manual Entries")
  /\ (src <> L "brand_voice" -> src <> L "phrase_tm" ->
      src <> L "phrase_tb" -> src <> L "user_glossary" ->
      src <> L "approved" -> src <> L "manual" ->
      source_label src = src).
Proof.
  repeat split; try (intros ->; reflexivity).
  intros H1 H2 H3 H4 H5 H6. unfold source_label.
  rewrite env_get_absent; [reflexivity|].
  cbn [map fst source_labels In]. intuition congruence.
Qed.

(** X11. In the statistics, a provenance key among the six known ones is
    shown under its display name and any other key under the key itself;
    the totals of a bucket, and of the memory, that are absent count as
    0; without a [by_source] (absent, empty or null) the output is the
    four summary lines, with no per-source section; and with one -- a
    non-empty dict of buckets -- the output of the tool (with the
    credential set) is the four summary lines, the [**By Source:**]
    heading and one row per bucket, in the order received, each under
    the display name of its key. *)
Theorem stats_labels_and_defaults (counts : dict) :
  (forall src label,
     In (src, label) source_labels ->
     source_line (src, VDict counts)
     = Ok (L "- " ++ label ++ L ": "
             ++ py_str (get_or counts "total" (VInt 0)) ++ L " entries ("
             ++ py_str (get_or counts "enabled" (VInt 0)) ++ L " enabled)"))
  /\ (forall src,
        ~ In src (map fst source_labels) ->
        source_line (src, VDict counts)
        = Ok (L "- " ++ src ++ L ": "
                ++ py_str (get_or counts "total" (VInt 0)) ++ L " entries ("
                ++ py_str (get_or counts "enabled" (VInt 0)) ++ L " enabled)"))
  /\ (truthy (get_or counts "by_source" (VDict [])) = false ->
      stats_render (VDict counts)
      = Ok (join nl
              [ L "**Translation Memory Statistics:**" ++ nl;
                L "- Total entries: " ++ py_str (get_or counts "total" (VInt 0));
                L "- Enabled: " ++ py_str (get_or counts "enabled" (VInt 0));
                L "- Disabled: "
                  ++ py_str (get_or counts "disabled" (VInt 0)) ]))
  /\ (forall (w : World) (buckets : dict),
        has_credential w = true ->
        answer_of (the_client w) Op_get_tm_stats w = Ok (VDict counts) ->
        dict_get counts (L "by_source") = Some (VDict buckets) ->
        buckets <> [] ->
        Forall (fun bucket => exists c, snd bucket = VDict c) buckets ->
        exists rows,
          fst (get_translation_memory_stats w)
          = Ok (join nl
                  ([ L "**Translation Memory Statistics:**" ++ nl;
                     L "- Total entries: "
                       ++ py_str (get_or counts "total" (VInt 0));
                     L "- Enabled: "
                       ++ py_str (get_or counts "enabled" (VInt 0));
                     L "- Disabled: "
                       ++ py_str (get_or counts "disabled" (VInt 0)) ]
                   ++ [nl ++ L "**By Source:**"] ++ rows))
          /\ length rows = length buckets
          /\ forall j src c,
               nth_error buckets j = Some (src, VDict c) ->
               exists label,
                 nth_error rows j
                 = Some (L "- " ++ label ++ L ": "
                           ++ py_str (get_or c "total" (VInt 0))
                           ++ L " entries ("
                           ++ py_str (get_or c "enabled" (VInt 0))
                           ++ L " enabled)")
                 /\ (src = L "brand_voice" -> label = L "Brand Voice")
                 /\ (src = L "phrase_tm" -> label = L "Phrase TM")
                 /\ (src = L "phrase_tb" -> label = L "Phrase Term Base")
                 /\ (src = L "user_glossary" -> label = L "User Glossary")
                 /\ (src = L "approved" -> label = L "Approved Translations")
                 /\ (src = L "manual" -> label = L "Manual Entries")
                 /\ (src <> L "brand_voice" -> src <> L "phrase_tm" ->
                     src <> L "phrase_tb" -> src <> L "user_glossary" ->
                     src <> L "approved" -> src <> L "manual" ->
                     label = src)).
Proof.
  split; [|split; [|split]].
  - intros src label Hin. apply source_line_label. left.
    cbn in Hin.
    repeat (destruct Hin as [Hin|Hin];
            [injection Hin as <- <-; reflexivity|]).
    destruct Hin.
  - intros src Hn. apply source_line_label. right.
    split; [apply env_get_absent, Hn|reflexivity].
  - intros Hf. unfold stats_render, get_or in *. cbn [py_get]. run.
    rewrite Hf. reflexivity.
  - intros w buckets H Ha Hb Hne Hall.
    assert (Hall' : Forall (fun b => exists row, source_line b = Ok row)
                      buckets).
    { apply (Forall_impl _ (P := fun bucket =>
               exists c, snd bucket = VDict c)); [|exact Hall].
      intros [src v] (c & Hc). cbn in Hc. subst v.
      eexists. apply (source_line_label src (source_label src)).
      unfold source_label. destruct (env_get source_labels src); auto. }
    destruct (mapM_ok _ _ Hall') as (rows & Hrun & Hlen & Hnth).
    exists rows. split; [|split; [exact Hlen|]].
    + rewrite (stats_run w H). cbn [fst]. rewrite Ha. run.
      unfold stats_render, get_or. cbn [py_get]. run. rewrite Hb.
      assert (Ht : truthy (VDict buckets) = true)
        by (destruct buckets; [congruence|reflexivity]).
      rewrite Ht. cbn [py_items]. run. rewrite Hrun. reflexivity.
    + intros j src c Hj. destruct (Hnth j _ Hj) as (row & Hrow & Hline).
      exists (source_label src). split.
      * rewrite Hrow. f_equal. apply Ok_inj. rewrite <- Hline.
        apply (source_line_label src (source_label src)).
        unfold source_label. destruct (env_get source_labels src); auto.
      * apply source_label_known.
Qed.

(** *** The shape of the output of [translate] *)

Lemma join_cons_prefix (sep p : str) (rest : list str) :
  exists tail, join sep (p :: rest) = p ++ tail.
Proof.
  destruct rest as [|q rest]; cbn [join].
  - exists []. now rewrite app_nil_r.
  - eauto.
Qed.

(** The lines of the TM annotation are neither of the later sections. *)
Lemma tm_annotation_lines (tm : value) (lines : list str) :
  tm_annotation tm = Ok lines ->
  existsb is_back_translation lines = false
  /\ existsb is_rationale lines = false.
Proof.
  unfold tm_annotation. destruct (truthy tm).
  - intros H. step H as score Hs. step H as positive Hp.
    destruct positive.
    + step H as score' Hs'. step H as pct Hpct. step H as mt Hmt.
      step H as src Hsrc. step H as st Hst.
      destruct (truthy st).
      * step H as st' Hst'. step H as tgt Htgt.
        apply Ok_inj in H. subst lines. split; reflexivity.
      * apply Ok_inj in H. subst lines. split; reflexivity.
    + apply Ok_inj in H. subst lines. split; reflexivity.
  - intros H. apply Ok_inj in H. subst lines. split; reflexivity.
Qed.

(** What an optional section yields, by the truth of its field. *)
Lemma optional_section_by_truth (result : value) (key title : string)
    (lines : list str) :
  optional_section result key title = Ok lines ->
  exists v,
    py_get result (L key) VNone = Ok v
    /\ lines = if truthy v then [nl ++ L title ++ py_str v] else [].
Proof.
  unfold optional_section. intros H. step H as v Hv. exists v.
  split; [exact Hv|].
  destruct (truthy v) eqn:Ht.
  - rewrite (py_getitem_after_get _ _ _ _ Hv (truthy_not_none _ Ht)) in H.
    run. apply Ok_inj in H. now subst.
  - apply Ok_inj in H. now subst.
Qed.

(** X12. Whenever [translate] returns (with the credential set), its output
    begins with the headline [**Translation ({target_language}):** ]
    followed by the translated text; and when the answer has no TM match,
    no back-translation and no rationale (each absent, null or empty) the
    output is that headline alone: no section is rendered empty. *)
Theorem translate_output_begins_with_headline
    (text target_language target_language_code source_language
     source_language_code context glossary formality : str)
    (max_characters : Z) (backtranslate : bool) (w : World)
    (result : value) :
  has_credential w = true ->
  answer_of (the_client w)
    (translate_op text target_language target_language_code source_language
       source_language_code context glossary formality max_characters
       backtranslate) w = Ok result ->
  let output :=
    fst (translate text target_language target_language_code source_language
           source_language_code context glossary formality max_characters
           backtranslate w) in
  (forall out,
     output = Ok out ->
     exists translated,
       py_get result (L "translated_text") (VStr []) = Ok translated
       /\ starts_with (L "**Translation (" ++ target_language ++ L "):** "
                         ++ py_str translated) out = true)
  /\ (forall d,
        result = VDict d ->
        truthy (get_or d "tm_match" VNone) = false ->
        truthy (get_or d "backtranslation" VNone) = false ->
        truthy (get_or d "rationale" VNone) = false ->
        output = Ok (L "**Translation (" ++ target_language ++ L "):** "
                       ++ py_str (get_or d "translated_text" (VStr [])))).
Proof.
  intros H Ha output. subst output.
  rewrite (translate_run _ _ _ _ _ _ _ _ _ _ w H). cbn [fst].
  rewrite Ha. run. split.
  - intros out Hout.
    destruct (translate_parts target_language result) as [e|parts] eqn:Hp;
      [discriminate|].
    apply Ok_inj in Hout. subst out.
    unfold translate_parts in Hp.
    step Hp as translated Ht. step Hp as tm Htm. step Hp as tm_lines Hl.
    step Hp as back Hb. step Hp as rationale Hr.
    apply Ok_inj in Hp. subst parts.
    exists translated. split; [exact Ht|].
    rewrite <- !app_assoc. cbn [app].
    match goal with
    | |- starts_with ?p (join nl (?p :: ?rest)) = true =>
        destruct (join_cons_prefix nl p rest) as (tail & ->)
    end.
    apply starts_with_app.
  - intros d -> Htm Hbt Hra. unfold translate_parts, tm_annotation,
      optional_section, get_or in *. cbn [py_get]. run.
    rewrite Htm. run. rewrite Hbt. run. rewrite Hra. reflexivity.
Qed.

(** X13. The output of [translate] (with the credential set) is the join
    of the parts of the answer, and among those parts the back-translation
    section occurs if and only if the answer's [backtranslation] is
    present and not empty, and the rationale section if and only if its
    [rationale] is: an absent, null or empty field leaves no trace in the
    output, and a present one is shown under its title. *)
Theorem translate_optional_sections_iff_present
    (text target_language target_language_code source_language
     source_language_code context glossary formality : str)
    (max_characters : Z) (backtranslate : bool) (w : World)
    (result : value) (out : str) :
  has_credential w = true ->
  answer_of (the_client w)
    (translate_op text target_language target_language_code source_language
       source_language_code context glossary formality max_characters
       backtranslate) w = Ok result ->
  fst (translate text target_language target_language_code source_language
         source_language_code context glossary formality max_characters
         backtranslate w) = Ok out ->
  exists parts back rationale,
    translate_parts target_language result = Ok parts
    /\ out = join nl parts
    /\ py_get result (L "backtranslation") VNone = Ok back
    /\ py_get result (L "rationale") VNone = Ok rationale
    /\ existsb is_back_translation parts = truthy back
    /\ existsb is_rationale parts = truthy rationale
    /\ (truthy back = true ->
        In (nl ++ L "**Back-translation:** " ++ py_str back) parts)
    /\ (truthy rationale = true ->
        In (nl ++ L "**Rationale:** " ++ py_str rationale) parts).
Proof.
  intros H Ha. rewrite (translate_run _ _ _ _ _ _ _ _ _ _ w H). cbn [fst].
  rewrite Ha. run.
  destruct (translate_parts target_language result) as [e|parts] eqn:Hp;
    [discriminate|].
  intros Hout. apply Ok_inj in Hout. subst out.
  assert (Hp' := Hp). unfold translate_parts in Hp'.
  step Hp' as translated Ht. step Hp' as tm Htm. step Hp' as tm_lines Hl.
  step Hp' as back_lines Hb. step Hp' as rationale_lines Hr.
  apply Ok_inj in Hp'.
  destruct (tm_annotation_lines _ _ Hl) as (Hlb & Hlr).
  destruct (optional_section_by_truth _ _ _ _ Hb) as (back & Hback & Eb).
  destruct (optional_section_by_truth _ _ _ _ Hr) as (rationale & Hra & Er).
  exists parts, back, rationale. split; [reflexivity|].
  split; [reflexivity|]. split; [exact Hback|]. split; [exact Hra|].
  subst parts back_lines rationale_lines.
  rewrite !existsb_app, Hlb, Hlr.
  repeat split.
  - destruct (truthy back), (truthy rationale); reflexivity.
  - destruct (truthy back), (truthy rationale); reflexivity.
  - intros Hb'. rewrite Hb'. rewrite !in_app_iff. left. right. now left.
  - intros Hr'. rewrite Hr'. rewrite !in_app_iff. right. now left.
Qed.


(** *** Prompts *)

Lemma join_app (sep : str) (a b : list str) :
  a <> [] -> b <> [] -> join sep (a ++ b) = join sep a ++ sep ++ join sep b.
Proof.
  intros Ha Hb. induction a as [|x a IH]; [congruence|].
  destruct a as [|y a].
  - destruct b; [congruence|]. reflexivity.
  - change (join sep ((x :: y :: a) ++ b))
      with (x ++ sep ++ join sep ((y :: a) ++ b)).
    rewrite IH by discriminate.
    change (join sep (x :: y :: a)) with (x ++ sep ++ join sep (y :: a)).
    now rewrite <- !app_assoc.
Qed.

(** X14. The prompt [localize_content] ends its instructions with the
    [## Content to Localize] heading and the content; a context that is
    not empty only appends a blank line, the [## Context] heading and the
    context to what the prompt is without it; and step 3 names the target
    languages when some are given and all configured languages when none
    is. *)
Theorem localize_content_appends_context
    (content target_languages context : str) :
  (exists instructions,
     localize_content content target_languages []
     = instructions ++ nl ++ (L "## Content to Localize" ++ nl) ++ nl
         ++ content)
  /\ (context <> [] ->
      localize_content content target_languages context
      = localize_content content target_languages []
          ++ nl ++ [] ++ nl ++ (L "## Context" ++ nl) ++ nl ++ context)
  /\ (target_languages <> [] ->
      exists before after,
        localize_content content target_languages context
        = before ++ nl
            ++ (L "3. Translate the content below into: **"
                  ++ target_languages ++ L "**")
            ++ nl ++ after)
  /\ (target_languages = [] ->
      exists before after,
        localize_content content target_languages context
        = before ++ nl
            ++ L "3. Translate the content below into **all configured languages**."
            ++ nl ++ after).
Proof.
  split; [|split; [|split]].
  - unfold localize_content.
    match goal with
    | |- exists _, join nl ((?a ++ [?s]) ++ [?p4; ?p5; ?e; ?h; ?c]) = _ =>
        exists (join nl ((a ++ [s]) ++ [p4; p5; e]));
        change ((a ++ [s]) ++ [p4; p5; e; h; c])
          with (((a ++ [s]) ++ [p4; p5; e]) ++ [h; c])
    end.
    rewrite join_app; [reflexivity| |discriminate].
    destruct target_languages; discriminate.
  - intros Hc. unfold localize_content.
    destruct context as [|c ctx]; [congruence|].
    rewrite join_app; [reflexivity| |discriminate].
    destruct target_languages; discriminate.
  - intros Ht. unfold localize_content.
    destruct target_languages as [|t tl]; [congruence|].
    match goal with
    | |- exists _ _, join nl (match context with
                              | [] => (?a ++ [?s]) ++ ?b
                              | _ :: _ => ((?a ++ [?s]) ++ ?b) ++ ?c
                              end) = _ =>
        exists (join nl a),
          (join nl (match context with [] => b | _ :: _ => b ++ c end));
        replace (match context with
                 | [] => (a ++ [s]) ++ b
                 | _ :: _ => ((a ++ [s]) ++ b) ++ c
                 end)
          with (a ++ [s] ++ match context with [] => b | _ :: _ => b ++ c end)
          by (destruct context; reflexivity)
    end.
    rewrite join_app; [|discriminate|discriminate].
    rewrite (join_app nl [_]); [reflexivity|discriminate|].
    destruct context; discriminate.
  - intros ->. unfold localize_content.
    match goal with
    | |- exists _ _, join nl (match context with
                              | [] => (?a ++ [?s]) ++ ?b
                              | _ :: _ => ((?a ++ [?s]) ++ ?b) ++ ?c
                              end) = _ =>
        exists (join nl a),
          (join nl (match context with [] => b | _ :: _ => b ++ c end));
        replace (match context with
                 | [] => (a ++ [s]) ++ b
                 | _ :: _ => ((a ++ [s]) ++ b) ++ c
                 end)
          with (a ++ [s] ++ match context with [] => b | _ :: _ => b ++ c end)
          by (destruct context; reflexivity)
    end.
    rewrite join_app; [|discriminate|discriminate].
    rewrite (join_app nl [_]); [reflexivity|discriminate|].
    destruct context; discriminate.
Qed.

(** *** Bounds and entries *)

(** X15. The body [get_style_guides] shows for a string content never
    exceeds 503 characters, agrees with the content on its first 500
    characters, and is the content itself when that has at most 500; a
    content that is present but null is not replaced by the default: the
    guide fails with the [TypeError] of [len]. *)
Theorem guide_content_is_bounded (content : str) (d : dict) :
  (exists shown,
     guide_content (VStr content) = Ok (VStr shown)
     /\ (length shown <= 503)%nat
     /\ firstn 500 shown = firstn 500 content
     /\ ((length content <= 500)%nat -> shown = content))
  /\ (dict_get d (L "content") = Some VNone ->
      guide_lines (VDict d)
      = Err (TypeError (L "object of type 'NoneType' has no len()"))).
Proof.
  split.
  - unfold guide_content. cbn [py_len]. run.
    destruct (500 <? Z.of_nat (length content)) eqn:E.
    + cbn [py_slice_to py_add_str]. run.
      exists (firstn 500 content ++ L "..."). split; [reflexivity|].
      apply Z.ltb_lt in E.
      assert (Hlen : length (firstn 500 content) = 500%nat)
        by (apply firstn_length_le; lia).
      split; [|split].
      * rewrite length_app, Hlen. change (length (L "...")) with 3%nat. lia.
      * rewrite firstn_app, firstn_firstn, Hlen, Nat.min_id, Nat.sub_diag.
        change (firstn 0 (L "...")) with (@nil N). apply app_nil_r.
      * intros Hle. lia.
    + exists content. apply Z.ltb_ge in E.
      split; [reflexivity|]. split; [lia|]. split; [reflexivity|].
      reflexivity.
  - intros Hc. unfold guide_lines. cbn [py_get]. rewrite Hc. run.
    reflexivity.
Qed.

(** X16. [get_languages] (with the credential set), on an answer with a
    non-empty list of languages that each have a [language] and a
    [language_code]: the output is the header with the number of languages
    followed by one entry per language, in the order received; and an
    entry whose [formality] is absent, null or empty shows
    [formality: neutral]. *)
Theorem get_languages_lists_entries_in_order
    (w : World) (result : value) (entries : list value) :
  has_credential w = true ->
  answer_of (the_client w) Op_get_languages w = Ok result ->
  py_get result (L "languages") (VList []) = Ok (VList entries) ->
  entries <> [] ->
  Forall (fun entry =>
            exists d language language_code,
              entry = VDict d
              /\ dict_get d (L "language") = Some language
              /\ dict_get d (L "language_code") = Some language_code)
    entries ->
  exists lines,
    fst (get_languages w)
    = Ok (join nl ((L "**Configured Languages** ("
                      ++ dec (Z.of_nat (length entries)) ++ L "):" ++ nl)
                     :: lines))
    /\ length lines = length entries
    /\ forall j d language language_code,
         nth_error entries j = Some (VDict d) ->
         dict_get d (L "language") = Some language ->
         dict_get d (L "language_code") = Some language_code ->
         exists line,
           nth_error lines j = Some line
           /\ language_entry (VDict d) = Ok line
           /\ starts_with (L "- **" ++ py_str language ++ L "** (`"
                             ++ py_str language_code ++ L "`) " ++ emdash
                             ++ L " formality: ") line = true
           /\ (truthy (get_or d "formality" VNone) = false ->
               truthy (get_or d "custom_style" VNone) = false ->
               line = L "- **" ++ py_str language ++ L "** (`"
                        ++ py_str language_code ++ L "`) " ++ emdash
                        ++ L " formality: neutral").
Proof.
  intros H Ha Hl Hne Hall.
  assert (Hall' : Forall (fun e => exists line, language_entry e = Ok line)
                    entries).
  { apply (Forall_impl _ (P := fun entry =>
             exists d language language_code,
               entry = VDict d
               /\ dict_get d (L "language") = Some language
               /\ dict_get d (L "language_code") = Some language_code));
      [|exact Hall].
    intros e (d & l & c & -> & Hlang & Hcode).
    eexists. apply (language_entry_defaults _ _ _ Hlang Hcode). }
  destruct (mapM_ok _ _ Hall') as (lines & Hrun & Hlen & Hnth).
  exists lines. split; [|split; [exact Hlen|]].
  - rewrite (languages_run w H). cbn [fst]. rewrite Ha. run.
    unfold languages_render. rewrite Hl. run.
    destruct entries as [|e es]; [congruence|].
    cbn [truthy negb py_len py_iter]. run. rewrite Hrun. reflexivity.
  - intros j d language code Hj Hlang Hcode.
    destruct (Hnth j _ Hj) as (line & Hline & He).
    exists line. split; [exact Hline|]. split; [exact He|].
    rewrite (language_entry_defaults _ _ _ Hlang Hcode) in He.
    apply Ok_inj in He. subst line. split.
    + match goal with
      | |- starts_with _ (join nl ([?p] ++ ?rest)) = true =>
          destruct (join_cons_prefix nl p rest) as (tail & Ht);
          change ([p] ++ rest) with (p :: rest); rewrite Ht
      end.
      rewrite !app_assoc. rewrite <- (app_assoc _ (py_str _) tail).
      apply starts_with_app.
    + intros Hf Hc. rewrite Hc. unfold py_or. rewrite Hf. reflexivity.
Qed.

(** X17. The line [translate_batch] shows for a dict answer: the index, the
    quoted text and the quoted translation (empty when [translated_text]
    is absent), followed by the note [ (TM {score}%)] exactly when the
    answer's TM match has a score greater than 0; a match with a score of
    0 or less, and an absent match, leave the line without a note. *)
Theorem batch_line_notes_positive_matches
    (i : Z) (text : str) (d : dict) :
  let plain :=
    dec (i + 1) ++ L ". " ++ dq ++ text ++ dq ++ L " " ++ arrow ++ L " "
      ++ dq ++ py_str (get_or d "translated_text" (VStr [])) ++ dq in
  (forall tm score positive pct,
     dict_get d (L "tm_match") = Some (VDict tm) ->
     dict_get tm (L "score") = Some score ->
     py_gt0 score = Ok positive ->
     format_0f score = Ok pct ->
     batch_line i text (VDict d)
     = Ok (plain ++ if positive then L " (TM " ++ pct ++ L "%)" else []))
  /\ (truthy (get_or d "tm_match" VNone) = false ->
      batch_line i text (VDict d) = Ok plain).
Proof.
  cbn zeta. split.
  - intros tm score positive pct Htm Hs Hp Hf.
    unfold batch_line, get_or. cbn [py_get]. run. rewrite Htm.
    assert (Ht : truthy (VDict tm) = true).
    { destruct tm; [discriminate Hs|reflexivity]. }
    rewrite Ht. cbn [py_get py_getitem]. rewrite Hs. run. rewrite Hp. run.
    destruct positive.
    + rewrite Hf. run. rewrite <- !app_assoc. reflexivity.
    + run. rewrite <- !app_assoc. reflexivity.
  - intros Hf. unfold batch_line, get_or in *. cbn [py_get]. run.
    rewrite Hf. run. rewrite app_nil_r. reflexivity.
Qed.

(** X18. With the credential set, each resource returns the JSON dump of
    the decoded answer, untouched by the renderers, and reads it with the
    same request as the tool of the same data: it leaves the process in
    the state the tool would. *)
Theorem resources_dump_the_answer_of_their_tool (w : World) :
  has_credential w = true ->
  (forall answer,
     answer_of (the_client w) Op_get_languages w = Ok answer ->
     fst (resource_languages w) = Ok (json_dumps answer))
  /\ (forall answer,
        answer_of (the_client w) Op_list_style_guides w = Ok answer ->
        fst (resource_style_guides w) = Ok (json_dumps answer))
  /\ (forall answer,
        answer_of (the_client w) Op_get_brand_prompt w = Ok answer ->
        fst (resource_brand_prompt w) = Ok (json_dumps answer))
  /\ (forall answer,
        answer_of (the_client w) Op_get_tm_stats w = Ok answer ->
        fst (resource_tm_stats w) = Ok (json_dumps answer))
  /\ snd (resource_languages w) = snd (get_languages w)
  /\ snd (resource_style_guides w) = snd (get_style_guides w)
  /\ snd (resource_brand_prompt w) = snd (get_brand_voice w)
  /\ snd (resource_tm_stats w) = snd (get_translation_memory_stats w).
Proof.
  intros H.
  change resource_languages with (serve Resource_languages).
  change resource_style_guides with (serve Resource_style_guides).
  change resource_brand_prompt with (serve Resource_brand_prompt).
  change resource_tm_stats with (serve Resource_tm_stats).
  change get_languages with (serve Tool_get_languages).
  change get_style_guides with (serve Tool_get_style_guides).
  change get_brand_voice with (serve Tool_get_brand_voice).
  change get_translation_memory_stats
    with (serve Tool_get_translation_memory_stats).
  rewrite (serve_single_call Resource_languages _ _ w eq_refl H).
  rewrite (serve_single_call Resource_style_guides _ _ w eq_refl H).
  rewrite (serve_single_call Resource_brand_prompt _ _ w eq_refl H).
  rewrite (serve_single_call Resource_tm_stats _ _ w eq_refl H).
  rewrite (serve_single_call Tool_get_languages _ _ w eq_refl H).
  rewrite (serve_single_call Tool_get_style_guides _ _ w eq_refl H).
  rewrite (serve_single_call Tool_get_brand_voice _ _ w eq_refl H).
  rewrite (serve_single_call Tool_get_translation_memory_stats _ _ w
             eq_refl H).
  cbn [fst snd]. repeat split; intros answer ->; reflexivity.
Qed.


(** X19. The one request [list_tm_entries] sends is a GET to
    [/master-tm/entries] with no body; [limit] and [offset] are always
    forwarded as given, and each of the three filters is a parameter
    exactly when it is given and not empty. *)
Theorem list_tm_entries_forwards_filters (self : NativClient)
    (source_lang target_lang search : option str) (limit offset : Z)
    (w : World) :
  exists req params,
    sent (snd (call self (Op_list_tm_entries source_lang target_lang search
                            limit offset) w))
    = sent w ++ [req]
    /\ req_method req = L "GET"
    /\ req_url req = base_url self ++ L "/master-tm/entries"
    /\ req_json req = None
    /\ req_params req = Some params
    /\ dict_get params (L "limit") = Some (VInt limit)
    /\ dict_get params (L "offset") = Some (VInt offset)
    /\ (forall v, source_lang = Some v -> v <> [] ->
                  dict_get params (L "source_lang") = Some (VStr v))
    /\ (forall v, target_lang = Some v -> v <> [] ->
                  dict_get params (L "target_lang") = Some (VStr v))
    /\ (forall v, search = Some v -> v <> [] ->
                  dict_get params (L "search") = Some (VStr v))
    /\ (opt_truthy source_lang = false ->
        dict_get params (L "source_lang") = None)
    /\ (opt_truthy target_lang = false ->
        dict_get params (L "target_lang") = None)
    /\ (opt_truthy search = false -> dict_get params (L "search") = None).
Proof.
  rewrite call_run. cbn [snd record_request sent request_of].
  eexists. eexists. split; [reflexivity|].
  split; [reflexivity|]. split; [reflexivity|]. split; [reflexivity|].
  split; [reflexivity|].
  split_optionals;
    (repeat split;
     try (intros v Hv; try discriminate Hv; injection Hv as <-;
          try congruence; intros _);
     try (intros Hf; try discriminate Hf);
     vm_compute; reflexivity).
Qed.


End Server.

(** ** The statements at work on the sample data *)

(** Three texts, the second request times out: the first and third lines
    are translations, the second is the error, in the order of the input. *)
Lemma translate_batch_isolates_failures_witness :
  exists results,
    fst (translate_batch (Sample.second_times_out Sample.bonjour)
           Sample.status_message Sample.repr
           [L "Hello"; L "World"; L "Bye"] (L "French") [] (L "English")
           (L "en") [] [] Sample.ready)
    = Ok ((L "**Batch translation to French** (3 items):" ++ nl)
            ++ join nl results)
    /\ results
       = [ L "1. " ++ dq ++ L "Hello" ++ dq ++ L " " ++ arrow ++ L " "
             ++ dq ++ L "Bonjour" ++ dq;
           L "2. " ++ dq ++ L "World" ++ dq ++ L " " ++ arrow
             ++ L " ERROR: timed out";
           L "3. " ++ dq ++ L "Bye" ++ dq ++ L " " ++ arrow ++ L " "
             ++ dq ++ L "Bonjour" ++ dq ].
Proof.
  destruct (translate_batch_isolates_failures
              (Sample.second_times_out Sample.bonjour) Sample.status_message
              Sample.repr [L "Hello"; L "World"; L "Bye"] (L "French") []
              (L "English") (L "en") [] [] Sample.ready eq_refl)
    as (results & Hout & Hlen & Hlines).
  exists results. split; [exact Hout|].
  destruct (Hlines 0%nat _ eq_refl) as (l0 & H0 & _ & _ & _ & _ & Hplain0).
  destruct (Hlines 1%nat _ eq_refl) as (l1 & H1 & _ & Herr1 & _).
  destruct (Hlines 2%nat _ eq_refl) as (l2 & H2 & _ & _ & _ & _ & Hplain2).
  destruct results as [|a [|b [|c [|]]]]; try discriminate Hlen.
  cbn [nth_error] in H0, H1, H2.
  injection H0 as ->. injection H1 as ->. injection H2 as ->.
  rewrite (Hplain0 _ (L "Bonjour") eq_refl eq_refl eq_refl).
  rewrite (Herr1 _ eq_refl).
  rewrite (Hplain2 _ (L "Bonjour") eq_refl eq_refl eq_refl).
  reflexivity.
Defined.

(** A 402 on [get_languages] is the credit error; a 500 is the generic one. *)
Lemma payment_required_is_insufficient_credits_witness :
  fst (call (Sample.refuses 402) Sample.status_message
         (the_client Sample.ready) Op_get_languages Sample.ready)
  = Err (RuntimeError
           (L "Insufficient Nativ credits. Top up at https://dashboard.usenativ.com"))
  /\ fst (call (Sample.refuses 500) Sample.status_message
            (the_client Sample.ready) Op_get_languages Sample.ready)
     = Err (HTTPStatusError 500 (L "HTTP status 500")).
Proof.
  split.
  - exact (proj1 (proj1 (payment_required_is_insufficient_credits
                           (Sample.refuses 402) Sample.status_message
                           (the_client Sample.ready) Op_get_languages
                           Sample.ready _ eq_refl) eq_refl)).
  - refine (proj2 (payment_required_is_insufficient_credits
                     (Sample.refuses 500) Sample.status_message
                     (the_client Sample.ready) Op_get_languages
                     Sample.ready _ eq_refl) _ eq_refl).
    discriminate.
Defined.

(** A call that sets no optional parameter sends none of their keys. *)
Lemma translate_omits_unset_optionals_witness :
  exists req body,
    sent (snd (translate (Sample.answers Sample.bonjour)
                 Sample.status_message Sample.repr (L "Hello") (L "French")
                 [] (L "English") (L "en") [] [] [] 0 false Sample.ready))
    = [req]
    /\ req_json req = Some body
    /\ dict_get body (L "language_code") = None
    /\ dict_get body (L "context") = None
    /\ dict_get body (L "glossary") = None
    /\ dict_get body (L "formality") = None
    /\ dict_get body (L "max_characters") = None.
Proof.
  destruct (translate_omits_unset_optionals
              (Sample.answers Sample.bonjour) Sample.status_message
              Sample.repr (L "Hello") (L "French") [] (L "English") (L "en")
              [] [] [] 0 false Sample.ready eq_refl)
    as (req & body & Hsent & Hbody & Hlc & Hctx & Hgl & Hfo & Hmax).
  exists req, body. repeat split; auto.
Defined.

(** A call that sets every optional parameter still asks for TM
    information and the rationale. *)
Lemma translate_always_requests_tm_info_and_rationale_witness :
  exists req body,
    sent (snd (translate (Sample.answers Sample.bonjour)
                 Sample.status_message Sample.repr (L "Hello") (L "French")
                 (L "fr") (L "English") (L "en") (L "a greeting")
                 (L "hello,bonjour") (L "formal") 40 true Sample.ready))
    = [req]
    /\ req_json req = Some body
    /\ dict_get body (L "include_tm_info") = Some (VBool true)
    /\ dict_get body (L "include_rationale") = Some (VBool true)
    /\ dict_get body (L "backtranslate") = Some (VBool true).
Proof.
  exact (proj1 (translate_always_requests_tm_info_and_rationale
                  (Sample.answers Sample.bonjour) Sample.status_message
                  Sample.repr (L "Hello") (L "French") (L "fr") (L "English")
                  (L "en") (L "a greeting") (L "hello,bonjour") (L "formal")
                  40 true Sample.ready eq_refl)).
Defined.

(** C4, as stated, fails: started without the credential, the server
    serves a prompt request; the configuration error is raised only when
    a tool is called; and the same tool succeeds once the environment of
    the call has the credential, the handler reading it at that time. *)
Lemma credential_is_not_checked_at_startup :
  has_credential Sample.bare = false
  /\ fst (serve (Sample.answers (Sample.languages [Sample.french]))
            Sample.status_message Sample.repr Sample.json_dumps
            Sample.hashable_slices
            (Prompt_review_translation (L "Hello") (L "Bonjour") (L "French"))
            Sample.bare)
     = Ok (review_translation (L "Hello") (L "Bonjour") (L "French"))
  /\ fst (serve (Sample.answers (Sample.languages [Sample.french]))
            Sample.status_message Sample.repr Sample.json_dumps
            Sample.hashable_slices
            Tool_get_languages Sample.bare)
     = Err (RuntimeError MISSING_API_KEY)
  /\ fst (serve (Sample.answers (Sample.languages [Sample.french]))
            Sample.status_message Sample.repr Sample.json_dumps
            Sample.hashable_slices
            Tool_get_languages
            {| environ := environ Sample.ready; sent := sent Sample.bare |})
     = Ok (L "**Configured Languages** (1):" ++ nl ++ nl
             ++ L "- **French** (`fr`) " ++ emdash ++ L " formality: neutral").
Proof. repeat split; vm_compute; reflexivity. Qed.

(** Without the credential a tool raises and sends nothing. *)
Lemma missing_credential_raised_per_call_witness :
  serve (Sample.answers (Sample.languages [Sample.french]))
    Sample.status_message Sample.repr Sample.json_dumps Sample.hashable_slices
    Tool_get_languages Sample.bare
  = (Err (RuntimeError MISSING_API_KEY), Sample.bare).
Proof.
  exact (proj1 (missing_credential_raised_per_call
                  (Sample.answers (Sample.languages [Sample.french]))
                  Sample.status_message Sample.repr Sample.json_dumps
                  Sample.hashable_slices
                  Tool_get_languages Sample.bare) eq_refl eq_refl).
Defined.

(** C5, as stated, fails: a TM search match without [score], and a
    configured language without [language], make the tool raise the
    lookup error instead of returning a result. *)
Lemma required_fields_raise_lookup_errors :
  fst (search_translation_memory
         (Sample.answers (Sample.matches [Sample.tm_without_score]))
         Sample.status_message Sample.repr (L "Hello") (L "en") []
         (S754_zero false) 10 Sample.ready)
  = Err (KeyError (L "score"))
  /\ fst (get_languages
            (Sample.answers (Sample.languages [Sample.language_without_name]))
            Sample.status_message Sample.repr Sample.ready)
     = Err (KeyError (L "language")).
Proof. split; vm_compute; reflexivity. Qed.

(** A match with its required fields is rendered with the defaults of
    the optional ones; a match without its target text, and a language
    without its code, raise the lookup error of that field, and so does
    the rendering of a list in which they come second. *)
Lemma renderers_default_on_optional_fields_witness :
  tm_match_line Sample.repr Sample.tm_zero
  = Ok (L "- **0%** [] " ++ dq ++ L "Hello" ++ dq ++ L " " ++ arrow ++ L " "
          ++ dq ++ L "Bonjour" ++ dq ++ L " (source: N/A)")
  /\ tm_match_line Sample.repr Sample.tm_without_target
     = Err (KeyError (L "target_text"))
  /\ language_entry Sample.repr Sample.language_without_code
     = Err (KeyError (L "language_code"))
  /\ search_render Sample.repr (L "Hello")
       (Sample.matches [Sample.tm_zero; Sample.tm_without_target])
     = Err (KeyError (L "target_text"))
  /\ languages_render Sample.repr
       (Sample.languages [Sample.french; Sample.language_without_code])
     = Err (KeyError (L "language_code")).
Proof.
  split; [|split; [|split; [|split]]].
  - destruct (renderers_default_on_optional_fields Sample.repr
                Sample.hashable_slices Sample.tm_zero (L "score"))
      as (_ & _ & _ & _ & _ & _ & _ & Hline & _).
    exact (Hline _ (VInt 0) (VStr (L "Hello")) (VStr (L "Bonjour")) (L "0")
             eq_refl eq_refl eq_refl eq_refl eq_refl).
  - destruct (renderers_default_on_optional_fields Sample.repr
                Sample.hashable_slices Sample.tm_without_target (L "score"))
      as (_ & _ & _ & _ & _ & _ & _ & _ & _ & Hmissing & _).
    destruct (Hmissing _ eq_refl) as (_ & _ & Htarget & _).
    exact (Htarget (VInt 100) (L "100") (VStr (L "Hello"))
             eq_refl eq_refl eq_refl eq_refl).
  - destruct (renderers_default_on_optional_fields Sample.repr
                Sample.hashable_slices Sample.language_without_code
                (L "score"))
      as (_ & _ & _ & _ & _ & _ & _ & _ & _ & Hmissing & _).
    destruct (Hmissing _ eq_refl) as (_ & _ & _ & _ & Hcode).
    exact (Hcode (VStr (L "French")) eq_refl eq_refl).
  - destruct (renderers_default_on_optional_fields Sample.repr
                Sample.hashable_slices
                (Sample.matches [Sample.tm_zero; Sample.tm_without_target])
                (L "score"))
      as (_ & _ & _ & _ & _ & _ & _ & _ & _ & _ & Hlist & _).
    apply (Hlist (L "Hello") [Sample.tm_zero] Sample.tm_without_target []
             (KeyError (L "target_text")) eq_refl); [|reflexivity].
    repeat constructor.
    exists [ (L "score", VInt 0);
             (L "source_text", VStr (L "Hello"));
             (L "target_text", VStr (L "Bonjour")) ],
      (VInt 0), (L "0"), (VStr (L "Hello")), (VStr (L "Bonjour")).
    repeat split.
  - destruct (renderers_default_on_optional_fields Sample.repr
                Sample.hashable_slices
                (Sample.languages
                   [Sample.french; Sample.language_without_code])
                (L "score"))
      as (_ & _ & _ & _ & _ & _ & _ & _ & _ & _ & _ & Hlist & _).
    apply (Hlist [Sample.french] Sample.language_without_code []
             (KeyError (L "language_code")) eq_refl); [|reflexivity].
    repeat constructor.
    exists [ (L "language", VStr (L "French"));
             (L "language_code", VStr (L "fr")) ],
      (VStr (L "French")), (VStr (L "fr")).
    repeat split.
Defined.

(** No match gives the sentinel; two matches give two bullets, in the
    order received (the lower score first here). *)
Lemma search_sentinel_or_ranked_bullets_witness :
  fst (search_translation_memory (Sample.answers (Sample.matches []))
         Sample.status_message Sample.repr (L "Hello") (L "en") []
         (S754_zero false) 10 Sample.ready)
  = Ok (L "No translation memory matches found for " ++ dq ++ L "Hello"
          ++ dq ++ L ".")
  /\ exists bullets,
       fst (search_translation_memory
              (Sample.answers (Sample.matches [Sample.tm_zero; Sample.tm_hello]))
              Sample.status_message Sample.repr (L "Hello") (L "en") []
              (S754_zero false) 10 Sample.ready)
       = Ok (join nl ((L "**TM Search Results** for " ++ dq ++ L "Hello"
                         ++ dq ++ L " (2 matches):" ++ nl) :: bullets))
       /\ nth_error bullets 0
          = Some (L "- **0%** [] " ++ dq ++ L "Hello" ++ dq ++ L " " ++ arrow
                    ++ L " " ++ dq ++ L "Bonjour" ++ dq ++ L " (source: N/A)")
       /\ nth_error bullets 1
          = Some (L "- **88%** [fuzzy] " ++ dq ++ L "Hello" ++ dq ++ L " "
                    ++ arrow ++ L " " ++ dq ++ L "Bonjour" ++ dq
                    ++ L " (source: N/A)").
Proof.
  split.
  - exact (proj1 (search_sentinel_or_ranked_bullets
                    (Sample.answers (Sample.matches [])) Sample.status_message
                    Sample.repr (L "Hello") (L "en") [] (S754_zero false) 10
                    Sample.ready _ eq_refl eq_refl) eq_refl).
  - destruct (proj2 (search_sentinel_or_ranked_bullets
                       (Sample.answers
                          (Sample.matches [Sample.tm_zero; Sample.tm_hello]))
                       Sample.status_message Sample.repr (L "Hello") (L "en")
                       [] (S754_zero false) 10 Sample.ready _ eq_refl eq_refl)
                [Sample.tm_zero; Sample.tm_hello] eq_refl)
      as (bullets & Hout & _ & Hnth).
    + discriminate.
    + repeat constructor.
      * exists [ (L "score", VInt 0);
                 (L "source_text", VStr (L "Hello"));
                 (L "target_text", VStr (L "Bonjour")) ],
          (VInt 0), (L "0"), (VStr (L "Hello")), (VStr (L "Bonjour")).
        repeat split.
      * exists [ (L "score", VFloat Sample.score_87_5);
                 (L "match_type", VStr (L "fuzzy"));
                 (L "source_text", VStr (L "Hello"));
                 (L "target_text", VStr (L "Bonjour")) ],
          (VFloat Sample.score_87_5), (L "88"), (VStr (L "Hello")),
          (VStr (L "Bonjour")).
        repeat split.
    + exists bullets. split; [exact Hout|].
      destruct (Hnth 0%nat _ eq_refl) as (b0 & H0 & Hb0 & _).
      destruct (Hnth 1%nat _ eq_refl) as (b1 & H1 & Hb1 & _).
      rewrite H0, H1. split; f_equal.
      * apply Ok_inj. rewrite <- Hb0. reflexivity.
      * apply Ok_inj. rewrite <- Hb1. reflexivity.
Defined.

(** A prompt of 2001 characters is cut to 2000 and its length stated. *)
Lemma get_brand_voice_truncates_at_2000_witness :
  fst (get_brand_voice
         (Sample.answers (Sample.brand (Sample.letters 2001)))
         Sample.status_message Sample.repr Sample.hashable_slices Sample.ready)
  = Ok (L "**Brand Voice Prompt:**" ++ nl ++ nl ++ Sample.letters 2000
          ++ L "..." ++ nl ++ nl ++ L "(Truncated " ++ emdash
          ++ L " full prompt has 2001 characters)").
Proof.
  refine (proj1 (proj1 (get_brand_voice_truncates_at_2000
                          (Sample.answers (Sample.brand (Sample.letters 2001)))
                          Sample.status_message Sample.repr
                          Sample.hashable_slices Sample.ready
                          _ (VBool true) (Sample.letters 2001)
                          eq_refl eq_refl eq_refl eq_refl eq_refl) _)).
  apply Nat.leb_le. vm_compute. reflexivity.
Defined.

(** A content of 501 characters is cut to 500 and the ellipsis; a short
    one is shown whole. *)
Lemma get_style_guides_truncates_at_500_witness :
  exists blocks heading0 heading1,
    fst (get_style_guides
           (Sample.answers
              (Sample.guides [ Sample.guide (L "Tone") (Sample.letters 501);
                               Sample.guide (L "Brevity") (L "Be brief.") ]))
           Sample.status_message Sample.repr
           Sample.hashable_slices Sample.ready)
    = Ok (join nl ((L "**Style Guides** (2):" ++ nl) :: concat blocks))
    /\ nth_error blocks 0
       = Some [heading0; Sample.letters 500 ++ L "..."; []]
    /\ nth_error blocks 1 = Some [heading1; L "Be brief."; []].
Proof.
  destruct (get_style_guides_truncates_at_500
              (Sample.answers
                 (Sample.guides [ Sample.guide (L "Tone") (Sample.letters 501);
                                  Sample.guide (L "Brevity") (L "Be brief.") ]))
              Sample.status_message Sample.repr
              Sample.hashable_slices Sample.ready _
              [ Sample.guide (L "Tone") (Sample.letters 501);
                Sample.guide (L "Brevity") (L "Be brief.") ]
              eq_refl eq_refl eq_refl)
    as (blocks & Hout & _ & Hnth).
  - discriminate.
  - repeat constructor; eexists; reflexivity.
  - destruct (Hnth 0%nat _ (Sample.letters 501) eq_refl eq_refl)
      as (h0 & s0 & Hb0 & Hlong & _).
    destruct (Hnth 1%nat _ (L "Be brief.") eq_refl eq_refl)
      as (h1 & s1 & Hb1 & _ & Hshort).
    exists blocks, h0, h1. split; [exact Hout|].
    rewrite Hb0, Hb1. split; do 2 f_equal.
    + destruct Hlong as (-> & _).
      * apply Nat.leb_le. vm_compute. reflexivity.
      * reflexivity.
    + rewrite Hshort; [reflexivity|].
      apply Nat.leb_le. vm_compute. reflexivity.
Defined.

(** A match scored 87.5 is annotated and referenced; of a match scored
    0 nothing is shown, its source text included. *)
Lemma translate_tm_annotation_iff_positive_score_witness :
  fst (translate
         (Sample.answers (Sample.translated_with Sample.tm_hello))
         Sample.status_message Sample.repr (L "Hello") (L "French") []
         (L "English") (L "en") [] [] [] 0 false Sample.ready)
  = Ok (join nl
          [ L "**Translation (French):** Bonjour";
            nl ++ L "**TM Match:** 88% (fuzzy) " ++ emdash
              ++ L " source: N/A";
            L "  TM reference: " ++ dq ++ L "Hello" ++ dq ++ L " " ++ arrow
              ++ L " " ++ dq ++ L "Bonjour" ++ dq ])
  /\ fst (translate
            (Sample.answers (Sample.translated_with Sample.tm_zero))
            Sample.status_message Sample.repr (L "Hello") (L "French") []
            (L "English") (L "en") [] [] [] 0 false Sample.ready)
     = Ok (L "**Translation (French):** Bonjour").
Proof.
  split.
  - refine (proj1 (proj2 (proj1 (proj2
              (translate_tm_annotation_iff_positive_score
                 (Sample.answers (Sample.translated_with Sample.tm_hello))
                 Sample.status_message Sample.repr (L "Hello")
                 (L "French") [] (L "English") (L "en") [] [] [] 0
                 false Sample.ready _ eq_refl eq_refl))
              _ _ true (L "88") eq_refl eq_refl _ eq_refl
              (fun _ => eq_refl)))).
    discriminate.
  - refine (proj1 (proj2 (proj1 (proj2
              (translate_tm_annotation_iff_positive_score
                 (Sample.answers (Sample.translated_with Sample.tm_zero))
                 Sample.status_message Sample.repr (L "Hello")
                 (L "French") [] (L "English") (L "en") [] [] [] 0
                 false Sample.ready _ eq_refl eq_refl))
              _ _ false [] eq_refl eq_refl _ eq_refl _))).
    + discriminate.
    + discriminate.
Defined.

(** ** The further statements at work on the sample data *)

(** [get_languages] sends its one request, and a second call sends it
    again. *)
Lemma single_call_handlers_send_one_request_witness :
  sent (snd (serve (Sample.answers (Sample.languages [Sample.french]))
               Sample.status_message Sample.repr Sample.json_dumps
               Sample.hashable_slices
               Tool_get_languages Sample.ready))
  = [ {| req_method := L "GET";
         req_url := L "https://api.usenativ.com/user/languages";
         req_headers := client_headers (L "nativ_test_key");
         req_json := None;
         req_params := None |} ].
Proof.
  exact (proj1 (single_call_handlers_send_one_request
                  (Sample.answers (Sample.languages [Sample.french]))
                  Sample.status_message Sample.repr Sample.json_dumps
                  Sample.hashable_slices
                  Tool_get_languages Op_get_languages
                  (languages_render Sample.repr) Sample.ready
                  eq_refl eq_refl)).
Defined.

(** An unreachable upstream makes [get_brand_voice] raise the transport
    fault itself. *)
Lemma single_call_handlers_propagate_errors_witness :
  fst (serve Sample.unreachable Sample.status_message Sample.repr
         Sample.json_dumps
         Sample.hashable_slices Tool_get_brand_voice Sample.ready)
  = Err (TransportError (L "connection refused")).
Proof.
  exact (single_call_handlers_propagate_errors
           Sample.unreachable Sample.status_message Sample.repr
           Sample.json_dumps
           Sample.hashable_slices Tool_get_brand_voice Op_get_brand_prompt
           (brand_voice_render Sample.repr Sample.hashable_slices) Sample.ready
           (TransportError (L "connection refused")) eq_refl eq_refl eq_refl).
Defined.

(** A 200 answer returns its JSON; the request is recorded once. *)
Lemma client_call_outcomes_witness :
  call (Sample.answers Sample.bonjour) Sample.status_message
    (the_client Sample.ready) Op_get_tm_stats Sample.ready
  = (Ok Sample.bonjour,
     record_request (request_of (the_client Sample.ready) Op_get_tm_stats)
       Sample.ready).
Proof.
  destruct (client_call_outcomes (Sample.answers Sample.bonjour)
              Sample.status_message (the_client Sample.ready)
              Op_get_tm_stats Sample.ready) as (Hsnd & _ & Hok).
  apply injective_projections.
  - exact (Hok _ eq_refl eq_refl).
  - exact Hsnd.
Defined.

(** Two texts, two requests, in order; the first times out or not, the
    batch returns. *)
Lemma translate_batch_sends_one_request_per_text_witness :
  sent (snd (translate_batch (Sample.second_times_out Sample.bonjour)
               Sample.status_message Sample.repr [L "Hello"; L "World"]
               (L "French") [] (L "English") (L "en") [] [] Sample.ready))
  = [ batch_request (the_client Sample.ready) (L "French") [] (L "English")
        (L "en") [] [] (L "Hello");
      batch_request (the_client Sample.ready) (L "French") [] (L "English")
        (L "en") [] [] (L "World") ].
Proof.
  exact (proj1 (proj2 (translate_batch_sends_one_request_per_text
                         (Sample.second_times_out Sample.bonjour)
                         Sample.status_message Sample.repr
                         [L "Hello"; L "World"] (L "French") [] (L "English")
                         (L "en") [] [] Sample.ready eq_refl))).
Defined.

(** The one request of [get_style_guides] carries the credential. *)
Lemma every_request_carries_the_credential_witness :
  exists new,
    sent (snd (serve (Sample.answers (Sample.guides []))
                 Sample.status_message Sample.repr Sample.json_dumps
                 Sample.hashable_slices
                 Tool_get_style_guides Sample.ready))
    = new
    /\ Forall (fun r =>
                 req_headers r = client_headers (L "nativ_test_key")) new.
Proof.
  destruct (every_request_carries_the_credential
              (Sample.answers (Sample.guides [])) Sample.status_message
              Sample.repr Sample.json_dumps
              Sample.hashable_slices Tool_get_style_guides
              Sample.ready) as (new & Hsent & _ & _ & _ & Hall).
  exists new. split; [exact Hsent|].
  apply (Forall_impl _ (P := fun r =>
           (exists op, r = request_of (the_client Sample.ready) op
                       /\ reachable op = true)
           /\ req_headers r = client_headers (credential Sample.ready)
           /\ starts_with (base_url (the_client Sample.ready)) (req_url r)
              = true)); [|exact Hall].
  intros r (_ & Hh & _). exact Hh.
Defined.

(** An override with two trailing slashes loses both. *)
Lemma base_url_has_no_trailing_slash_witness :
  base_url (the_client Sample.staging) = L "https://staging.example"
  /\ base_url (NativClient_init (L "k") (Some [])) = DEFAULT_API_URL.
Proof.
  split.
  - reflexivity.
  - exact (proj2 (proj2 (base_url_has_no_trailing_slash (L "k") (Some [])))
             (or_intror eq_refl)).
Defined.

(** A negative character limit is dropped, a context is forwarded. *)
Lemma translate_forwards_what_is_set_witness :
  exists req body,
    sent (snd (translate (Sample.answers Sample.bonjour)
                 Sample.status_message Sample.repr (L "Hello") (L "French")
                 [] (L "English") (L "en") (L "a greeting") [] [] (-5) false
                 Sample.ready))
    = [req]
    /\ req_json req = Some body
    /\ dict_get body (L "context") = Some (VStr (L "a greeting"))
    /\ dict_get body (L "max_characters") = None.
Proof.
  destruct (translate_forwards_what_is_set
              (Sample.answers Sample.bonjour) Sample.status_message
              Sample.repr (L "Hello") (L "French") [] (L "English") (L "en")
              (L "a greeting") [] [] (-5) false Sample.ready eq_refl)
    as (req & body & Hsent & _ & _ & Hbody & _ & _ & _ & _ & _ & _ & Hctx
        & _ & _ & _ & Hmax).
  exists req, body. repeat split; try assumption.
  - apply Hctx. discriminate.
  - apply Hmax. discriminate.
Defined.

(** A search with a target language code sends it as [target_lang]. *)
Lemma search_forwards_its_parameters_witness :
  exists req params,
    sent (snd (search_translation_memory (Sample.answers (Sample.matches []))
                 Sample.status_message Sample.repr (L "Hello") (L "en")
                 (L "fr") (S754_zero false) 10 Sample.ready))
    = [req]
    /\ req_params req = Some params
    /\ dict_get params (L "query") = Some (VStr (L "Hello"))
    /\ dict_get params (L "limit") = Some (VInt 10)
    /\ dict_get params (L "target_lang") = Some (VStr (L "fr")).
Proof.
  destruct (search_forwards_its_parameters
              (Sample.answers (Sample.matches [])) Sample.status_message
              Sample.repr (L "Hello") (L "en") (L "fr") (S754_zero false) 10
              Sample.ready eq_refl)
    as (req & params & Hsent & _ & _ & Hp & Hq & _ & _ & Hl & Ht & _).
  exists req, params. repeat split; try assumption.
  apply Ht. discriminate.
Defined.

(** The confirmation echoes the arguments, not the answer. *)
Lemma add_entry_is_manual_and_confirms_only_success_witness :
  fst (add_translation_memory_entry (Sample.answers Sample.bonjour)
         Sample.status_message (L "Hello") (L "Bonjour") (L "en") (L "fr-FR")
         [] Sample.ready)
  = Ok (L "Added TM entry: " ++ dq ++ L "Hello" ++ dq ++ L " (en) " ++ arrow
          ++ L " " ++ dq ++ L "Bonjour" ++ dq ++ L " (fr-FR)")
  /\ fst (add_translation_memory_entry Sample.unreachable
            Sample.status_message (L "Hello") (L "Bonjour") (L "en")
            (L "fr-FR") [] Sample.ready)
     = Err (TransportError (L "connection refused")).
Proof.
  split.
  - exact (proj1 (proj2 (add_entry_is_manual_and_confirms_only_success
                           (Sample.answers Sample.bonjour)
                           Sample.status_message (L "Hello") (L "Bonjour")
                           (L "en") (L "fr-FR") [] Sample.ready eq_refl))
             _ eq_refl).
  - exact (proj2 (proj2 (add_entry_is_manual_and_confirms_only_success
                           Sample.unreachable Sample.status_message
                           (L "Hello") (L "Bonjour") (L "en") (L "fr-FR") []
                           Sample.ready eq_refl))
             _ eq_refl).
Defined.

(** A brand prompt that does not exist is reported as such, prompt or
    not. *)
Lemma empty_answers_give_sentinels_witness :
  fst (get_brand_voice
         (Sample.answers
            (VDict [ (L "exists", VBool false);
                     (L "prompt", VStr (L "Be kind.")) ]))
         Sample.status_message Sample.repr Sample.hashable_slices Sample.ready)
  = Ok (L "No brand voice prompt configured. Set one up at https://dashboard.usenativ.com "
          ++ arrow ++ L " Settings " ++ arrow ++ L " Style Guides").
Proof.
  exact (proj2 (proj2 (empty_answers_give_sentinels
                         (Sample.answers
                            (VDict [ (L "exists", VBool false);
                                     (L "prompt", VStr (L "Be kind.")) ]))
                         Sample.status_message Sample.repr
                         Sample.hashable_slices Sample.ready
                         _ (VBool false) eq_refl eq_refl))
           eq_refl eq_refl).
Defined.

(** A known provenance key gets its label, an unknown one passes; and
    the tool shows the summary, the heading and one row per bucket. *)
Lemma stats_labels_and_defaults_witness :
  source_line Sample.repr (L "manual", VDict [ (L "total", VInt 3) ])
  = Ok (L "- Manual Entries: 3 entries (0 enabled)")
  /\ source_line Sample.repr (L "imported", VDict [])
     = Ok (L "- imported: 0 entries (0 enabled)")
  /\ exists rows,
       fst (get_translation_memory_stats (Sample.answers Sample.stats)
              Sample.status_message Sample.repr Sample.ready)
       = Ok (join nl
               ([ L "**Translation Memory Statistics:**" ++ nl;
                  L "- Total entries: 5";
                  L "- Enabled: 4";
                  L "- Disabled: 0" ]
                ++ [nl ++ L "**By Source:**"] ++ rows))
       /\ nth_error rows 0
          = Some (L "- Manual Entries: 3 entries (2 enabled)")
       /\ nth_error rows 1 = Some (L "- imported: 2 entries (0 enabled)").
Proof.
  split; [|split].
  - refine (proj1 (stats_labels_and_defaults
                     (Sample.answers Sample.stats) Sample.status_message
                     Sample.repr [ (L "total", VInt 3) ]) (L "manual")
              (L "Manual Entries") _).
    cbn. tauto.
  - refine (proj1 (proj2 (stats_labels_and_defaults
                            (Sample.answers Sample.stats)
                            Sample.status_message Sample.repr []))
              (L "imported") _).
    cbn. intros H.
    repeat (destruct H as [H|H]; [discriminate H|]). exact H.
  - destruct (proj2 (proj2 (proj2 (stats_labels_and_defaults
                (Sample.answers Sample.stats) Sample.status_message
                Sample.repr _)))
                Sample.ready _ eq_refl eq_refl eq_refl)
      as (rows & Hout & _ & Hrows).
    + discriminate.
    + repeat constructor; eexists; reflexivity.
    + exists rows. split; [exact Hout|].
      destruct (Hrows 0%nat _ _ eq_refl)
        as (l0 & H0 & _ & _ & _ & _ & _ & Hmanual & _).
      destruct (Hrows 1%nat _ _ eq_refl)
        as (l1 & H1 & _ & _ & _ & _ & _ & _ & Hother).
      rewrite H0, H1, (Hmanual eq_refl).
      rewrite Hother by discriminate. split; reflexivity.
Defined.

(** A bare translation is rendered as its headline alone. *)
Lemma translate_output_begins_with_headline_witness :
  fst (translate (Sample.answers Sample.bonjour) Sample.status_message
         Sample.repr (L "Hello") (L "French") [] (L "English") (L "en")
         [] [] [] 0 false Sample.ready)
  = Ok (L "**Translation (French):** Bonjour").
Proof.
  exact (proj2 (translate_output_begins_with_headline
                  (Sample.answers Sample.bonjour) Sample.status_message
                  Sample.repr (L "Hello") (L "French") [] (L "English")
                  (L "en") [] [] [] 0 false Sample.ready _ eq_refl eq_refl)
           _ eq_refl eq_refl eq_refl eq_refl).
Defined.

(** An answer with a back-translation and a rationale shows both. *)
Lemma translate_optional_sections_iff_present_witness :
  exists parts,
    translate_parts Sample.repr (L "French") Sample.full_translation
    = Ok parts
    /\ fst (translate (Sample.answers Sample.full_translation)
              Sample.status_message Sample.repr (L "Hello") (L "French") []
              (L "English") (L "en") [] [] [] 0 true Sample.ready)
       = Ok (join nl parts)
    /\ In (nl ++ L "**Back-translation:** Hello") parts
    /\ In (nl ++ L "**Rationale:** Common greeting") parts.
Proof.
  destruct (translate_optional_sections_iff_present
              (Sample.answers Sample.full_translation) Sample.status_message
              Sample.repr (L "Hello") (L "French") [] (L "English") (L "en")
              [] [] [] 0 true Sample.ready _ _ eq_refl eq_refl eq_refl)
    as (parts & back & rationale & Hparts & Hout & Hb & Hr & _ & _ & Hinb
        & Hinr).
  exists parts. split; [exact Hparts|]. split; [now rewrite <- Hout|].
  apply Ok_inj in Hb. apply Ok_inj in Hr. subst back rationale.
  split; [apply Hinb|apply Hinr]; reflexivity.
Defined.

(** A context is appended after the content. *)
Lemma localize_content_appends_context_witness :
  localize_content (L "Welcome back") (L "French") (L "login screen")
  = localize_content (L "Welcome back") (L "French") []
      ++ nl ++ [] ++ nl ++ (L "## Context" ++ nl) ++ nl ++ L "login screen".
Proof.
  refine (proj1 (proj2 (localize_content_appends_context
                          (L "Welcome back") (L "French")
                          (L "login screen"))) _).
  discriminate.
Defined.

(** A content of 600 characters is shown in 503, a null one fails. *)
Lemma guide_content_is_bounded_witness :
  (exists shown,
     guide_content
     Sample.hashable_slices (VStr (Sample.letters 600)) = Ok (VStr shown)
     /\ (length shown <= 503)%nat)
  /\ guide_lines Sample.repr
  Sample.hashable_slices (VDict [ (L "content", VNone) ])
     = Err (TypeError (L "object of type 'NoneType' has no len()")).
Proof.
  destruct (guide_content_is_bounded Sample.repr Sample.hashable_slices
              (Sample.letters 600)
              [ (L "content", VNone) ])
    as ((shown & Hs & Hlen & _) & Hnull).
  split.
  - exists shown. split; assumption.
  - apply Hnull. reflexivity.
Defined.

(** One configured language, without formality: neutral. *)
Lemma get_languages_lists_entries_in_order_witness :
  exists lines,
    fst (get_languages (Sample.answers (Sample.languages [Sample.french]))
           Sample.status_message Sample.repr Sample.ready)
    = Ok (join nl ((L "**Configured Languages** (1):" ++ nl) :: lines))
    /\ nth_error lines 0
       = Some (L "- **French** (`fr`) " ++ emdash ++ L " formality: neutral").
Proof.
  destruct (get_languages_lists_entries_in_order
              (Sample.answers (Sample.languages [Sample.french]))
              Sample.status_message Sample.repr Sample.ready _
              [Sample.french] eq_refl eq_refl eq_refl)
    as (lines & Hout & _ & Hnth).
  - discriminate.
  - repeat constructor.
    exists [ (L "language", VStr (L "French"));
             (L "language_code", VStr (L "fr")) ],
      (VStr (L "French")), (VStr (L "fr")).
    repeat split.
  - exists lines. split; [exact Hout|].
    destruct (Hnth 0%nat _ (VStr (L "French")) (VStr (L "fr"))
                eq_refl eq_refl eq_refl) as (line & Hl & _ & _ & Hneutral).
    rewrite Hl. f_equal. apply Hneutral; reflexivity.
Defined.

(** A match scored 87.5 is noted, a match scored 0 is not. *)
Lemma batch_line_notes_positive_matches_witness :
  batch_line Sample.repr 0 (L "Hello")
    (VDict [ (L "translated_text", VStr (L "Bonjour"));
             (L "tm_match", Sample.tm_hello) ])
  = Ok (L "1. " ++ dq ++ L "Hello" ++ dq ++ L " " ++ arrow ++ L " " ++ dq
          ++ L "Bonjour" ++ dq ++ L " (TM 88%)")
  /\ batch_line Sample.repr 0 (L "Hello")
       (VDict [ (L "translated_text", VStr (L "Bonjour"));
                (L "tm_match", Sample.tm_zero) ])
     = Ok (L "1. " ++ dq ++ L "Hello" ++ dq ++ L " " ++ arrow ++ L " " ++ dq
             ++ L "Bonjour" ++ dq).
Proof.
  split.
  - exact (proj1 (batch_line_notes_positive_matches Sample.repr 0 (L "Hello")
                    [ (L "translated_text", VStr (L "Bonjour"));
                      (L "tm_match", Sample.tm_hello) ])
             _ (VFloat Sample.score_87_5) true (L "88")
             eq_refl eq_refl eq_refl eq_refl).
  - exact (proj1 (batch_line_notes_positive_matches Sample.repr 0 (L "Hello")
                    [ (L "translated_text", VStr (L "Bonjour"));
                      (L "tm_match", Sample.tm_zero) ])
             _ (VInt 0) false (L "0") eq_refl eq_refl eq_refl eq_refl).
Defined.

(** The languages resource dumps the answer the tool would render. *)
Lemma resources_dump_the_answer_of_their_tool_witness :
  fst (resource_languages (Sample.answers (Sample.languages [Sample.french]))
         Sample.status_message Sample.json_dumps Sample.ready)
  = Ok (Sample.json_dumps (Sample.languages [Sample.french])).
Proof.
  exact (proj1 (resources_dump_the_answer_of_their_tool
                  (Sample.answers (Sample.languages [Sample.french]))
                  Sample.status_message Sample.repr Sample.json_dumps
                  Sample.hashable_slices
                  Sample.ready eq_refl) _ eq_refl).
Defined.

(** A listing filtered by target language only. *)
Lemma list_tm_entries_forwards_filters_witness :
  exists req params,
    sent (snd (call (Sample.answers Sample.bonjour) Sample.status_message
                 (the_client Sample.ready)
                 (Op_list_tm_entries None (Some (L "fr")) (Some []) 50 0)
                 Sample.ready))
    = [req]
    /\ req_params req = Some params
    /\ dict_get params (L "target_lang") = Some (VStr (L "fr"))
    /\ dict_get params (L "source_lang") = None
    /\ dict_get params (L "search") = None.
Proof.
  destruct (list_tm_entries_forwards_filters
              (Sample.answers Sample.bonjour) Sample.status_message
              (the_client Sample.ready) None (Some (L "fr")) (Some []) 50 0
              Sample.ready)
    as (req & params & Hsent & _ & _ & _ & Hp & _ & _ & _ & Ht & _ & Hs
        & _ & Hsearch).
  exists req, params. repeat split; try assumption.
  - apply (Ht (L "fr") eq_refl). discriminate.
  - apply Hs. reflexivity.
  - apply Hsearch. reflexivity.
Defined.
